(** * Voltage / dB converter: a shallow embedding of [voltage-db_convert.pyw]

    The converter is a tkinter window with six entry boxes (V-p, V-pp, V-RMS,
    dBu, dBV, dBm), an impedance box and a rounding spinbox.  Each "Convert"
    button runs one [calc_*] handler, which reads its own box and rewrites the
    other five through the [update_*] helpers.

    Modelling choices.
    - A Python [float] is [pyfloat]: a finite value carried as a real number, or
      one of [inf], [-inf], [nan].  Arithmetic on finite values is exact real
      arithmetic: [math.log10] is [ln x / ln 10], [**] is [Rpower],
      [math.sqrt] is [sqrt].  There is no binary rounding, no overflow (so no
      [OverflowError] from [**]) and no underflow to zero; the special values
      follow IEEE 754 as Python exposes it.
    - The widgets are a record of strings; a handler is a state transformer
      that may raise, [M A := gui -> result A * gui].  The state reached when
      an exception escapes is kept, exactly as the widgets keep their text.
    - [messagebox.showerror] puts the title of the dialog in front of
      [errors].
    - The builtins [float(str)], [int(str)], [str(int)] and the format
      [f'{x:.{n}f}'] are modelled on text whose characters are code points
      below 256, [float(str)] and [int(str)] after the grammar of the
      language reference (sign, digits with single underscores between them,
      point, exponent, [inf], [infinity], [nan], surrounding white space).
      Characters beyond that (a full-width digit, say, which [float()] also
      reads) are outside the model.

    Where the idealised arithmetic matters.  A double overflows above about
    1.8e308, where [**] raises [OverflowError] and [*] gives [inf]; below
    about 5e-324 a result is [0.0]; and every result is rounded to 53 bits.
    The statements about the formulas themselves are statements over the
    reals.  Where a statement about what a handler does on a range of
    entries depends on the arithmetic, it is made for entries for which none
    of the program's operations overflows or underflows ([in_range],
    [at_most], [impedance_not_tiny]), and where it gives a computed value it
    gives it up to a tolerance that covers the rounding ([written_near],
    [written_within]). *)

From Stdlib Require Import Reals Lra Lia ZArith Bool String Ascii List.
From Stdlib Require Import DecimalString DecimalPos.
Import ListNotations.

Open Scope R_scope.
Open Scope string_scope.

(** ** Python values and exceptions *)

Inductive pyfloat : Type :=
| Fin (r : R)
| PInf
| NInf
| NaN.

Inductive exn : Type :=
| ValueError
| ZeroDivisionError
| OverflowError.

Inductive result (A : Type) : Type :=
| Ok (a : A)
| Raise (e : exn).

Arguments Ok {A} a.
Arguments Raise {A} e.

Definition rbind {A B : Type} (c : result A) (k : A -> result B) : result B :=
  match c with
  | Ok a => k a
  | Raise e => Raise e
  end.

Notation "'let!' x ':=' c 'in' k" := (rbind c (fun x => k))
  (at level 10, x name, c at level 100, k at level 200).

(** ** Float arithmetic *)

Module PyFloat.

(** [x <= 0.0] *)
Definition le0 (x : pyfloat) : bool :=
  match x with
  | Fin r => if Rle_dec r 0 then true else false
  | NInf => true
  | PInf | NaN => false
  end.

Definition inf_of_sign (negative : bool) : pyfloat :=
  if negative then NInf else PInf.

(** The product of an infinity (negative or not) with the finite [a]. *)
Definition mul_inf (negative : bool) (a : R) : pyfloat :=
  if Req_dec_T a 0 then NaN
  else if Rlt_dec a 0 then inf_of_sign (negb negative)
  else inf_of_sign negative.

(** [x * y] *)
Definition mul (x y : pyfloat) : pyfloat :=
  match x, y with
  | NaN, _ | _, NaN => NaN
  | Fin a, Fin b => Fin (a * b)
  | Fin a, PInf | PInf, Fin a => mul_inf false a
  | Fin a, NInf | NInf, Fin a => mul_inf true a
  | PInf, PInf | NInf, NInf => PInf
  | PInf, NInf | NInf, PInf => NInf
  end.

(** [x / y]: a zero divisor raises whatever the dividend is. *)
Definition div (x y : pyfloat) : result pyfloat :=
  match y with
  | Fin b =>
      if Req_dec_T b 0 then Raise ZeroDivisionError
      else match x with
           | Fin a => Ok (Fin (a / b))
           | PInf => Ok (mul_inf false b)
           | NInf => Ok (mul_inf true b)
           | NaN => Ok NaN
           end
  | PInf | NInf =>
      match x with
      | Fin _ => Ok (Fin 0)
      | _ => Ok NaN
      end
  | NaN => Ok NaN
  end.

(** [10 ** y] (over the reals: the program raises [OverflowError] when the
    power leaves the range of a double, and gives [0.0] when it underflows) *)
Definition pow10 (y : pyfloat) : pyfloat :=
  match y with
  | Fin r => Fin (Rpower 10 r)
  | PInf => PInf
  | NInf => Fin 0
  | NaN => NaN
  end.

(** [x ** 2] (over the reals: the program raises [OverflowError] when the
    square leaves the range of a double, and gives [0.0] when it underflows) *)
Definition sq (x : pyfloat) : pyfloat :=
  match x with
  | Fin r => Fin (r ^ 2)
  | PInf | NInf => PInf
  | NaN => NaN
  end.

(** [math.sqrt(x)] *)
Definition math_sqrt (x : pyfloat) : result pyfloat :=
  match x with
  | Fin r => if Rlt_dec r 0 then Raise ValueError else Ok (Fin (sqrt r))
  | PInf => Ok PInf
  | NInf => Raise ValueError
  | NaN => Ok NaN
  end.

Definition log10 (r : R) : R := ln r / ln 10.

(** [math.log10(x)]: a math domain error outside [(0, inf]]. *)
Definition math_log10 (x : pyfloat) : result pyfloat :=
  match x with
  | Fin r => if Rle_dec r 0 then Raise ValueError else Ok (Fin (log10 r))
  | PInf => Ok PInf
  | NInf => Raise ValueError
  | NaN => Ok NaN
  end.

Definition is_whole (r : R) : bool :=
  if Req_dec_T r (IZR (Zfloor r)) then true else false.

(** [x.is_integer()] *)
Definition is_integer (x : pyfloat) : bool :=
  match x with
  | Fin r => is_whole r
  | _ => false
  end.

(** [int(x)] truncates a finite value towards zero. *)
Definition trunc (r : R) : Z :=
  if Rle_dec 0 r then Zfloor r else Zceil r.

Definition int (x : pyfloat) : result Z :=
  match x with
  | Fin r => Ok (trunc r)
  | PInf | NInf => Raise OverflowError
  | NaN => Raise ValueError
  end.

End PyFloat.

(** ** Text: [str(int)], [f'{x:.{n}f}'], [float(str)], [int(str)] *)

Module PyText.

(** [str(z)] for an [int]. *)
Definition str_int (z : Z) : string :=
  NilZero.string_of_int (Z.to_int z).

Definition digit_char (d : Z) : ascii :=
  ascii_of_nat (48 + Z.to_nat d).

(** The [n] low decimal digits of [m], most significant first. *)
Fixpoint frac_digits (n : nat) (m : Z) : string :=
  match n with
  | O => EmptyString
  | S k => String (digit_char ((m / 10 ^ Z.of_nat k) mod 10)) (frac_digits k m)
  end.

(** Nearest integer to [x], ties to the even neighbour. *)
Definition round_half_even (x : R) : Z :=
  let f := Zfloor x in
  let d := x - IZR f in
  if Rlt_dec d (1 / 2) then f
  else if Rlt_dec (1 / 2) d then (f + 1)%Z
  else if Z.even f then f else (f + 1)%Z.

(** [f'{r:.{n}f}'] for a finite [r]: the sign, the integer digits and, when
    [n > 0], a point followed by [n] digits. *)
Definition format_fixed (n : nat) (r : R) : string :=
  let m := round_half_even (Rabs r * 10 ^ n) in
  let scale := (10 ^ Z.of_nat n)%Z in
  (if Rlt_dec r 0 then "-" else "")
    ++ str_int (m / scale)
    ++ match n with
       | O => ""
       | S _ => "." ++ frac_digits n (m mod scale)
       end.

(** [f'{x:.{n}f}'] *)
Definition format_f (n : nat) (x : pyfloat) : string :=
  match x with
  | Fin r => format_fixed n r
  | PInf => "inf"
  | NInf => "-inf"
  | NaN => "nan"
  end.

(** What float() and int() read: a sign, decimal digits, a power of ten. *)
Inductive literal : Type :=
| LNan
| LInf (negative : bool)
| LDec (negative : bool) (mantissa : Z) (exp10 : Z).

(** The white space that [float()] and [int()] strip: tab to carriage
    return, the space, and the two spaces above 127 (next line and no-break
    space). *)
Definition is_space (c : ascii) : bool :=
  let n := nat_of_ascii c in
  ((9 <=? n)%nat && (n <=? 13)%nat)
  || (n =? 32)%nat || (n =? 133)%nat || (n =? 160)%nat.

(** The value of a decimal digit; below code point 256 these are [0] to [9]
    only. *)
Definition digit_val (c : ascii) : option Z :=
  let n := nat_of_ascii c in
  if ((48 <=? n)%nat && (n <=? 57)%nat)%bool
  then Some (Z.of_nat (n - 48))
  else None.

Definition lower (c : ascii) : ascii :=
  let n := nat_of_ascii c in
  if ((65 <=? n)%nat && (n <=? 90)%nat)%bool
  then ascii_of_nat (n + 32)
  else c.

Fixpoint lstrip (l : list ascii) : list ascii :=
  match l with
  | c :: l' => if is_space c then lstrip l' else l
  | [] => []
  end.

Definition strip (l : list ascii) : list ascii :=
  rev (lstrip (rev (lstrip l))).

(** The rest of a digitpart, [(["_"] digit)*]: the value and the number of
    digits read so far are accumulated, the unread text is returned. *)
Fixpoint digits_tail (acc : Z) (cnt : nat) (l : list ascii)
  : Z * nat * list ascii :=
  match l with
  | [] => (acc, cnt, [])
  | c :: l' =>
      match digit_val c with
      | Some d => digits_tail (10 * acc + d) (S cnt) l'
      | None =>
          if Ascii.eqb c "_"
          then match l' with
               | c2 :: l'' =>
                   match digit_val c2 with
                   | Some d => digits_tail (10 * acc + d) (S cnt) l''
                   | None => (acc, cnt, l)
                   end
               | [] => (acc, cnt, l)
               end
          else (acc, cnt, l)
      end
  end.

(** [digitpart ::= digit (["_"] digit)*], continuing the value [acc]. *)
Definition digitpart (acc : Z) (l : list ascii)
  : option (Z * nat * list ascii) :=
  match l with
  | c :: l' =>
      match digit_val c with
      | Some d => Some (digits_tail (10 * acc + d) 1 l')
      | None => None
      end
  | [] => None
  end.

Definition read_sign (l : list ascii) : bool * list ascii :=
  match l with
  | c :: l' =>
      if Ascii.eqb c "-" then (true, l')
      else if Ascii.eqb c "+" then (false, l')
      else (false, l)
  | [] => (false, [])
  end.

(** [exponent ::= ("e" | "E") [sign] digitpart], up to the end of the text;
    no exponent at all reads as [0]. *)
Definition read_exponent (l : list ascii) : option Z :=
  match l with
  | [] => Some 0%Z
  | c :: l' =>
      if Ascii.eqb (lower c) "e"
      then let (neg, l1) := read_sign l' in
           match digitpart 0 l1 with
           | Some (e, _, []) => Some (if neg then (- e)%Z else e)
           | _ => None
           end
      else None
  end.

(** [number ::= [digitpart] "." digitpart | digitpart ["."]]: the mantissa
    as an integer, the number of digits after the point, the unread text. *)
Definition read_number (l : list ascii) : option (Z * nat * list ascii) :=
  match digitpart 0 l with
  | Some (ip, _, l1) =>
      match l1 with
      | c :: l2 =>
          if Ascii.eqb c "."
          then match digitpart ip l2 with
               | Some (m, k, l3) => Some (m, k, l3)
               | None => Some (ip, O, l2)
               end
          else Some (ip, O, l1)
      | [] => Some (ip, O, [])
      end
  | None =>
      match l with
      | c :: l2 =>
          if Ascii.eqb c "."
          then digitpart 0 l2
          else None
      | [] => None
      end
  end.

Definition parse_float (s : string) : option literal :=
  let (neg, body) := read_sign (strip (list_ascii_of_string s)) in
  let word := string_of_list_ascii (map lower body) in
  if String.eqb word "nan" then Some LNan
  else if (String.eqb word "inf" || String.eqb word "infinity")%bool
  then Some (LInf neg)
  else match read_number body with
       | Some (m, k, rest) =>
           match read_exponent rest with
           | Some e => Some (LDec neg m (e - Z.of_nat k))
           | None => None
           end
       | None => None
       end.

(** The value of a literal, exactly.  The program takes the nearest double:
    a decimal below about [5e-324] in magnitude reads as [0.0], one above
    about [1.8e308] as [inf]. *)
Definition float_of_literal (t : literal) : pyfloat :=
  match t with
  | LNan => NaN
  | LInf negative => PyFloat.inf_of_sign negative
  | LDec negative m e =>
      Fin ((if negative then - IZR m else IZR m) * powerRZ 10 e)
  end.

(** [float(s)]: an unreadable text raises [ValueError]. *)
Definition float (s : string) : result pyfloat :=
  match parse_float s with
  | Some t => Ok (float_of_literal t)
  | None => Raise ValueError
  end.

Definition parse_int (s : string) : option Z :=
  let (neg, body) := read_sign (strip (list_ascii_of_string s)) in
  match digitpart 0 body with
  | Some (v, _, []) => Some (if neg then (- v)%Z else v)
  | _ => None
  end.

(** [int(s)] *)
Definition int (s : string) : result Z :=
  match parse_int s with
  | Some v => Ok v
  | None => Raise ValueError
  end.

End PyText.

(** ** The window: widget contents and the stored rounding *)

Record gui : Type := mkGui {
  rounding : Z;
  vp_box : string;
  vpp_box : string;
  vrms_box : string;
  dbu_box : string;
  dbv_box : string;
  dbm_box : string;
  impedance_box : string;
  rounding_spinbox : string;
  errors : list string
}.

Definition set_rounding (v : Z) (s : gui) : gui :=
  mkGui v (vp_box s) (vpp_box s) (vrms_box s) (dbu_box s) (dbv_box s)
        (dbm_box s) (impedance_box s) (rounding_spinbox s) (errors s).

Definition set_vp_box (t : string) (s : gui) : gui :=
  mkGui (rounding s) t (vpp_box s) (vrms_box s) (dbu_box s) (dbv_box s)
        (dbm_box s) (impedance_box s) (rounding_spinbox s) (errors s).

Definition set_vpp_box (t : string) (s : gui) : gui :=
  mkGui (rounding s) (vp_box s) t (vrms_box s) (dbu_box s) (dbv_box s)
        (dbm_box s) (impedance_box s) (rounding_spinbox s) (errors s).

Definition set_vrms_box (t : string) (s : gui) : gui :=
  mkGui (rounding s) (vp_box s) (vpp_box s) t (dbu_box s) (dbv_box s)
        (dbm_box s) (impedance_box s) (rounding_spinbox s) (errors s).

Definition set_dbu_box (t : string) (s : gui) : gui :=
  mkGui (rounding s) (vp_box s) (vpp_box s) (vrms_box s) t (dbv_box s)
        (dbm_box s) (impedance_box s) (rounding_spinbox s) (errors s).

Definition set_dbv_box (t : string) (s : gui) : gui :=
  mkGui (rounding s) (vp_box s) (vpp_box s) (vrms_box s) (dbu_box s) t
        (dbm_box s) (impedance_box s) (rounding_spinbox s) (errors s).

Definition set_dbm_box (t : string) (s : gui) : gui :=
  mkGui (rounding s) (vp_box s) (vpp_box s) (vrms_box s) (dbu_box s)
        (dbv_box s) t (impedance_box s) (rounding_spinbox s) (errors s).

Definition set_impedance_box (t : string) (s : gui) : gui :=
  mkGui (rounding s) (vp_box s) (vpp_box s) (vrms_box s) (dbu_box s)
        (dbv_box s) (dbm_box s) t (rounding_spinbox s) (errors s).

Definition set_rounding_spinbox (t : string) (s : gui) : gui :=
  mkGui (rounding s) (vp_box s) (vpp_box s) (vrms_box s) (dbu_box s)
        (dbv_box s) (dbm_box s) (impedance_box s) t (errors s).

Definition push_error (title : string) (s : gui) : gui :=
  mkGui (rounding s) (vp_box s) (vpp_box s) (vrms_box s) (dbu_box s)
        (dbv_box s) (dbm_box s) (impedance_box s) (rounding_spinbox s)
        (title :: errors s).

(** ** Handlers as state transformers that may raise *)

Definition M (A : Type) : Type := gui -> result A * gui.

Definition ret {A : Type} (a : A) : M A := fun s => (Ok a, s).

Definition bind {A B : Type} (c : M A) (k : A -> M B) : M B :=
  fun s =>
    match c s with
    | (Ok a, s') => k a s'
    | (Raise e, s') => (Raise e, s')
    end.

Definition raise {A : Type} (e : exn) : M A := fun s => (Raise e, s).

Definition lift {A : Type} (c : result A) : M A := fun s => (c, s).

Definition gets {A : Type} (f : gui -> A) : M A := fun s => (Ok (f s), s).

Definition modify (f : gui -> gui) : M unit := fun s => (Ok tt, f s).

(** [try: body  except ValueError: handler] *)
Definition try_except (body handler : M unit) : M unit :=
  fun s =>
    match body s with
    | (Raise ValueError, s') => handler s'
    | other => other
    end.

(** [try: body  except ValueError: handler  else: continue] *)
Definition try_except_else {A : Type} (body : M A) (handler : M unit)
           (continue : A -> M unit) : M unit :=
  fun s =>
    match body s with
    | (Ok a, s') => continue a s'
    | (Raise ValueError, s') => handler s'
    | (Raise e, s') => (Raise e, s')
    end.

Notation "x <- c ;; k" := (bind c (fun x => k))
  (at level 61, c at next level, right associativity).
Notation "c ;; k" := (bind c (fun _ => k))
  (at level 61, right associativity).

(** [messagebox.showerror(title, ...)] *)
Definition showerror (title : string) : M unit := modify (push_error title).

(** [float(box.get())] *)
Definition float_of (box : gui -> string) : M pyfloat :=
  t <- gets box ;; lift (PyText.float t).

(** ** The conversion code *)

(** The reference voltage of dBu, [sqrt(0.001 W * 600 ohm)] as the source
    writes it. *)
Definition REF_U : R := 0.7745966692.

(** The four lines every helper repeats before it rewrites its box:
    [if x.is_integer(): x = int(x)  else: x = f'{x:.{self.rounding}f}'],
    then [str(x)]. *)
Definition render (rnd : Z) (x : pyfloat) : result string :=
  if PyFloat.is_integer x
  then let! z := PyFloat.int x in Ok (PyText.str_int z)
  else Ok (PyText.format_f (Z.to_nat rnd) x).

(** [box.delete(0, tk.END); box.insert(0, str(x))] after the lines above. *)
Definition write_box (set : string -> gui -> gui) (x : pyfloat) : M unit :=
  rnd <- gets rounding ;;
  t <- lift (render rnd x) ;;
  modify (set t).

Definition update_rounding : M unit :=
  try_except
    (t <- gets rounding_spinbox ;;
     rounding_val <- lift (PyText.int t) ;;
     if ((rounding_val <? 1) || (rounding_val >? 10))%Z
     then raise ValueError
     else modify (set_rounding rounding_val))
    (showerror "Decimal places rounding error").

(** The arithmetic of the helpers, one definition per right-hand side. *)

(** [1 / math.sqrt(2)] *)
Definition inv_sqrt2 : result pyfloat :=
  let! r2 := PyFloat.math_sqrt (Fin 2) in PyFloat.div (Fin 1) r2.

(** [vp = (vpp / 2)] *)
Definition vp_of_vpp (vpp : pyfloat) : result pyfloat :=
  PyFloat.div vpp (Fin 2).

(** [vp = (vrms * math.sqrt(2))] *)
Definition vp_of_vrms (vrms : pyfloat) : result pyfloat :=
  let! r2 := PyFloat.math_sqrt (Fin 2) in Ok (PyFloat.mul vrms r2).

(** [vpp = (vp * 2)] *)
Definition vpp_of_vp (vp : pyfloat) : result pyfloat :=
  Ok (PyFloat.mul vp (Fin 2)).

(** [vpp = (2 * vrms * math.sqrt(2))] *)
Definition vpp_of_vrms (vrms : pyfloat) : result pyfloat :=
  let! r2 := PyFloat.math_sqrt (Fin 2) in
  Ok (PyFloat.mul (PyFloat.mul (Fin 2) vrms) r2).

(** [vrms = vp * (1 / math.sqrt(2))] *)
Definition vrms_of_vp (vp : pyfloat) : result pyfloat :=
  let! q := inv_sqrt2 in Ok (PyFloat.mul vp q).

(** [vrms = (vpp / 2) * (1 / math.sqrt(2))] *)
Definition vrms_of_vpp (vpp : pyfloat) : result pyfloat :=
  let! h := PyFloat.div vpp (Fin 2) in
  let! q := inv_sqrt2 in
  Ok (PyFloat.mul h q).

(** [vrms = 0.7745966692 * 10**(dbu / 20)] *)
Definition vrms_of_dbu (dbu : pyfloat) : result pyfloat :=
  let! e := PyFloat.div dbu (Fin 20) in
  Ok (PyFloat.mul (Fin REF_U) (PyFloat.pow10 e)).

(** [vrms = 10**(dbv / 20)] *)
Definition vrms_of_dbv (dbv : pyfloat) : result pyfloat :=
  let! e := PyFloat.div dbv (Fin 20) in
  Ok (PyFloat.pow10 e).

(** [vrms = math.sqrt((0.001 * impedance) * 10**(dbm / 10))] *)
Definition vrms_of_dbm (impedance dbm : pyfloat) : result pyfloat :=
  let! e := PyFloat.div dbm (Fin 10) in
  PyFloat.math_sqrt
    (PyFloat.mul (PyFloat.mul (Fin 0.001) impedance) (PyFloat.pow10 e)).

(** [dbu = 20 * math.log10((vrms / 0.7745966692))] *)
Definition dbu_of_vrms (vrms : pyfloat) : result pyfloat :=
  let! q := PyFloat.div vrms (Fin REF_U) in
  let! l := PyFloat.math_log10 q in
  Ok (PyFloat.mul (Fin 20) l).

(** [dbv = 20 * math.log10(vrms)] *)
Definition dbv_of_vrms (vrms : pyfloat) : result pyfloat :=
  let! l := PyFloat.math_log10 vrms in
  Ok (PyFloat.mul (Fin 20) l).

(** [dbm = 10 * math.log10((vrms**2) / (0.001 * impedance))] *)
Definition dbm_of_vrms (impedance vrms : pyfloat) : result pyfloat :=
  let! q := PyFloat.div (PyFloat.sq vrms) (PyFloat.mul (Fin 0.001) impedance) in
  let! l := PyFloat.math_log10 q in
  Ok (PyFloat.mul (Fin 10) l).

Definition update_vp (vpp vrms : option pyfloat) : M unit :=
  match vpp, vrms with
  | Some vpp, _ =>
      vp <- lift (vp_of_vpp vpp) ;;
      write_box set_vp_box vp
  | None, Some vrms =>
      vp <- lift (vp_of_vrms vrms) ;;
      write_box set_vp_box vp
  | None, None => ret tt
  end.

Definition update_vpp (vp vrms : option pyfloat) : M unit :=
  match vp, vrms with
  | Some vp, _ =>
      vpp <- lift (vpp_of_vp vp) ;;
      write_box set_vpp_box vpp
  | None, Some vrms =>
      vpp <- lift (vpp_of_vrms vrms) ;;
      write_box set_vpp_box vpp
  | None, None => ret tt
  end.

Definition update_vrms (vp vpp dbu dbv dbm : option pyfloat) : M unit :=
  match vp, vpp, dbu, dbv, dbm with
  | Some vp, _, _, _, _ =>
      vrms <- lift (vrms_of_vp vp) ;;
      write_box set_vrms_box vrms
  | None, Some vpp, _, _, _ =>
      vrms <- lift (vrms_of_vpp vpp) ;;
      write_box set_vrms_box vrms
  | None, None, Some dbu, _, _ =>
      vrms <- lift (vrms_of_dbu dbu) ;;
      write_box set_vrms_box vrms
  | None, None, None, Some dbv, _ =>
      vrms <- lift (vrms_of_dbv dbv) ;;
      write_box set_vrms_box vrms
  | None, None, None, None, Some dbm =>
      try_except
        (impedance <- float_of impedance_box ;;
         if PyFloat.le0 impedance
         then raise ValueError
         else
           vrms <- lift (vrms_of_dbm impedance dbm) ;;
           write_box set_vrms_box vrms)
        (showerror "dBm Impedance Error")
  | None, None, None, None, None => ret tt
  end.

Definition update_dbu (vrms : pyfloat) : M unit :=
  dbu <- lift (dbu_of_vrms vrms) ;;
  write_box set_dbu_box dbu.

Definition update_dbv (vrms : pyfloat) : M unit :=
  dbv <- lift (dbv_of_vrms vrms) ;;
  write_box set_dbv_box dbv.

Definition update_dbm (vrms : pyfloat) : M unit :=
  try_except
    (impedance <- float_of impedance_box ;;
     if PyFloat.le0 impedance
     then raise ValueError
     else
       dbm <- lift (dbm_of_vrms impedance vrms) ;;
       write_box set_dbm_box dbm)
    (showerror "dBm Impedance Error").

(** The [try] statement of each handler, which follows the call of
    [update_rounding]. *)

Definition vp_conversion : M unit :=
  try_except
    (entry_val <- float_of vp_box ;;
     if PyFloat.le0 entry_val
     then raise ValueError
     else
       update_vpp (Some entry_val) None ;;
       update_vrms (Some entry_val) None None None None ;;
       (v <- float_of vrms_box ;; update_dbu v) ;;
       (v <- float_of vrms_box ;; update_dbv v) ;;
       (v <- float_of vrms_box ;; update_dbm v))
    (showerror "V-p Error").

Definition vpp_conversion : M unit :=
  try_except
    (entry_val <- float_of vpp_box ;;
     if PyFloat.le0 entry_val
     then raise ValueError
     else
       update_vp (Some entry_val) None ;;
       update_vrms None (Some entry_val) None None None ;;
       (v <- float_of vrms_box ;; update_dbu v) ;;
       (v <- float_of vrms_box ;; update_dbv v) ;;
       (v <- float_of vrms_box ;; update_dbm v))
    (showerror "V-pp Error").

Definition vrms_conversion : M unit :=
  try_except
    (entry_val <- float_of vrms_box ;;
     if PyFloat.le0 entry_val
     then raise ValueError
     else
       update_vp None (Some entry_val) ;;
       update_vpp None (Some entry_val) ;;
       update_dbu entry_val ;;
       update_dbv entry_val ;;
       update_dbm entry_val)
    (showerror "V-RMS Error").

Definition dbu_conversion : M unit :=
  try_except_else (float_of dbu_box) (showerror "dBu Error")
    (fun entry_val =>
       update_vrms None None (Some entry_val) None None ;;
       (v <- float_of vrms_box ;; update_vp None (Some v)) ;;
       (v <- float_of vrms_box ;; update_vpp None (Some v)) ;;
       (v <- float_of vrms_box ;; update_dbv v) ;;
       (v <- float_of vrms_box ;; update_dbm v)).

Definition dbv_conversion : M unit :=
  try_except_else (float_of dbv_box) (showerror "dBV Error")
    (fun entry_val =>
       update_vrms None None None (Some entry_val) None ;;
       (v <- float_of vrms_box ;; update_vp None (Some v)) ;;
       (v <- float_of vrms_box ;; update_vpp None (Some v)) ;;
       (v <- float_of vrms_box ;; update_dbu v) ;;
       (v <- float_of vrms_box ;; update_dbm v)).

Definition dbm_conversion : M unit :=
  try_except_else (float_of dbm_box) (showerror "dBm Error")
    (fun entry_val =>
       update_vrms None None None None (Some entry_val) ;;
       (v <- float_of vrms_box ;; update_vp None (Some v)) ;;
       (v <- float_of vrms_box ;; update_vpp None (Some v)) ;;
       (v <- float_of vrms_box ;; update_dbu v) ;;
       (v <- float_of vrms_box ;; update_dbv v)).

Definition calc_vp : M unit := update_rounding ;; vp_conversion.
Definition calc_vpp : M unit := update_rounding ;; vpp_conversion.
Definition calc_vrms : M unit := update_rounding ;; vrms_conversion.
Definition calc_dbu : M unit := update_rounding ;; dbu_conversion.
Definition calc_dbv : M unit := update_rounding ;; dbv_conversion.
Definition calc_dbm : M unit := update_rounding ;; dbm_conversion.

(** The window as [__init__] leaves it: empty entry boxes, impedance [600],
    rounding [4] in the attribute and in the spinbox. *)
Definition initial : gui :=
  mkGui 4 "" "" "" "" "" "" "600" "4" [].

(** The user's actions: typing into a widget, or pressing one of the six
    "Convert" buttons. *)
Inductive event : Type :=
| Type_vp (t : string)
| Type_vpp (t : string)
| Type_vrms (t : string)
| Type_dbu (t : string)
| Type_dbv (t : string)
| Type_dbm (t : string)
| Type_impedance (t : string)
| Type_rounding (t : string)
| Click_vp
| Click_vpp
| Click_vrms
| Click_dbu
| Click_dbv
| Click_dbm.

(** The window after an event; an exception that escapes a handler is
    reported by tkinter and the widgets keep what was written so far. *)
Definition handle (e : event) (s : gui) : gui :=
  match e with
  | Type_vp t => set_vp_box t s
  | Type_vpp t => set_vpp_box t s
  | Type_vrms t => set_vrms_box t s
  | Type_dbu t => set_dbu_box t s
  | Type_dbv t => set_dbv_box t s
  | Type_dbm t => set_dbm_box t s
  | Type_impedance t => set_impedance_box t s
  | Type_rounding t => set_rounding_spinbox t s
  | Click_vp => snd (calc_vp s)
  | Click_vpp => snd (calc_vpp s)
  | Click_vrms => snd (calc_vrms s)
  | Click_dbu => snd (calc_dbu s)
  | Click_dbv => snd (calc_dbv s)
  | Click_dbm => snd (calc_dbm s)
  end.

Inductive reachable : gui -> Prop :=
| reach_initial : reachable initial
| reach_step (e : event) (s : gui) : reachable s -> reachable (handle e s).


(** ** Vocabulary of the statements *)

(** [m] leaves the component [proj] of the window as it found it, whether it
    returns or raises. *)
Definition preserves {A X : Type} (proj : gui -> X) (m : M A) : Prop :=
  forall s, proj (snd (m s)) = proj s.

Definition valid_rounding (v : Z) : Prop := (1 <= v <= 10)%Z.

(** The text that [render] produces (it never raises, see [render_rendered]). *)
Definition rendered (rnd : Z) (x : pyfloat) : string :=
  match render rnd x with
  | Ok t => t
  | Raise _ => ""
  end.

(** The six entry boxes of the measurements. *)
Definition boxes (s : gui) : list string :=
  [vp_box s; vpp_box s; vrms_box s; dbu_box s; dbv_box s; dbm_box s].


(** The guard of the V-p, V-pp and V-RMS handlers on the text of the source
    box: [float()] fails or the value is [<= 0.0]. *)
Definition magnitude_rejected (t : string) : bool :=
  match PyText.float t with
  | Ok v => PyFloat.le0 v
  | Raise _ => true
  end.

(** The guard of the dB handlers: [float()] fails. *)
Definition number_rejected (t : string) : bool :=
  match PyText.float t with
  | Ok _ => false
  | Raise _ => true
  end.

(** The guard of [update_rounding] on the text of the spinbox. *)
Definition rounding_rejected (t : string) : bool :=
  match PyText.parse_int t with
  | Some v => ((v <? 1) || (v >? 10))%Z
  | None => true
  end.

Fixpoint all_digits (t : string) : bool :=
  match t with
  | EmptyString => true
  | String c t' =>
      match PyText.digit_val c with
      | Some _ => all_digits t'
      | None => false
      end
  end.

Fixpoint has_char (c : ascii) (t : string) : bool :=
  match t with
  | EmptyString => false
  | String c' t' => (Ascii.eqb c c' || has_char c t')%bool
  end.

(** ** The reference formulas of the specification, over the reals *)

Module Spec.
Definition REF_U : R := 0.7745966692.
Definition log10 (x : R) : R := ln x / ln 10.

Definition Vrms_from_dBu (dBu : R) : R := REF_U * Rpower 10 (dBu / 20).
Definition Vrms_from_dBV (dBV : R) : R := Rpower 10 (dBV / 20).
Definition Vrms_from_dBm (Z dBm : R) : R :=
  sqrt (0.001 * Z * Rpower 10 (dBm / 10)).
Definition dBu_from_Vrms (Vrms : R) : R := 20 * log10 (Vrms / REF_U).
Definition dBV_from_Vrms (Vrms : R) : R := 20 * log10 Vrms.
Definition dBm_from_Vrms (Z Vrms : R) : R :=
  10 * log10 (Vrms ^ 2 / (0.001 * Z)).
End Spec.

(** ** A certified enclosure of [log10]

    [bits k l h] reads [k] binary digits of [log10 x] for any [x] with
    [l <= x * scale <= h]: squaring [x] doubles the logarithm, and dividing by
    ten when the square reaches ten takes the next digit off.  It answers
    [Some n] when [n / 2^k <= log10 x <= (n + 1) / 2^k], and [None] when the
    enclosure of some square straddles ten or [x] is not within [1, 10]. *)

Module Log10.
Definition scale : Z := 10 ^ 30.

Fixpoint bits (k : nat) (l h : Z) : option Z :=
  match k with
  | O =>
      if ((scale <=? l) && (h <=? 10 * scale))%Z then Some 0%Z else None
  | S k' =>
      let l2 := (l * l / scale)%Z in
      let h2 := (h * h / scale + 1)%Z in
      if (10 * scale <=? l2)%Z
      then match bits k' (l2 / 10) (h2 / 10 + 1) with
           | Some n => Some (2 ^ Z.of_nat k' + n)%Z
           | None => None
           end
      else if (h2 <=? 10 * scale)%Z
           then bits k' l2 h2
           else None
  end.
End Log10.

(** ** Concrete windows used by the examples *)

(** The V-RMS scenario of the specification: entry [1], rounding [4] and
    impedance [600] as the window starts. *)
Definition vrms_scenario : gui := set_vrms_box "1" initial.

(** An unusable rounding: the spinbox shows [0] and the V-p entry is [2]. *)
Definition rounding_scenario : gui :=
  set_rounding_spinbox "0" (set_vp_box "2" initial).

(** An unusable impedance: [0] ohms with the V-RMS entry [1]. *)
Definition impedance_scenario : gui := set_impedance_box "0" vrms_scenario.

(** The V-p entry [nan], which [float()] reads. *)
Definition nan_scenario : gui := set_vp_box "nan" initial.

(** A very negative dBu entry. *)
Definition dbu_scenario : gui := set_dbu_box "-1000000" initial.


(** ** The claims that the code does not meet, as predicates of a window *)

(** No partial update: a handler that shows any error dialog leaves the six
    entry boxes as they were. *)
Definition no_partial_update (handler : M unit) (s : gui) : Prop :=
  errors (snd (handler s)) <> errors s ->
  boxes (snd (handler s)) = boxes s.

(** An unusable rounding rejects the request: nothing is computed. *)
Definition rejects_invalid_rounding (handler : M unit) (s : gui) : Prop :=
  rounding_rejected (rounding_spinbox s) = true ->
  boxes (snd (handler s)) = boxes s.

Definition positive_finite (x : pyfloat) : Prop :=
  match x with
  | Fin r => 0 < r
  | _ => False
  end.

(** The V-p request fails with its magnitude dialog exactly when the entry is
    not a finite number above zero. *)
Definition magnitude_error_iff_not_positive (s : gui) : Prop :=
  forall v : pyfloat,
    PyText.float (vp_box s) = Ok v ->
    (~ positive_finite v <-> In "V-p Error" (errors (snd (calc_vp s)))).


(** The outputs that the specification lists for the V-RMS scenario. *)
Definition vrms_scenario_as_specified (s : gui) : Prop :=
  vp_box s = "1.4142" /\ vpp_box s = "2.8284" /\ dbu_box s = "2.2190"
  /\ dbv_box s = "0" /\ dbm_box s = "-27.7815".

(** ** Windows that agree on what the dB helpers read and write *)





(** The formatting rule read on every raw result: no point when the value is
    whole, otherwise a point followed by exactly [rnd] digits. *)
Definition whole_or_fixed (rnd : Z) (x : pyfloat) (t : string) : Prop :=
  if PyFloat.is_integer x
  then has_char "." t = false
  else exists sign ip fp : string,
      t = sign ++ ip ++ "." ++ fp
      /\ String.length fp = Z.to_nat rnd
      /\ all_digits fp = true.

(** ** Vocabulary of the further properties *)

(** A handler that leaves alone the box it reads, the impedance box and the
    rounding spinbox. *)
Definition keeps_inputs (source : gui -> string) (handler : M unit) : Prop :=
  forall s : gui,
    source (snd (handler s)) = source s
    /\ impedance_box (snd (handler s)) = impedance_box s
    /\ rounding_spinbox (snd (handler s)) = rounding_spinbox s.

(** No exception leaves the computation. *)
Definition never_raises {A : Type} (m : M A) : Prop :=
  forall s : gui, exists a : A, fst (m s) = Ok a.

(** The only exception that can leave the computation is [ValueError]. *)
Definition raises_only_value_error {A : Type} (m : M A) : Prop :=
  forall s : gui,
    match fst (m s) with
    | Ok _ => True
    | Raise e => e = ValueError
    end.

(** The value of a run of decimal digits read after [acc]; [None] when some
    character is not a digit. *)
Fixpoint digits_val (acc : Z) (l : list ascii) : option Z :=
  match l with
  | [] => Some acc
  | c :: l' =>
      match PyText.digit_val c with
      | Some d => digits_val (10 * acc + d) l'
      | None => None
      end
  end.

(** The value of a decimal numeral of the library read after [acc]. *)
Fixpoint uint_value (acc : Z) (d : Decimal.uint) : Z :=
  match d with
  | Decimal.Nil => acc
  | Decimal.D0 d' => uint_value (10 * acc + 0) d'
  | Decimal.D1 d' => uint_value (10 * acc + 1) d'
  | Decimal.D2 d' => uint_value (10 * acc + 2) d'
  | Decimal.D3 d' => uint_value (10 * acc + 3) d'
  | Decimal.D4 d' => uint_value (10 * acc + 4) d'
  | Decimal.D5 d' => uint_value (10 * acc + 5) d'
  | Decimal.D6 d' => uint_value (10 * acc + 6) d'
  | Decimal.D7 d' => uint_value (10 * acc + 7) d'
  | Decimal.D8 d' => uint_value (10 * acc + 8) d'
  | Decimal.D9 d' => uint_value (10 * acc + 9) d'
  end.

(** No white space anywhere in the text. *)
Definition no_space (l : list ascii) : bool :=
  forallb (fun c => negb (PyText.is_space c)) l.

(** Where a run of digits ends: at the end of the text, or before a
    character that is neither a digit nor an underscore. *)
Definition stops (rest : list ascii) : Prop :=
  match rest with
  | [] => True
  | c :: _ => PyText.digit_val c = None /\ Ascii.eqb c "_" = false
  end.

(** A text of white space only, the empty text included. *)
Definition is_blank (t : string) : bool :=
  forallb PyText.is_space (list_ascii_of_string t).

(** The characters of an optional minus sign. *)
Definition sign_chars (neg : bool) : list ascii :=
  if neg then ["-"%char] else [].

(** ** Pressing the same button again *)

(** While a request is repeated from the window [t] that its first run left,
    a box of the second run [b] holds what it holds at the same point of the
    first run [a], or still what it holds in [t]. *)
Definition settled_box (t a b : gui) (box : gui -> string) : Prop :=
  box b = box a \/ box b = box t.

(** The two runs store the same rounding and the same impedance text, and
    every box is settled. *)
Definition settling (t a b : gui) : Prop :=
  rounding a = rounding b
  /\ impedance_box a = impedance_box b
  /\ settled_box t a b vp_box
  /\ settled_box t a b vpp_box
  /\ settled_box t a b vrms_box
  /\ settled_box t a b dbu_box
  /\ settled_box t a b dbv_box
  /\ settled_box t a b dbm_box.

(** The same, and with [reread] set the two runs hold the same V-RMS text,
    so that they read the same value back. *)
Definition settling_level (reread : bool) (t a b : gui) : Prop :=
  settling t a b /\ (reread = true -> vrms_box a = vrms_box b).

(** A computation that ends alike in both runs and keeps them settling; when
    it returns, the runs are at the level [after]. *)
Definition follows {A : Type} (t : gui) (before after : bool) (m : M A)
  : Prop :=
  forall a b : gui,
    settling_level before t a b ->
    fst (m a) = fst (m b)
    /\ settling t (snd (m a)) (snd (m b))
    /\ (forall x : A,
           fst (m a) = Ok x -> settling_level after t (snd (m a)) (snd (m b))).

(** A handler whose second run, on the window that the first run left, ends
    as the first did and leaves every box and the stored rounding as they
    are. *)
Definition repeatable (handler : M unit) : Prop :=
  forall s : gui,
    let t := snd (handler s) in
    fst (handler t) = fst (handler s)
    /\ boxes (snd (handler t)) = boxes t
    /\ rounding (snd (handler t)) = rounding t.

(** ** The range of a double and the rounding of a result *)

(** A positive value between [10^-k] and [10^k]. *)
Definition in_range (k : nat) (r : R) : Prop := / 10 ^ k <= r <= 10 ^ k.

(** The text of a box, when [float()] reads a finite number from it, gives a
    number of at most [bound]. *)
Definition at_most (bound : R) (t : string) : Prop :=
  forall r : R, PyText.float t = Ok (Fin r) -> r <= bound.

(** The text of the impedance box, when [float()] reads a finite number above
    zero from it, gives a number of at least [10^-100], so that
    [0.001 * impedance] is not [0.0]. *)
Definition impedance_not_tiny (t : string) : Prop :=
  forall z : R, PyText.float t = Ok (Fin z) -> 0 < z -> / 10 ^ 100 <= z.

(** [t] is the text of a finite value that agrees with [val] to nine
    significant digits. *)
Definition written_near (rnd : Z) (val : R) (t : string) : Prop :=
  exists x : R,
    Rabs (x - val) <= Rabs val * / 10 ^ 9 /\ t = rendered rnd (Fin x).

(** [t] is the text of a finite value within [10^-9] of [val]. *)
Definition written_within (rnd : Z) (val : R) (t : string) : Prop :=
  exists x : R, Rabs (x - val) <= / 10 ^ 9 /\ t = rendered rnd (Fin x).
(** ** Frame reasoning *)

Section Preserves.
Context {X : Type} (proj : gui -> X).

Lemma preserves_ret {A} (a : A) : preserves proj (ret a).
Proof. intros s; reflexivity. Qed.

Lemma preserves_raise {A} (e : exn) : preserves proj (@raise A e).
Proof. intros s; reflexivity. Qed.

Lemma preserves_lift {A} (c : result A) : preserves proj (lift c).
Proof. intros s; reflexivity. Qed.

Lemma preserves_gets {A} (f : gui -> A) : preserves proj (gets f).
Proof. intros s; reflexivity. Qed.

Lemma preserves_modify (f : gui -> gui) :
  (forall s, proj (f s) = proj s) -> preserves proj (modify f).
Proof. intros H s; apply H. Qed.

Lemma preserves_bind {A B} (c : M A) (k : A -> M B) :
  preserves proj c -> (forall a, preserves proj (k a)) ->
  preserves proj (bind c k).
Proof.
  intros Hc Hk s. unfold bind. specialize (Hc s).
  destruct (c s) as [[a | e] s']; simpl in *.
  - rewrite Hk. exact Hc.
  - exact Hc.
Qed.

Lemma preserves_try_except (body handler : M unit) :
  preserves proj body -> preserves proj handler ->
  preserves proj (try_except body handler).
Proof.
  intros Hb Hh s. unfold try_except. specialize (Hb s).
  destruct (body s) as [[a | []] s']; simpl in *; try exact Hb.
  rewrite Hh. exact Hb.
Qed.

Lemma preserves_try_except_else {A} (body : M A) handler continue :
  preserves proj body -> preserves proj handler ->
  (forall a, preserves proj (continue a)) ->
  preserves proj (try_except_else body handler continue).
Proof.
  intros Hb Hh Hk s. unfold try_except_else. specialize (Hb s).
  destruct (body s) as [[a | []] s']; simpl in *; try exact Hb.
  - rewrite Hk. exact Hb.
  - rewrite Hh. exact Hb.
Qed.

Lemma preserves_if {A} (b : bool) (m1 m2 : M A) :
  preserves proj m1 -> preserves proj m2 ->
  preserves proj (if b then m1 else m2).
Proof. destruct b; auto. Qed.

Lemma preserves_float_of (box : gui -> string) :
  preserves proj (float_of box).
Proof. intros s; reflexivity. Qed.

Lemma preserves_showerror (title : string) :
  (forall t s, proj (push_error t s) = proj s) ->
  preserves proj (showerror title).
Proof. intros H s; apply H. Qed.

Lemma preserves_write_box (set : string -> gui -> gui) (x : pyfloat) :
  (forall t s, proj (set t s) = proj s) ->
  preserves proj (write_box set x).
Proof.
  intros H. unfold write_box.
  apply preserves_bind; [apply preserves_gets | intros rnd].
  apply preserves_bind; [apply preserves_lift | intros t].
  apply preserves_modify. apply H.
Qed.
End Preserves.

Ltac frame_side :=
  solve [ reflexivity | assumption | intros; reflexivity | intros; auto ].

(** One step of frame reasoning: peel the outermost combinator. *)
Ltac frame_step :=
  first
    [ apply preserves_showerror; frame_side
    | apply preserves_write_box; frame_side
    | apply preserves_float_of
    | apply preserves_try_except
    | apply preserves_try_except_else; [ | | intro ]
    | apply preserves_if
    | apply preserves_ret
    | apply preserves_raise
    | apply preserves_lift
    | apply preserves_gets
    | apply preserves_modify; frame_side
    | apply preserves_bind; [ | intro ] ].

Ltac frame := repeat frame_step.

(** Each helper touches its own box and, for the two that read the impedance,
    the error log; any component that neither of these writes is kept. *)
Section HelperFrames.
Context {X : Type} (proj : gui -> X).
Hypothesis proj_errors : forall t s, proj (push_error t s) = proj s.

Lemma update_vp_frame vpp vrms :
  (forall t s, proj (set_vp_box t s) = proj s) ->
  preserves proj (update_vp vpp vrms).
Proof. intros H. unfold update_vp. destruct vpp, vrms; frame. Qed.

Lemma update_vpp_frame vp vrms :
  (forall t s, proj (set_vpp_box t s) = proj s) ->
  preserves proj (update_vpp vp vrms).
Proof. intros H. unfold update_vpp. destruct vp, vrms; frame. Qed.

Lemma update_vrms_frame vp vpp dbu dbv dbm :
  (forall t s, proj (set_vrms_box t s) = proj s) ->
  preserves proj (update_vrms vp vpp dbu dbv dbm).
Proof.
  intros H. unfold update_vrms. destruct vp, vpp, dbu, dbv, dbm; frame.
Qed.

Lemma update_dbu_frame vrms :
  (forall t s, proj (set_dbu_box t s) = proj s) ->
  preserves proj (update_dbu vrms).
Proof. intros H. unfold update_dbu. frame. Qed.

Lemma update_dbv_frame vrms :
  (forall t s, proj (set_dbv_box t s) = proj s) ->
  preserves proj (update_dbv vrms).
Proof. intros H. unfold update_dbv. frame. Qed.

Lemma update_dbm_frame vrms :
  (forall t s, proj (set_dbm_box t s) = proj s) ->
  preserves proj (update_dbm vrms).
Proof. intros H. unfold update_dbm. frame. Qed.
End HelperFrames.

(** Frame reasoning through the helpers as well. *)
Ltac frame_calls :=
  repeat first
    [ frame_step
    | apply update_vp_frame; frame_side
    | apply update_vpp_frame; frame_side
    | apply update_vrms_frame; frame_side
    | apply update_dbu_frame; frame_side
    | apply update_dbv_frame; frame_side
    | apply update_dbm_frame; frame_side ].

(** ** The stored rounding *)

(** [update_rounding] never raises; it either stores the spinbox value, which
    is then an integer of the range, or shows the error and stores nothing. *)
Lemma update_rounding_cases (s : gui) :
  (exists v, PyText.parse_int (rounding_spinbox s) = Some v
             /\ valid_rounding v
             /\ update_rounding s = (Ok tt, set_rounding v s))
  \/ ((forall v, PyText.parse_int (rounding_spinbox s) = Some v ->
                 ~ valid_rounding v)
      /\ update_rounding s
         = (Ok tt, push_error "Decimal places rounding error" s)).
Proof.
  unfold update_rounding, try_except, bind, gets, lift, PyText.int, valid_rounding.
  destruct (PyText.parse_int (rounding_spinbox s)) as [v |] eqn:Hp.
  - destruct ((v <? 1) || (v >? 10))%Z eqn:Hb.
    + right. split; [ | reflexivity ].
      intros v' Hv'. inversion Hv'; subst v'.
      apply orb_true_iff in Hb. destruct Hb as [Hb | Hb]; lia.
    + left. exists v. apply orb_false_iff in Hb. destruct Hb.
      repeat split; lia.
  - right. split; [ discriminate | reflexivity ].
Qed.

(** ** The text readers on sample inputs *)

Example parse_float_decimal :
  PyText.parse_float " -12_3.50e+2 " = Some (PyText.LDec true 12350 0).
Proof. reflexivity. Qed.

Example parse_float_point_only : PyText.parse_float "." = None.
Proof. reflexivity. Qed.

Example parse_float_keywords :
  PyText.parse_float "-Infinity" = Some (PyText.LInf true)
  /\ PyText.parse_float "NaN" = Some PyText.LNan
  /\ PyText.parse_float "1_" = None
  /\ PyText.parse_float ".5" = Some (PyText.LDec false 5 (-1))
  /\ PyText.parse_float "5." = Some (PyText.LDec false 5 0)
  /\ PyText.parse_float "" = None.
Proof. repeat split; reflexivity. Qed.

Example parse_int_examples :
  PyText.parse_int " 07 " = Some 7%Z
  /\ PyText.parse_int "4.0" = None
  /\ PyText.parse_int "-3" = Some (-3)%Z
  /\ PyText.parse_int "abc" = None.
Proof. repeat split; reflexivity. Qed.


(** ** Running the monad *)

Lemma bind_ok {A B} (c : M A) (k : A -> M B) (s s' : gui) (a : A) :
  c s = (Ok a, s') -> bind c k s = k a s'.
Proof. intros H. unfold bind. rewrite H. reflexivity. Qed.

Lemma bind_raise {A B} (c : M A) (k : A -> M B) (s s' : gui) (e : exn) :
  c s = (Raise e, s') -> bind c k s = (Raise e, s').
Proof. intros H. unfold bind. rewrite H. reflexivity. Qed.

Lemma try_except_proj {X} (proj : gui -> X) (body handler : M unit) (s : gui) :
  preserves proj handler ->
  proj (snd (try_except body handler s)) = proj (snd (body s)).
Proof.
  intros Hh. unfold try_except.
  destruct (body s) as [[a | []] s']; simpl; try reflexivity. apply Hh.
Qed.

(** ** Deciding comparisons of reals *)

Lemma Rle_dec_true {A} (a b : R) (x y : A) :
  a <= b -> (if Rle_dec a b then x else y) = x.
Proof. intros H. destruct (Rle_dec a b); [ reflexivity | contradiction ]. Qed.

Lemma Rle_dec_false {A} (a b : R) (x y : A) :
  b < a -> (if Rle_dec a b then x else y) = y.
Proof. intros H. destruct (Rle_dec a b); [ lra | reflexivity ]. Qed.

Lemma Rlt_dec_true {A} (a b : R) (x y : A) :
  a < b -> (if Rlt_dec a b then x else y) = x.
Proof. intros H. destruct (Rlt_dec a b); [ reflexivity | contradiction ]. Qed.

Lemma Rlt_dec_false {A} (a b : R) (x y : A) :
  b <= a -> (if Rlt_dec a b then x else y) = y.
Proof. intros H. destruct (Rlt_dec a b); [ lra | reflexivity ]. Qed.

Lemma Req_dec_false {A} (a b : R) (x y : A) :
  a <> b -> (if Req_dec_T a b then x else y) = y.
Proof. intros H. destruct (Req_dec_T a b); [ contradiction | reflexivity ]. Qed.

Lemma Req_dec_true {A} (a b : R) (x y : A) :
  a = b -> (if Req_dec_T a b then x else y) = x.
Proof. intros H. destruct (Req_dec_T a b); [ reflexivity | contradiction ]. Qed.

Lemma REF_U_pos : 0 < REF_U.
Proof. unfold REF_U. lra. Qed.

Lemma sqrt2_pos : 0 < sqrt 2.
Proof. apply sqrt_lt_R0. lra. Qed.

Lemma ln10_pos : 0 < ln 10.
Proof. rewrite <- ln_1. apply ln_increasing; lra. Qed.

(** ** Whole numbers and rounding *)

Lemma is_whole_IZR (k : Z) : PyFloat.is_whole (IZR k) = true.
Proof.
  unfold PyFloat.is_whole. rewrite ZfloorZ. apply Req_dec_true. reflexivity.
Qed.

Lemma trunc_IZR (k : Z) : PyFloat.trunc (IZR k) = k.
Proof.
  unfold PyFloat.trunc. destruct (Rle_dec 0 (IZR k)).
  - apply ZfloorZ.
  - unfold Zceil. rewrite <- opp_IZR, ZfloorZ. lia.
Qed.

Lemma is_whole_true (r : R) :
  PyFloat.is_whole r = true -> r = IZR (Zfloor r).
Proof.
  unfold PyFloat.is_whole. destruct (Req_dec_T r (IZR (Zfloor r))); [ auto | discriminate ].
Qed.

Lemma is_whole_between (r : R) (k : Z) :
  IZR k < r < IZR k + 1 -> PyFloat.is_whole r = false.
Proof.
  intros H. unfold PyFloat.is_whole.
  rewrite (Zfloor_eq k r) by lra.
  apply Req_dec_false. lra.
Qed.

Lemma round_half_even_near (x : R) (k : Z) :
  IZR k - 1 / 2 < x < IZR k + 1 / 2 -> PyText.round_half_even x = k.
Proof.
  intros [Hlo Hhi]. unfold PyText.round_half_even.
  destruct (Rlt_dec x (IZR k)) as [Hlt | Hge].
  - assert (Hf : Zfloor x = (k - 1)%Z).
    { apply Zfloor_eq. rewrite minus_IZR. lra. }
    rewrite Hf, minus_IZR.
    rewrite Rlt_dec_false by lra.
    rewrite Rlt_dec_true by lra. lia.
  - assert (Hf : Zfloor x = k) by (apply Zfloor_eq; lra).
    rewrite Hf. rewrite Rlt_dec_true by lra. reflexivity.
Qed.

(** ** What [render] writes *)

Lemma render_rendered (rnd : Z) (x : pyfloat) :
  render rnd x = Ok (rendered rnd x).
Proof.
  unfold rendered, render.
  destruct x as [r | | |]; simpl; try reflexivity.
  destruct (PyFloat.is_whole r); reflexivity.
Qed.

Lemma rendered_whole (rnd : Z) (k : Z) (r : R) :
  r = IZR k -> rendered rnd (Fin r) = PyText.str_int k.
Proof.
  intros ->. unfold rendered, render. simpl.
  rewrite is_whole_IZR. simpl. rewrite trunc_IZR. reflexivity.
Qed.

Lemma rendered_fixed (rnd : Z) (r : R) :
  PyFloat.is_whole r = false ->
  rendered rnd (Fin r) = PyText.format_fixed (Z.to_nat rnd) r.
Proof.
  intros H. unfold rendered, render. simpl. rewrite H. reflexivity.
Qed.

(** A positive value whose scaled magnitude is within a half of [m] prints
    the digits of [m]. *)
Lemma format_fixed_pos (n : nat) (r : R) (m : Z) :
  0 <= r -> IZR m - 1 / 2 < r * 10 ^ n < IZR m + 1 / 2 ->
  PyText.format_fixed n r
  = (PyText.str_int (m / 10 ^ Z.of_nat n)
       ++ match n with
          | O => ""
          | S _ => "." ++ PyText.frac_digits n (m mod 10 ^ Z.of_nat n)
          end).
Proof.
  intros Hr Hm. unfold PyText.format_fixed.
  rewrite Rabs_pos_eq by assumption.
  rewrite (round_half_even_near _ m Hm).
  rewrite Rlt_dec_false by lra. reflexivity.
Qed.


Lemma write_box_run (set : string -> gui -> gui) (x : pyfloat) (s : gui) :
  write_box set x s = (Ok tt, set (rendered (rounding s) x) s).
Proof.
  unfold write_box, bind, gets, lift, modify.
  rewrite render_rendered. reflexivity.
Qed.

(** ** The arithmetic of the helpers on finite values *)

Lemma math_sqrt_2 : PyFloat.math_sqrt (Fin 2) = Ok (Fin (sqrt 2)).
Proof. unfold PyFloat.math_sqrt. rewrite Rlt_dec_false by lra. reflexivity. Qed.

Lemma div_fin (x : pyfloat) (b : R) :
  b <> 0 ->
  PyFloat.div x (Fin b)
  = Ok match x with
       | Fin a => Fin (a / b)
       | PInf => PyFloat.mul_inf false b
       | NInf => PyFloat.mul_inf true b
       | NaN => NaN
       end.
Proof.
  intros H. unfold PyFloat.div. rewrite Req_dec_false by assumption.
  destruct x; reflexivity.
Qed.

Lemma inv_sqrt2_value : inv_sqrt2 = Ok (Fin (1 / sqrt 2)).
Proof.
  unfold inv_sqrt2. rewrite math_sqrt_2. cbn [rbind].
  rewrite div_fin; [ reflexivity | ]. pose proof sqrt2_pos. lra.
Qed.

Lemma vp_of_vpp_fin (r : R) : vp_of_vpp (Fin r) = Ok (Fin (r / 2)).
Proof. unfold vp_of_vpp. rewrite div_fin by lra. reflexivity. Qed.

Lemma vp_of_vrms_fin (r : R) : vp_of_vrms (Fin r) = Ok (Fin (r * sqrt 2)).
Proof. unfold vp_of_vrms. rewrite math_sqrt_2. reflexivity. Qed.

Lemma vpp_of_vrms_fin (r : R) :
  vpp_of_vrms (Fin r) = Ok (Fin (2 * r * sqrt 2)).
Proof. unfold vpp_of_vrms. rewrite math_sqrt_2. reflexivity. Qed.

Lemma vrms_of_vp_fin (r : R) :
  vrms_of_vp (Fin r) = Ok (Fin (r * (1 / sqrt 2))).
Proof. unfold vrms_of_vp. rewrite inv_sqrt2_value. reflexivity. Qed.

Lemma vrms_of_vpp_fin (r : R) :
  vrms_of_vpp (Fin r) = Ok (Fin (r / 2 * (1 / sqrt 2))).
Proof.
  unfold vrms_of_vpp. rewrite div_fin by lra. cbn [rbind].
  rewrite inv_sqrt2_value. reflexivity.
Qed.

Lemma vrms_of_dbu_fin (d : R) :
  vrms_of_dbu (Fin d) = Ok (Fin (REF_U * Rpower 10 (d / 20))).
Proof. unfold vrms_of_dbu. rewrite div_fin by lra. reflexivity. Qed.

Lemma vrms_of_dbv_fin (d : R) :
  vrms_of_dbv (Fin d) = Ok (Fin (Rpower 10 (d / 20))).
Proof. unfold vrms_of_dbv. rewrite div_fin by lra. reflexivity. Qed.

Lemma Rpower_pos (a b : R) : 0 < Rpower a b.
Proof. unfold Rpower. apply exp_pos. Qed.

Lemma vrms_of_dbm_fin (z d : R) :
  0 < z ->
  vrms_of_dbm (Fin z) (Fin d)
  = Ok (Fin (sqrt (0.001 * z * Rpower 10 (d / 10)))).
Proof.
  intros Hz. unfold vrms_of_dbm. rewrite div_fin by lra.
  cbn [rbind PyFloat.pow10 PyFloat.mul PyFloat.math_sqrt].
  rewrite Rlt_dec_false; [ reflexivity | ].
  pose proof (Rpower_pos 10 (d / 10)). nra.
Qed.

Lemma dbu_of_vrms_fin (v : R) :
  0 < v ->
  dbu_of_vrms (Fin v) = Ok (Fin (20 * PyFloat.log10 (v / REF_U))).
Proof.
  intros Hv. pose proof REF_U_pos as Hu. unfold dbu_of_vrms.
  rewrite div_fin by lra. cbn [rbind PyFloat.math_log10].
  rewrite Rle_dec_false; [ reflexivity | ].
  apply Rdiv_lt_0_compat; assumption.
Qed.

Lemma dbv_of_vrms_fin (v : R) :
  0 < v -> dbv_of_vrms (Fin v) = Ok (Fin (20 * PyFloat.log10 v)).
Proof.
  intros Hv. unfold dbv_of_vrms. cbn [rbind PyFloat.math_log10].
  rewrite Rle_dec_false by assumption. reflexivity.
Qed.

Lemma dbm_of_vrms_fin (z v : R) :
  0 < z -> 0 < v ->
  dbm_of_vrms (Fin z) (Fin v)
  = Ok (Fin (10 * PyFloat.log10 (v ^ 2 / (0.001 * z)))).
Proof.
  intros Hz Hv. unfold dbm_of_vrms, PyFloat.sq, PyFloat.mul.
  rewrite div_fin by lra. cbn [rbind PyFloat.math_log10].
  rewrite Rle_dec_false; [ reflexivity | ].
  apply Rdiv_lt_0_compat; nra.
Qed.

(** ** Enclosing [log10] *)

Lemma log10_sq (x : R) : 0 < x -> PyFloat.log10 (x * x) = 2 * PyFloat.log10 x.
Proof.
  intros H. unfold PyFloat.log10. rewrite ln_mult by assumption.
  pose proof ln10_pos. field. lra.
Qed.

Lemma log10_div10 (x : R) : 0 < x -> PyFloat.log10 (x / 10) = PyFloat.log10 x - 1.
Proof.
  intros H.
  assert (E : ln (x / 10) = ln x - ln 10).
  { unfold Rdiv. rewrite ln_mult; [ | assumption | lra ].
    rewrite ln_Rinv by lra. lra. }
  unfold PyFloat.log10. rewrite E. pose proof ln10_pos. field. lra.
Qed.

Lemma log10_unit (x : R) : 1 <= x <= 10 -> 0 <= PyFloat.log10 x <= 1.
Proof.
  intros [H1 H2]. pose proof ln10_pos as Hp. unfold PyFloat.log10.
  assert (0 <= ln x).
  { rewrite <- ln_1. destruct H1 as [H1 | <-]; [ left; apply ln_increasing; lra | right; reflexivity ]. }
  assert (ln x <= ln 10).
  { destruct H2 as [H2 | ->]; [ left; apply ln_increasing; lra | right; reflexivity ]. }
  split.
  - apply Rmult_le_reg_r with (ln 10); [ assumption | ].
    unfold Rdiv. rewrite Rmult_assoc, Rinv_l by lra. lra.
  - apply Rmult_le_reg_r with (ln 10); [ assumption | ].
    unfold Rdiv. rewrite Rmult_assoc, Rinv_l by lra. lra.
Qed.

Lemma scale_pos : 0 < IZR Log10.scale.
Proof. apply IZR_lt. reflexivity. Qed.

(** Squaring an enclosure. *)
Lemma square_enclosure (x : R) (l h : Z) :
  (0 <= l)%Z ->
  IZR l <= x * IZR Log10.scale <= IZR h ->
  IZR (l * l / Log10.scale) <= x * x * IZR Log10.scale
    <= IZR (h * h / Log10.scale + 1).
Proof.
  intros Hl [Hlo Hhi]. pose proof scale_pos as HD.
  assert (Hl' : 0 <= IZR l) by (apply IZR_le; assumption).
  assert (HDz : (0 < Log10.scale)%Z) by reflexivity.
  split.
  - assert (Hz : (Log10.scale * (l * l / Log10.scale) <= l * l)%Z)
      by (apply Z.mul_div_le; assumption).
    apply IZR_le in Hz. rewrite !mult_IZR in Hz.
    apply Rmult_le_reg_l with (IZR Log10.scale); [ assumption | ].
    nra.
  - assert (Hz : (h * h < Log10.scale * (h * h / Log10.scale + 1))%Z).
    { pose proof (Z.mul_succ_div_gt (h * h) Log10.scale HDz). lia. }
    apply IZR_lt in Hz. rewrite !mult_IZR in Hz.
    apply Rmult_le_reg_l with (IZR Log10.scale); [ assumption | ].
    assert (0 <= x * IZR Log10.scale) by lra.
    nra.
Qed.

Lemma tenth_enclosure (y : R) (l h : Z) :
  IZR l <= y <= IZR h ->
  IZR (l / 10) <= y / 10 <= IZR (h / 10 + 1).
Proof.
  intros [Hlo Hhi]. split.
  - assert (Hz : (10 * (l / 10) <= l)%Z) by (apply Z.mul_div_le; lia).
    apply IZR_le in Hz. rewrite mult_IZR in Hz. lra.
  - assert (Hz : (h < 10 * (h / 10 + 1))%Z).
    { pose proof (Z.mul_succ_div_gt h 10). lia. }
    apply IZR_lt in Hz. rewrite mult_IZR in Hz. lra.
Qed.

Lemma div_bounds (a b c P : R) :
  0 < P -> (a / P <= b <= c / P <-> a <= b * P <= c).
Proof.
  intros HP.
  assert (Ea : a / P * P = a) by (field; lra).
  assert (Ec : c / P * P = c) by (field; lra).
  split; intros [H1 H2].
  - split.
    + rewrite <- Ea. apply Rmult_le_compat_r; lra.
    + rewrite <- Ec. apply Rmult_le_compat_r; lra.
  - split.
    + apply Rmult_le_reg_r with P; [ assumption | ]. rewrite Ea. exact H1.
    + apply Rmult_le_reg_r with P; [ assumption | ]. rewrite Ec. exact H2.
Qed.

(** One more binary digit [b] in front of an enclosure of [2 * y - b]. *)
Lemma halve_enclosure (y b n P : R) :
  0 < P ->
  n / P <= 2 * y - b <= (n + 1) / P ->
  (b * P + n) / (2 * P) <= y <= (b * P + n + 1) / (2 * P).
Proof.
  intros HP H. apply div_bounds in H; [ | assumption ].
  apply div_bounds; [ lra | ]. lra.
Qed.

Lemma bits_sound (k : nat) :
  forall (l h n : Z) (x : R),
    (0 <= l)%Z -> 0 < x ->
    IZR l <= x * IZR Log10.scale <= IZR h ->
    Log10.bits k l h = Some n ->
    IZR n / 2 ^ k <= PyFloat.log10 x <= (IZR n + 1) / 2 ^ k.
Proof.
  induction k as [| k IH]; intros l h n x Hl Hx Hb Hbits;
    cbn [Log10.bits] in Hbits.
  - destruct ((Log10.scale <=? l)%Z && (h <=? 10 * Log10.scale)%Z) eqn:E;
      [ | discriminate ].
    injection Hbits as <-.
    apply andb_true_iff in E. destruct E as [E1 E2].
    apply Z.leb_le in E1, E2. apply IZR_le in E1, E2.
    rewrite mult_IZR in E2. pose proof scale_pos as HD.
    assert (1 <= x <= 10) by (split; nra).
    pose proof (log10_unit x H). simpl. lra.
  - pose proof (square_enclosure x l h Hl Hb) as Hsq.
    assert (Hxx : 0 < x * x) by nra.
    assert (Hp : 0 < 2 ^ k) by (apply pow_lt; lra).
    destruct (10 * Log10.scale <=? l * l / Log10.scale)%Z eqn:E1.
    + destruct (Log10.bits k (l * l / Log10.scale / 10)
                  ((h * h / Log10.scale + 1) / 10 + 1)) as [n' |] eqn:E2;
        [ | discriminate ].
      injection Hbits as <-.
      assert (Hl2 : (0 <= l * l / Log10.scale / 10)%Z).
      { apply Z.div_pos; [ | lia ]. apply Z.div_pos; [ nia | reflexivity ]. }
      pose proof (tenth_enclosure _ _ _ Hsq) as Ht.
      assert (Hx' : 0 < x * x / 10) by lra.
      assert (Hb' : IZR (l * l / Log10.scale / 10)
                    <= x * x / 10 * IZR Log10.scale
                    <= IZR ((h * h / Log10.scale + 1) / 10 + 1)).
      { replace (x * x / 10 * IZR Log10.scale)
          with (x * x * IZR Log10.scale / 10) by field. exact Ht. }
      specialize (IH _ _ _ _ Hl2 Hx' Hb' E2).
      rewrite log10_div10, log10_sq in IH by assumption.
      rewrite plus_IZR, <- pow_IZR. cbn [pow].
      change (IZR 2) with 2.
      pose proof (halve_enclosure (PyFloat.log10 x) 1 (IZR n') (2 ^ k) Hp IH) as Hh.
      rewrite Rmult_1_l in Hh. exact Hh.
    + destruct (h * h / Log10.scale + 1 <=? 10 * Log10.scale)%Z eqn:E3;
        [ | discriminate ].
      assert (Hl2 : (0 <= l * l / Log10.scale)%Z).
      { apply Z.div_pos; [ nia | reflexivity ]. }
      specialize (IH _ _ _ _ Hl2 Hxx Hsq Hbits).
      rewrite log10_sq in IH by assumption. cbn [pow].
      assert (IH' : IZR n / 2 ^ k <= 2 * PyFloat.log10 x - 0 <= (IZR n + 1) / 2 ^ k)
        by (rewrite Rminus_0_r; exact IH).
      pose proof (halve_enclosure (PyFloat.log10 x) 0 (IZR n) (2 ^ k) Hp IH') as Hh.
      rewrite Rmult_0_l, Rplus_0_l in Hh. exact Hh.
Qed.


(** ** Running the helpers *)

Lemma update_rounding_valid (s : gui) (v : Z) :
  PyText.parse_int (rounding_spinbox s) = Some v -> valid_rounding v ->
  update_rounding s = (Ok tt, set_rounding v s).
Proof.
  intros Hp Hv.
  destruct (update_rounding_cases s) as [(v' & Hp' & _ & E) | (Hno & _)].
  - rewrite Hp in Hp'. injection Hp' as <-. exact E.
  - exfalso. exact (Hno v Hp Hv).
Qed.

Lemma update_rounding_rejected (s : gui) :
  rounding_rejected (rounding_spinbox s) = true ->
  update_rounding s = (Ok tt, push_error "Decimal places rounding error" s).
Proof.
  unfold rounding_rejected. intros H.
  destruct (update_rounding_cases s) as [(v & Hp & Hv & _) | (_ & E)];
    [ | exact E ].
  rewrite Hp in H. unfold valid_rounding in Hv.
  apply orb_true_iff in H. destruct H as [H | H]; lia.
Qed.

Lemma lift_write_run (set : string -> gui -> gui) (c : result pyfloat)
      (x : pyfloat) (s : gui) :
  c = Ok x ->
  (v <- lift c ;; write_box set v) s
  = (Ok tt, set (rendered (rounding s) x) s).
Proof. intros ->. unfold bind, lift. apply write_box_run. Qed.

Lemma update_vp_of_vrms (r : R) (s : gui) :
  update_vp None (Some (Fin r)) s
  = (Ok tt, set_vp_box (rendered (rounding s) (Fin (r * sqrt 2))) s).
Proof. apply lift_write_run, vp_of_vrms_fin. Qed.

Lemma update_vpp_of_vp (x : pyfloat) (o : option pyfloat) (s : gui) :
  update_vpp (Some x) o s
  = (Ok tt, set_vpp_box (rendered (rounding s) (PyFloat.mul x (Fin 2))) s).
Proof. apply lift_write_run. reflexivity. Qed.

Lemma update_vpp_of_vrms (r : R) (s : gui) :
  update_vpp None (Some (Fin r)) s
  = (Ok tt, set_vpp_box (rendered (rounding s) (Fin (2 * r * sqrt 2))) s).
Proof. apply lift_write_run, vpp_of_vrms_fin. Qed.

Lemma update_vrms_of_vp (r : R) (o1 o2 o3 o4 : option pyfloat) (s : gui) :
  update_vrms (Some (Fin r)) o1 o2 o3 o4 s
  = (Ok tt, set_vrms_box (rendered (rounding s) (Fin (r * (1 / sqrt 2)))) s).
Proof. apply lift_write_run, vrms_of_vp_fin. Qed.

Lemma update_vrms_of_dbu (d : R) (o1 o2 : option pyfloat) (s : gui) :
  update_vrms None None (Some (Fin d)) o1 o2 s
  = (Ok tt,
     set_vrms_box (rendered (rounding s) (Fin (REF_U * Rpower 10 (d / 20)))) s).
Proof. apply lift_write_run, vrms_of_dbu_fin. Qed.

Lemma update_dbu_run (v : R) (s : gui) :
  0 < v ->
  update_dbu (Fin v) s
  = (Ok tt,
     set_dbu_box (rendered (rounding s) (Fin (20 * PyFloat.log10 (v / REF_U)))) s).
Proof. intros H. apply lift_write_run, dbu_of_vrms_fin, H. Qed.

Lemma update_dbv_run (v : R) (s : gui) :
  0 < v ->
  update_dbv (Fin v) s
  = (Ok tt, set_dbv_box (rendered (rounding s) (Fin (20 * PyFloat.log10 v))) s).
Proof. intros H. apply lift_write_run, dbv_of_vrms_fin, H. Qed.

Lemma update_dbm_run (z v : R) (s : gui) :
  PyText.float (impedance_box s) = Ok (Fin z) -> 0 < z -> 0 < v ->
  update_dbm (Fin v) s
  = (Ok tt,
     set_dbm_box
       (rendered (rounding s) (Fin (10 * PyFloat.log10 (v ^ 2 / (0.001 * z)))))
       s).
Proof.
  intros Hi Hz Hv. unfold update_dbm, try_except.
  unfold bind at 1. unfold float_of, bind at 1, gets, lift.
  rewrite Hi. cbn [PyFloat.le0].
  rewrite Rle_dec_false by assumption.
  rewrite (lift_write_run _ _ _ _ (dbm_of_vrms_fin z v Hz Hv)).
  reflexivity.
Qed.

(** An impedance that [float()] cannot read, or that is [<= 0.0], makes
    [update_dbm] show its dialog and leave the dBm box alone. *)
Lemma update_dbm_rejected (x : pyfloat) (s : gui) :
  magnitude_rejected (impedance_box s) = true ->
  update_dbm x s = (Ok tt, push_error "dBm Impedance Error" s).
Proof.
  unfold magnitude_rejected. intros H. unfold update_dbm, try_except.
  unfold bind at 1. unfold float_of, bind at 1, gets, lift.
  destruct (PyText.float (impedance_box s)) as [z | e] eqn:E.
  - rewrite H. reflexivity.
  - unfold PyText.float in E. destruct (PyText.parse_float (impedance_box s));
      [ discriminate | ]. injection E as <-. reflexivity.
Qed.

(** The V-RMS handler on a positive finite entry with a positive finite
    impedance: the five other boxes, each from the entry itself. *)
Lemma vrms_conversion_run (v z : R) (s : gui) :
  PyText.float (vrms_box s) = Ok (Fin v) -> 0 < v ->
  PyText.float (impedance_box s) = Ok (Fin z) -> 0 < z ->
  vrms_conversion s
  = (Ok tt,
     let rnd := rounding s in
     mkGui rnd
           (rendered rnd (Fin (v * sqrt 2)))
           (rendered rnd (Fin (2 * v * sqrt 2)))
           (vrms_box s)
           (rendered rnd (Fin (20 * PyFloat.log10 (v / REF_U))))
           (rendered rnd (Fin (20 * PyFloat.log10 v)))
           (rendered rnd (Fin (10 * PyFloat.log10 (v ^ 2 / (0.001 * z)))))
           (impedance_box s) (rounding_spinbox s) (errors s)).
Proof.
  intros Hv Hpos Hz Hzpos. unfold vrms_conversion, try_except.
  unfold bind at 1. unfold float_of at 1, bind at 1, gets, lift.
  rewrite Hv. cbn [PyFloat.le0]. rewrite Rle_dec_false by assumption.
  rewrite (bind_ok _ _ _ _ _ (update_vp_of_vrms v s)).
  rewrite (bind_ok _ _ _ _ _ (update_vpp_of_vrms v _)).
  rewrite (bind_ok _ _ _ _ _ (update_dbu_run v _ Hpos)).
  rewrite (bind_ok _ _ _ _ _ (update_dbv_run v _ Hpos)).
  rewrite (update_dbm_run z v) by (try exact Hz; assumption).
  reflexivity.
Qed.

(** ** Numeric facts of the examples *)

Lemma float_decimal (t : string) (neg : bool) (m e : Z) :
  PyText.parse_float t = Some (PyText.LDec neg m e) ->
  PyText.float t
  = Ok (Fin ((if neg then - IZR m else IZR m) * powerRZ 10 e)).
Proof. intros H. unfold PyText.float. rewrite H. reflexivity. Qed.

Lemma float_text_1 : PyText.float "1" = Ok (Fin 1).
Proof.
  rewrite (float_decimal "1" false 1 0) by reflexivity.
  do 2 f_equal. simpl. lra.
Qed.

Lemma float_text_600 : PyText.float "600" = Ok (Fin 600).
Proof.
  rewrite (float_decimal "600" false 600 0) by reflexivity.
  do 2 f_equal. simpl. lra.
Qed.

Lemma sqrt_between (a b x : R) :
  0 <= a -> 0 <= b -> a * a < x -> x < b * b -> a < sqrt x < b.
Proof.
  intros Ha Hb Hlo Hhi.
  assert (Hx : 0 <= x) by nra.
  split.
  - rewrite <- (sqrt_square a Ha). apply sqrt_lt_1; nra.
  - rewrite <- (sqrt_square b Hb). apply sqrt_lt_1; nra.
Qed.

Lemma sqrt2_bounds : 1.4142135 < sqrt 2 < 1.4142136.
Proof. apply sqrt_between; lra. Qed.

Ltac unfold_scale :=
  let c := eval vm_compute in Log10.scale in
  change Log10.scale with c in *.

Lemma log10_inv_ref_bounds :
  1861002 / 2 ^ 24 <= PyFloat.log10 (1 / REF_U) <= (1861002 + 1) / 2 ^ 24.
Proof.
  apply (bits_sound 24 1290994448804944590123212990443
                    1290994448804944590123212990444).
  - lia.
  - unfold REF_U. lra.
  - unfold REF_U. unfold_scale. lra.
  - vm_compute. reflexivity.
Qed.

Lemma log10_five_thirds_bounds :
  3722004 / 2 ^ 24
  <= PyFloat.log10 (1 ^ 2 / (0.001 * 600))
  <= (3722004 + 1) / 2 ^ 24.
Proof.
  apply (bits_sound 24 1666666666666666666666666666666
                    1666666666666666666666666666667).
  - lia.
  - lra.
  - unfold_scale. lra.
  - vm_compute. reflexivity.
Qed.

Lemma log10_1 : PyFloat.log10 1 = 0.
Proof. unfold PyFloat.log10. rewrite ln_1. lra. Qed.

Lemma pow2_24 : 2 ^ 24 = 16777216.
Proof. simpl. lra. Qed.

Lemma pow10_4 : 10 ^ Z.to_nat 4 = 10000.
Proof. simpl. lra. Qed.


Lemma vrms_scenario_vp : rendered 4 (Fin (1 * sqrt 2)) = "1.4142".
Proof.
  pose proof sqrt2_bounds as H.
  rewrite rendered_fixed by (apply (is_whole_between _ 1); lra).
  rewrite (format_fixed_pos _ _ 14142); [ reflexivity | lra | rewrite pow10_4; lra ].
Qed.

Lemma vrms_scenario_vpp : rendered 4 (Fin (2 * 1 * sqrt 2)) = "2.8284".
Proof.
  pose proof sqrt2_bounds as H.
  rewrite rendered_fixed by (apply (is_whole_between _ 2); lra).
  rewrite (format_fixed_pos _ _ 28284); [ reflexivity | lra | rewrite pow10_4; lra ].
Qed.

Lemma vrms_scenario_dbu :
  rendered 4 (Fin (20 * PyFloat.log10 (1 / REF_U))) = "2.2185".
Proof.
  pose proof log10_inv_ref_bounds as H. rewrite pow2_24 in H.
  rewrite rendered_fixed by (apply (is_whole_between _ 2); lra).
  rewrite (format_fixed_pos _ _ 22185); [ reflexivity | lra | rewrite pow10_4; lra ].
Qed.

Lemma vrms_scenario_dbv : rendered 4 (Fin (20 * PyFloat.log10 1)) = "0".
Proof.
  rewrite (rendered_whole _ 0); [ reflexivity | ]. rewrite log10_1. lra.
Qed.

Lemma vrms_scenario_dbm :
  rendered 4 (Fin (10 * PyFloat.log10 (1 ^ 2 / (0.001 * 600)))) = "2.2185".
Proof.
  pose proof log10_five_thirds_bounds as H. rewrite pow2_24 in H.
  assert (Hw : PyFloat.is_whole (10 * PyFloat.log10 (1 ^ 2 / (0.001 * 600)))
               = false)
    by (apply (is_whole_between _ 2); lra).
  rewrite (rendered_fixed _ _ Hw).
  rewrite (format_fixed_pos _ _ 22185); [ reflexivity | lra | rewrite pow10_4; lra ].
Qed.

(** The window after "Convert" on V-RMS in the scenario. *)
Lemma vrms_scenario_run :
  calc_vrms vrms_scenario
  = (Ok tt,
     mkGui 4 "1.4142" "2.8284" "1" "2.2185" "0" "2.2185" "600" "4" []).
Proof.
  assert (Hr : update_rounding vrms_scenario
               = (Ok tt, set_rounding 4 vrms_scenario)).
  { apply update_rounding_valid; [ reflexivity | unfold valid_rounding; lia ]. }
  unfold calc_vrms. rewrite (bind_ok _ _ _ _ _ Hr).
  rewrite (vrms_conversion_run 1 600);
    [ | exact float_text_1 | lra | exact float_text_600 | lra ].
  cbv zeta. cbn [rounding set_rounding].
  rewrite vrms_scenario_vp, vrms_scenario_vpp, vrms_scenario_dbu,
    vrms_scenario_dbv, vrms_scenario_dbm.
  reflexivity.
Qed.

(** ** Closed forms of the helpers *)

Lemma lift_write_cases (set : string -> gui -> gui) (c : result pyfloat)
      (s : gui) :
  (v <- lift c ;; write_box set v) s
  = match c with
    | Ok x => (Ok tt, set (rendered (rounding s) x) s)
    | Raise e => (Raise e, s)
    end.
Proof.
  destruct c as [x | e].
  - apply lift_write_run. reflexivity.
  - reflexivity.
Qed.

Lemma update_dbu_cases (v : pyfloat) (s : gui) :
  update_dbu v s
  = match dbu_of_vrms v with
    | Ok x => (Ok tt, set_dbu_box (rendered (rounding s) x) s)
    | Raise e => (Raise e, s)
    end.
Proof. apply lift_write_cases. Qed.

Lemma update_dbv_cases (v : pyfloat) (s : gui) :
  update_dbv v s
  = match dbv_of_vrms v with
    | Ok x => (Ok tt, set_dbv_box (rendered (rounding s) x) s)
    | Raise e => (Raise e, s)
    end.
Proof. apply lift_write_cases. Qed.

Lemma update_vp_cases (vpp vrms : option pyfloat) (s : gui) :
  update_vp vpp vrms s
  = match vpp, vrms with
    | Some x, _ =>
        match vp_of_vpp x with
        | Ok y => (Ok tt, set_vp_box (rendered (rounding s) y) s)
        | Raise e => (Raise e, s)
        end
    | None, Some x =>
        match vp_of_vrms x with
        | Ok y => (Ok tt, set_vp_box (rendered (rounding s) y) s)
        | Raise e => (Raise e, s)
        end
    | None, None => (Ok tt, s)
    end.
Proof.
  unfold update_vp. destruct vpp, vrms; try apply lift_write_cases. reflexivity.
Qed.

Lemma update_vpp_cases (vp vrms : option pyfloat) (s : gui) :
  update_vpp vp vrms s
  = match vp, vrms with
    | Some x, _ =>
        match vpp_of_vp x with
        | Ok y => (Ok tt, set_vpp_box (rendered (rounding s) y) s)
        | Raise e => (Raise e, s)
        end
    | None, Some x =>
        match vpp_of_vrms x with
        | Ok y => (Ok tt, set_vpp_box (rendered (rounding s) y) s)
        | Raise e => (Raise e, s)
        end
    | None, None => (Ok tt, s)
    end.
Proof.
  unfold update_vpp. destruct vp, vrms; try apply lift_write_cases. reflexivity.
Qed.

(** * The claims *)

(** ** C10: every single-field helper writes its own box only *)

(** C10. For every argument and every window, the window after [update_dbu]
    is the window before with the dBu box replaced by its new content, and
    nothing else changed; likewise [update_dbv] and the dBV box, [update_vp]
    and the V-p box, [update_vpp] and the V-pp box.  This holds whether the
    helper returns or raises. *)
Theorem helpers_write_only_their_box :
  forall (x : pyfloat) (o1 o2 : option pyfloat) (s : gui),
    snd (update_dbu x s) = set_dbu_box (dbu_box (snd (update_dbu x s))) s
    /\ snd (update_dbv x s) = set_dbv_box (dbv_box (snd (update_dbv x s))) s
    /\ snd (update_vp o1 o2 s) = set_vp_box (vp_box (snd (update_vp o1 o2 s))) s
    /\ snd (update_vpp o1 o2 s)
       = set_vpp_box (vpp_box (snd (update_vpp o1 o2 s))) s.
Proof.
  intros x o1 o2 s. repeat split.
  - rewrite update_dbu_cases. destruct (dbu_of_vrms x); simpl;
      [ reflexivity | destruct s; reflexivity ].
  - rewrite update_dbv_cases. destruct (dbv_of_vrms x); simpl;
      [ reflexivity | destruct s; reflexivity ].
  - rewrite update_vp_cases.
    destruct o1 as [a |]; [ destruct (vp_of_vpp a) | destruct o2 as [b |];
      [ destruct (vp_of_vrms b) | ] ]; simpl;
      first [ reflexivity | destruct s; reflexivity ].
  - rewrite update_vpp_cases.
    destruct o1 as [a |]; [ destruct (vpp_of_vp a) | destruct o2 as [b |];
      [ destruct (vpp_of_vrms b) | ] ]; simpl;
      first [ reflexivity | destruct s; reflexivity ].
Qed.

(** ** C9: the stored rounding stays within 1..10 *)

Lemma handle_rounding_source (e : event) (s : gui) :
  rounding (handle e s) = rounding s
  \/ (valid_rounding (rounding (handle e s))
      /\ PyText.parse_int (rounding_spinbox s) = Some (rounding (handle e s))).
Proof.
  assert (H : forall body : M unit,
             preserves rounding body ->
             rounding (snd ((update_rounding ;; body) s)) = rounding s
             \/ (valid_rounding (rounding (snd ((update_rounding ;; body) s)))
                 /\ PyText.parse_int (rounding_spinbox s)
                    = Some (rounding (snd ((update_rounding ;; body) s))))).
  { intros body Hb. unfold bind.
    destruct (update_rounding_cases s) as [(v & Hp & Hv & E) | (_ & E)];
      rewrite E; rewrite Hb; simpl; auto. }
  destruct e; simpl; try (left; reflexivity); apply H; frame_calls.
Qed.

(** C9. The window starts with rounding 4.  In every window the user can
    reach by typing and pressing buttons the stored rounding is an integer
    from 1 to 10, and any further event either leaves it as it is or stores
    the integer read from the spinbox, which is then from 1 to 10. *)
Theorem rounding_always_valid :
  forall s : gui,
    reachable s ->
    rounding initial = 4%Z
    /\ valid_rounding (rounding s)
    /\ forall e : event,
        rounding (handle e s) = rounding s
        \/ (valid_rounding (rounding (handle e s))
            /\ PyText.parse_int (rounding_spinbox s)
               = Some (rounding (handle e s))).
Proof.
  intros s Hs. split; [ reflexivity | ]. split.
  - induction Hs as [| e s Hs IH].
    + unfold valid_rounding. simpl. lia.
    + destruct (handle_rounding_source e s) as [-> | [H _]]; assumption.
  - intros e. apply handle_rounding_source.
Qed.

Lemma rounding_always_valid_witness :
  reachable (handle Click_vp (handle (Type_rounding "11") initial))
  /\ valid_rounding
       (rounding (handle Click_vp (handle (Type_rounding "11") initial))).
Proof.
  split.
  - apply reach_step, reach_step, reach_initial.
  - apply (rounding_always_valid
             (handle Click_vp (handle (Type_rounding "11") initial))).
    apply reach_step, reach_step, reach_initial.
Defined.

(** ** C4: the arithmetic of the helpers is the reference formula set *)

(** C4. On finite values, with a positive impedance and a positive V-RMS,
    each right-hand side of the helpers returns exactly the value of the
    reference formula of the specification: V-RMS from dBu, from dBV and
    from dBm, and dBu, dBV and dBm from V-RMS. *)
Theorem conversions_match_reference_formulas :
  forall dBu dBV dBm Z Vrms : R,
    0 < Z -> 0 < Vrms ->
    vrms_of_dbu (Fin dBu) = Ok (Fin (Spec.Vrms_from_dBu dBu))
    /\ vrms_of_dbv (Fin dBV) = Ok (Fin (Spec.Vrms_from_dBV dBV))
    /\ vrms_of_dbm (Fin Z) (Fin dBm) = Ok (Fin (Spec.Vrms_from_dBm Z dBm))
    /\ dbu_of_vrms (Fin Vrms) = Ok (Fin (Spec.dBu_from_Vrms Vrms))
    /\ dbv_of_vrms (Fin Vrms) = Ok (Fin (Spec.dBV_from_Vrms Vrms))
    /\ dbm_of_vrms (Fin Z) (Fin Vrms) = Ok (Fin (Spec.dBm_from_Vrms Z Vrms)).
Proof.
  intros dBu dBV dBm Z Vrms HZ HV.
  repeat split.
  - apply vrms_of_dbu_fin.
  - apply vrms_of_dbv_fin.
  - apply vrms_of_dbm_fin, HZ.
  - apply dbu_of_vrms_fin, HV.
  - apply dbv_of_vrms_fin, HV.
  - apply dbm_of_vrms_fin; assumption.
Qed.

Lemma conversions_match_reference_formulas_witness :
  vrms_of_dbu (Fin 4) = Ok (Fin (Spec.Vrms_from_dBu 4))
  /\ vrms_of_dbv (Fin (-10)) = Ok (Fin (Spec.Vrms_from_dBV (-10)))
  /\ vrms_of_dbm (Fin 600) (Fin 0) = Ok (Fin (Spec.Vrms_from_dBm 600 0))
  /\ dbu_of_vrms (Fin 1) = Ok (Fin (Spec.dBu_from_Vrms 1))
  /\ dbv_of_vrms (Fin 1) = Ok (Fin (Spec.dBV_from_Vrms 1))
  /\ dbm_of_vrms (Fin 600) (Fin 1) = Ok (Fin (Spec.dBm_from_Vrms 600 1)).
Proof.
  apply (conversions_match_reference_formulas 4 (-10) 0 600 1); lra.
Defined.

(** ** C8: dBm is monotone in the impedance and in V-RMS *)

Lemma log10_increasing (x y : R) :
  0 < x -> x < y -> PyFloat.log10 x < PyFloat.log10 y.
Proof.
  intros Hx Hxy. unfold PyFloat.log10, Rdiv.
  apply Rmult_lt_compat_r.
  - apply Rinv_0_lt_compat, ln10_pos.
  - apply ln_increasing; assumption.
Qed.

(** C8. For a fixed positive V-RMS the dBm value that [dbm_of_vrms] computes
    is strictly smaller for the larger of two positive impedances, and for a
    fixed positive impedance it is strictly larger for the larger of two
    positive V-RMS values; the values are those of the reference formula
    [10 * log10 (Vrms^2 / (0.001 * Z))]. *)
Theorem dbm_monotone :
  forall v1 v2 z1 z2 : R,
    0 < v1 -> v1 < v2 -> 0 < z1 -> z1 < z2 ->
    exists a b c : R,
      dbm_of_vrms (Fin z1) (Fin v1) = Ok (Fin a)
      /\ dbm_of_vrms (Fin z2) (Fin v1) = Ok (Fin b)
      /\ dbm_of_vrms (Fin z1) (Fin v2) = Ok (Fin c)
      /\ a = Spec.dBm_from_Vrms z1 v1
      /\ b = Spec.dBm_from_Vrms z2 v1
      /\ c = Spec.dBm_from_Vrms z1 v2
      /\ b < a
      /\ a < c.
Proof.
  intros v1 v2 z1 z2 Hv1 Hv Hz1 Hz.
  exists (Spec.dBm_from_Vrms z1 v1), (Spec.dBm_from_Vrms z2 v1),
    (Spec.dBm_from_Vrms z1 v2).
  repeat split; try (apply dbm_of_vrms_fin; lra).
  - unfold Spec.dBm_from_Vrms.
    apply Rmult_lt_compat_l; [ lra | ].
    apply log10_increasing.
    + apply Rdiv_lt_0_compat; nra.
    + unfold Rdiv. apply Rmult_lt_compat_l; [ nra | ].
      apply Rinv_lt_contravar; nra.
  - unfold Spec.dBm_from_Vrms.
    apply Rmult_lt_compat_l; [ lra | ].
    apply log10_increasing.
    + apply Rdiv_lt_0_compat; nra.
    + unfold Rdiv. apply Rmult_lt_compat_r.
      * apply Rinv_0_lt_compat. lra.
      * nra.
Qed.

Lemma dbm_monotone_witness :
  exists a b c : R,
    dbm_of_vrms (Fin 600) (Fin 1) = Ok (Fin a)
    /\ dbm_of_vrms (Fin 900) (Fin 1) = Ok (Fin b)
    /\ dbm_of_vrms (Fin 600) (Fin 2) = Ok (Fin c)
    /\ a = Spec.dBm_from_Vrms 600 1
    /\ b = Spec.dBm_from_Vrms 900 1
    /\ c = Spec.dBm_from_Vrms 600 2
    /\ b < a
    /\ a < c.
Proof. apply (dbm_monotone 1 2 600 900); lra. Defined.

(** ** C7: whole numbers without a fraction, the others with [rounding]
    digits *)

Lemma all_digits_uint (d : Decimal.uint) :
  all_digits (NilEmpty.string_of_uint d) = true.
Proof. induction d; simpl; auto. Qed.

Lemma all_digits_str_int (z : Z) :
  (0 <= z)%Z -> all_digits (PyText.str_int z) = true.
Proof.
  intros Hz. unfold PyText.str_int.
  destruct z as [| p | p]; [ reflexivity | | lia ].
  simpl. unfold NilZero.string_of_uint.
  destruct (Pos.to_uint p) eqn:E; first [ reflexivity | rewrite <- E; apply all_digits_uint | apply all_digits_uint ].
Qed.

Lemma no_point_uint (d : Decimal.uint) :
  has_char "." (NilEmpty.string_of_uint d) = false.
Proof. induction d; simpl; auto. Qed.

Lemma no_point_str_int (z : Z) : has_char "." (PyText.str_int z) = false.
Proof.
  unfold PyText.str_int.
  assert (H : forall d, has_char "." (NilZero.string_of_uint d) = false).
  { intros d. destruct d; first [ reflexivity | apply no_point_uint ]. }
  destruct (Z.to_int z); simpl; apply H.
Qed.

Lemma digit_char_is_digit (d : Z) :
  (0 <= d < 10)%Z -> PyText.digit_val (PyText.digit_char d) <> None.
Proof.
  intros H.
  assert (E : (d = 0 \/ d = 1 \/ d = 2 \/ d = 3 \/ d = 4 \/ d = 5 \/ d = 6
               \/ d = 7 \/ d = 8 \/ d = 9)%Z) by lia.
  repeat (destruct E as [-> | E]; [ vm_compute; discriminate | ]).
  subst d. vm_compute. discriminate.
Qed.

Lemma frac_digits_length (n : nat) (m : Z) :
  String.length (PyText.frac_digits n m) = n.
Proof. induction n as [| n IH]; simpl; [ reflexivity | rewrite IH; reflexivity ]. Qed.

Lemma frac_digits_all_digits (n : nat) (m : Z) :
  all_digits (PyText.frac_digits n m) = true.
Proof.
  induction n as [| n IH]; [ reflexivity | ].
  cbn [PyText.frac_digits all_digits].
  pose proof (digit_char_is_digit ((m / 10 ^ Z.of_nat n) mod 10)) as H.
  destruct (PyText.digit_val
              (PyText.digit_char ((m / 10 ^ Z.of_nat n) mod 10))).
  - exact IH.
  - exfalso. apply H; [ | reflexivity ]. apply Z.mod_pos_bound. lia.
Qed.

Lemma is_whole_iff (r : R) :
  PyFloat.is_whole r = true <-> exists k : Z, r = IZR k.
Proof.
  split.
  - intros H. exists (Zfloor r). apply is_whole_true, H.
  - intros [k ->]. apply is_whole_IZR.
Qed.

Lemma round_half_even_nonneg (x : R) :
  0 <= x -> (0 <= PyText.round_half_even x)%Z.
Proof.
  intros Hx. unfold PyText.round_half_even.
  assert (Hf : (0 <= Zfloor x)%Z) by (apply Zfloor_lub; exact Hx).
  destruct (Rlt_dec (x - IZR (Zfloor x)) (1 / 2)); [ exact Hf | ].
  destruct (Rlt_dec (1 / 2) (x - IZR (Zfloor x))); [ lia | ].
  destruct (Z.even (Zfloor x)); lia.
Qed.

(** The shape of a fixed-point text with at least one digit asked for. *)
Lemma format_fixed_shape (n : nat) (r : R) :
  (0 < n)%nat ->
  exists (sign : string) (ip : Z) (fp : string),
    PyText.format_fixed n r = sign ++ PyText.str_int ip ++ "." ++ fp
    /\ (sign = "" \/ sign = "-")
    /\ (0 <= ip)%Z
    /\ String.length fp = n
    /\ all_digits fp = true.
Proof.
  intros Hn. unfold PyText.format_fixed.
  set (m := PyText.round_half_even (Rabs r * 10 ^ n)).
  assert (Hm : (0 <= m)%Z).
  { apply round_half_even_nonneg. apply Rmult_le_pos.
    - apply Rabs_pos.
    - apply pow_le. lra. }
  exists (if Rlt_dec r 0 then "-" else ""), (m / 10 ^ Z.of_nat n)%Z,
    (PyText.frac_digits n (m mod 10 ^ Z.of_nat n)).
  destruct n as [| n']; [ lia | ].
  repeat split.
  - destruct (Rlt_dec r 0); auto.
  - apply Z.div_pos; [ exact Hm | ]. apply Z.pow_pos_nonneg; lia.
  - apply frac_digits_length.
  - apply frac_digits_all_digits.
Qed.

(** C7 (as the code has it). Every helper writes the text that [render]
    gives for its raw value.  For a finite raw value [r]: it is whole exactly
    when it is some integer [k]; when whole, the text is the decimal text of
    that integer, with no point; otherwise, with a stored rounding of at least
    one, the text is an optional minus sign, the digits of a non-negative
    integer, a point, and exactly [rounding] digits.  A raw value that is not
    finite is written as [nan], [inf] or [-inf]. *)
Theorem render_whole_or_fixed :
  forall (rnd : Z) (r : R),
    (forall (set : string -> gui -> gui) (x : pyfloat) (s : gui),
        exists t : string,
          render (rounding s) x = Ok t
          /\ write_box set x s = (Ok tt, set t s))
    /\ (PyFloat.is_whole r = true <-> exists k : Z, r = IZR k)
    /\ (forall k : Z,
           r = IZR k ->
           render rnd (Fin r) = Ok (PyText.str_int k)
           /\ has_char "." (PyText.str_int k) = false)
    /\ (PyFloat.is_whole r = false ->
        (0 < rnd)%Z ->
        exists (sign : string) (ip : Z) (fp : string),
          render rnd (Fin r) = Ok (sign ++ PyText.str_int ip ++ "." ++ fp)
          /\ (sign = "" \/ sign = "-")
          /\ (0 <= ip)%Z
          /\ all_digits (PyText.str_int ip) = true
          /\ String.length fp = Z.to_nat rnd
          /\ all_digits fp = true)
    /\ render rnd NaN = Ok "nan"
    /\ render rnd PInf = Ok "inf"
    /\ render rnd NInf = Ok "-inf".
Proof.
  intros rnd r. split; [ | split; [ | split; [ | split ] ] ].
  - intros set x s. exists (rendered (rounding s) x). split.
    + apply render_rendered.
    + apply write_box_run.
  - apply is_whole_iff.
  - intros k Hk. split.
    + rewrite render_rendered. f_equal. apply rendered_whole, Hk.
    + apply no_point_str_int.
  - intros Hw Hr.
    destruct (format_fixed_shape (Z.to_nat rnd) r) as (sign & ip & fp & E & H);
      [ lia | ].
    exists sign, ip, fp. rewrite render_rendered, (rendered_fixed _ _ Hw), E.
    destruct H as (Hs & Hip & Hl & Hd).
    repeat split; auto using all_digits_str_int.
  - repeat split.
Qed.

Lemma render_whole_or_fixed_witness :
  exists (sign : string) (ip : Z) (fp : string),
    render 4 (Fin (1 / 2)) = Ok (sign ++ PyText.str_int ip ++ "." ++ fp)
    /\ (sign = "" \/ sign = "-")
    /\ (0 <= ip)%Z
    /\ all_digits (PyText.str_int ip) = true
    /\ String.length fp = Z.to_nat 4
    /\ all_digits fp = true.
Proof.
  apply (render_whole_or_fixed 4 (1 / 2)).
  - apply (is_whole_between _ 0). lra.
  - lia.
Defined.

(** ** The guards of the handlers *)

Lemma float_raises_value_error (t : string) (e : exn) :
  PyText.float t = Raise e -> e = ValueError.
Proof.
  unfold PyText.float. destruct (PyText.parse_float t); [ discriminate | ].
  intros H. injection H as <-. reflexivity.
Qed.

Lemma update_rounding_boxes (s : gui) :
  fst (update_rounding s) = Ok tt
  /\ boxes (snd (update_rounding s)) = boxes s
  /\ impedance_box (snd (update_rounding s)) = impedance_box s.
Proof.
  destruct (update_rounding_cases s) as [(v & _ & _ & ->) | (_ & ->)];
    repeat split.
Qed.

Section MagnitudeGuard.
(** A handler of the V-p / V-pp / V-RMS kind: its source box, the title of
    its dialog and what it does once the entry is accepted. *)
Variables (box : gui -> string) (title : string) (go : pyfloat -> M unit).

Let conversion : M unit :=
  try_except
    (entry_val <- float_of box ;;
     if PyFloat.le0 entry_val then raise ValueError else go entry_val)
    (showerror title).

Lemma magnitude_guard_rejects (s : gui) :
  magnitude_rejected (box s) = true ->
  conversion s = (Ok tt, push_error title s).
Proof.
  unfold magnitude_rejected, conversion, try_except. intros H.
  unfold bind at 1. unfold float_of, bind at 1, gets, lift.
  destruct (PyText.float (box s)) as [v | e] eqn:E.
  - rewrite H. reflexivity.
  - rewrite (float_raises_value_error _ _ E). reflexivity.
Qed.

Lemma magnitude_guard_accepts (s : gui) (v : pyfloat) :
  PyText.float (box s) = Ok v -> PyFloat.le0 v = false ->
  conversion s = try_except (go v) (showerror title) s.
Proof.
  intros E H. unfold conversion, try_except.
  unfold bind at 1. unfold float_of, bind at 1, gets, lift.
  rewrite E, H. reflexivity.
Qed.
End MagnitudeGuard.

Section NumberGuard.
(** A handler of the dB kind. *)
Variables (box : gui -> string) (title : string) (go : pyfloat -> M unit).

Let conversion : M unit :=
  try_except_else (float_of box) (showerror title) go.

Lemma number_guard_rejects (s : gui) :
  number_rejected (box s) = true ->
  conversion s = (Ok tt, push_error title s).
Proof.
  unfold number_rejected, conversion, try_except_else. intros H.
  unfold float_of, bind, gets, lift.
  destruct (PyText.float (box s)) as [v | e] eqn:E; [ discriminate | ].
  rewrite (float_raises_value_error _ _ E). reflexivity.
Qed.

Lemma number_guard_accepts (s : gui) (v : pyfloat) :
  PyText.float (box s) = Ok v -> conversion s = go v s.
Proof.
  intros E. unfold conversion, try_except_else.
  unfold float_of, bind, gets, lift. rewrite E. reflexivity.
Qed.
End NumberGuard.

Lemma magnitude_accepted_inv (t : string) :
  magnitude_rejected t = false ->
  exists v, PyText.float t = Ok v /\ PyFloat.le0 v = false.
Proof.
  unfold magnitude_rejected. destruct (PyText.float t) as [v | e];
    [ intros H; exists v; auto | discriminate ].
Qed.

Lemma number_accepted_inv (t : string) :
  number_rejected t = false -> exists v, PyText.float t = Ok v.
Proof.
  unfold number_rejected. destruct (PyText.float t) as [v | e];
    [ intros _; exists v; reflexivity | discriminate ].
Qed.

(** The right-hand sides that cannot raise. *)

Lemma vp_of_vpp_total (v : pyfloat) : exists x, vp_of_vpp v = Ok x.
Proof. unfold vp_of_vpp. rewrite div_fin by lra. eauto. Qed.

Lemma vp_of_vrms_total (v : pyfloat) : exists x, vp_of_vrms v = Ok x.
Proof. unfold vp_of_vrms. rewrite math_sqrt_2. cbn [rbind]. eauto. Qed.

Lemma vpp_of_vrms_total (v : pyfloat) : exists x, vpp_of_vrms v = Ok x.
Proof. unfold vpp_of_vrms. rewrite math_sqrt_2. cbn [rbind]. eauto. Qed.

Lemma vrms_of_dbu_total (v : pyfloat) : exists x, vrms_of_dbu v = Ok x.
Proof. unfold vrms_of_dbu. rewrite div_fin by lra. cbn [rbind]. eauto. Qed.

Lemma vrms_of_dbv_total (v : pyfloat) : exists x, vrms_of_dbv v = Ok x.
Proof. unfold vrms_of_dbv. rewrite div_fin by lra. cbn [rbind]. eauto. Qed.

(** The first box each handler writes once its entry is accepted. *)

Lemma first_write {X} (proj : gui -> X) (first rest handler : M unit)
      (s s' : gui) :
  first s = (Ok tt, s') ->
  preserves proj rest -> preserves proj handler ->
  proj (snd (try_except (first ;; rest) handler s)) = proj s'.
Proof.
  intros Hf Hr Hh. rewrite try_except_proj by assumption.
  rewrite (bind_ok _ _ _ _ _ Hf). apply Hr.
Qed.

Lemma vp_conversion_first_write (s : gui) (v : pyfloat) :
  PyText.float (vp_box s) = Ok v -> PyFloat.le0 v = false ->
  vpp_box (snd (vp_conversion s))
  = rendered (rounding s) (PyFloat.mul v (Fin 2)).
Proof.
  intros E H. unfold vp_conversion.
  rewrite (magnitude_guard_accepts vp_box _ _ s v E H).
  rewrite (first_write vpp_box _ _ _ _ _ (update_vpp_of_vp v None s));
    [ reflexivity | frame_calls | frame_calls ].
Qed.

Lemma vpp_conversion_first_write (s : gui) (v x : pyfloat) :
  PyText.float (vpp_box s) = Ok v -> PyFloat.le0 v = false ->
  vp_of_vpp v = Ok x ->
  vp_box (snd (vpp_conversion s)) = rendered (rounding s) x.
Proof.
  intros E H Hx. unfold vpp_conversion.
  rewrite (magnitude_guard_accepts vpp_box _ _ s v E H).
  rewrite first_write with (s' := set_vp_box (rendered (rounding s) x) s);
    [ reflexivity | | frame_calls | frame_calls ].
  rewrite update_vp_cases, Hx. reflexivity.
Qed.

Lemma vrms_conversion_first_write (s : gui) (v x : pyfloat) :
  PyText.float (vrms_box s) = Ok v -> PyFloat.le0 v = false ->
  vp_of_vrms v = Ok x ->
  vp_box (snd (vrms_conversion s)) = rendered (rounding s) x.
Proof.
  intros E H Hx. unfold vrms_conversion.
  rewrite (magnitude_guard_accepts vrms_box _ _ s v E H).
  rewrite first_write with (s' := set_vp_box (rendered (rounding s) x) s);
    [ reflexivity | | frame_calls | frame_calls ].
  rewrite update_vp_cases, Hx. reflexivity.
Qed.

Lemma dbu_conversion_first_write (s : gui) (v x : pyfloat) :
  PyText.float (dbu_box s) = Ok v -> vrms_of_dbu v = Ok x ->
  vrms_box (snd (dbu_conversion s)) = rendered (rounding s) x.
Proof.
  intros E Hx. unfold dbu_conversion.
  rewrite (number_guard_accepts dbu_box _ _ s v E).
  assert (Hf : update_vrms None None (Some v) None None s
               = (Ok tt, set_vrms_box (rendered (rounding s) x) s)).
  { unfold update_vrms. rewrite lift_write_cases, Hx. reflexivity. }
  rewrite (bind_ok _ _ _ _ _ Hf).
  match goal with
  | |- vrms_box (snd (?rest ?s')) = _ =>
      assert (Hr : preserves vrms_box rest) by frame_calls; rewrite Hr
  end.
  reflexivity.
Qed.

Lemma dbv_conversion_first_write (s : gui) (v x : pyfloat) :
  PyText.float (dbv_box s) = Ok v -> vrms_of_dbv v = Ok x ->
  vrms_box (snd (dbv_conversion s)) = rendered (rounding s) x.
Proof.
  intros E Hx. unfold dbv_conversion.
  rewrite (number_guard_accepts dbv_box _ _ s v E).
  assert (Hf : update_vrms None None None (Some v) None s
               = (Ok tt, set_vrms_box (rendered (rounding s) x) s)).
  { unfold update_vrms. rewrite lift_write_cases, Hx. reflexivity. }
  rewrite (bind_ok _ _ _ _ _ Hf).
  match goal with
  | |- vrms_box (snd (?rest ?s')) = _ =>
      assert (Hr : preserves vrms_box rest) by frame_calls; rewrite Hr
  end.
  reflexivity.
Qed.

(** ** C1: what an error leaves untouched *)

Lemma update_rounding_keeps (s : gui) :
  vp_box (snd (update_rounding s)) = vp_box s
  /\ vpp_box (snd (update_rounding s)) = vpp_box s
  /\ vrms_box (snd (update_rounding s)) = vrms_box s
  /\ dbu_box (snd (update_rounding s)) = dbu_box s
  /\ dbv_box (snd (update_rounding s)) = dbv_box s
  /\ dbm_box (snd (update_rounding s)) = dbm_box s.
Proof.
  destruct (update_rounding_cases s) as [(v & _ & _ & ->) | (_ & ->)];
    repeat split.
Qed.

Ltac keep_box s :=
  let H := fresh in
  pose proof (update_rounding_keeps s) as H;
  solve [ apply H ].

Lemma calc_rejected_magnitude (box : gui -> string) (title : string)
      (go : pyfloat -> M unit) (s : gui) :
  box (snd (update_rounding s)) = box s ->
  magnitude_rejected (box s) = true ->
  let handler :=
    update_rounding ;;
    try_except
      (entry_val <- float_of box ;;
       if PyFloat.le0 entry_val then raise ValueError else go entry_val)
      (showerror title) in
  handler s = (Ok tt, push_error title (snd (update_rounding s)))
  /\ boxes (snd (handler s)) = boxes s.
Proof.
  intros Hb H handler.
  destruct (update_rounding_boxes s) as (Hok & Hboxes & _).
  assert (E : handler s = (Ok tt, push_error title (snd (update_rounding s)))).
  { unfold handler.
    destruct (update_rounding s) as [r s1] eqn:E. simpl in *. subst r.
    rewrite (bind_ok _ _ _ _ _ E).
    apply magnitude_guard_rejects. rewrite Hb. exact H. }
  split; [ exact E | rewrite E; exact Hboxes ].
Qed.

Lemma calc_rejected_number (box : gui -> string) (title : string)
      (go : pyfloat -> M unit) (s : gui) :
  box (snd (update_rounding s)) = box s ->
  number_rejected (box s) = true ->
  let handler :=
    update_rounding ;; try_except_else (float_of box) (showerror title) go in
  handler s = (Ok tt, push_error title (snd (update_rounding s)))
  /\ boxes (snd (handler s)) = boxes s.
Proof.
  intros Hb H handler.
  destruct (update_rounding_boxes s) as (Hok & Hboxes & _).
  assert (E : handler s = (Ok tt, push_error title (snd (update_rounding s)))).
  { unfold handler.
    destruct (update_rounding s) as [r s1] eqn:E. simpl in *. subst r.
    rewrite (bind_ok _ _ _ _ _ E).
    apply number_guard_rejects. rewrite Hb. exact H. }
  split; [ exact E | rewrite E; exact Hboxes ].
Qed.

(** C1 (as the code has it). When the entry of the request itself is
    refused (V-p, V-pp, V-RMS: [float()] cannot read it or it is [<= 0.0];
    dBu, dBV, dBm: [float()] cannot read it) the handler shows its own dialog
    and returns, and none of the six entry boxes is changed. *)
Theorem refused_entry_changes_no_box :
  forall s : gui,
    (magnitude_rejected (vp_box s) = true ->
     calc_vp s = (Ok tt, push_error "V-p Error" (snd (update_rounding s)))
     /\ boxes (snd (calc_vp s)) = boxes s)
    /\ (magnitude_rejected (vpp_box s) = true ->
        calc_vpp s = (Ok tt, push_error "V-pp Error" (snd (update_rounding s)))
        /\ boxes (snd (calc_vpp s)) = boxes s)
    /\ (magnitude_rejected (vrms_box s) = true ->
        calc_vrms s
        = (Ok tt, push_error "V-RMS Error" (snd (update_rounding s)))
        /\ boxes (snd (calc_vrms s)) = boxes s)
    /\ (number_rejected (dbu_box s) = true ->
        calc_dbu s = (Ok tt, push_error "dBu Error" (snd (update_rounding s)))
        /\ boxes (snd (calc_dbu s)) = boxes s)
    /\ (number_rejected (dbv_box s) = true ->
        calc_dbv s = (Ok tt, push_error "dBV Error" (snd (update_rounding s)))
        /\ boxes (snd (calc_dbv s)) = boxes s)
    /\ (number_rejected (dbm_box s) = true ->
        calc_dbm s = (Ok tt, push_error "dBm Error" (snd (update_rounding s)))
        /\ boxes (snd (calc_dbm s)) = boxes s).
Proof.
  intros s. repeat apply conj; intros H.
  - apply (calc_rejected_magnitude vp_box); [ keep_box s | exact H ].
  - apply (calc_rejected_magnitude vpp_box); [ keep_box s | exact H ].
  - apply (calc_rejected_magnitude vrms_box); [ keep_box s | exact H ].
  - apply (calc_rejected_number dbu_box); [ keep_box s | exact H ].
  - apply (calc_rejected_number dbv_box); [ keep_box s | exact H ].
  - apply (calc_rejected_number dbm_box); [ keep_box s | exact H ].
Qed.

Lemma refused_entry_changes_no_box_witness :
  calc_vp initial
  = (Ok tt, push_error "V-p Error" (snd (update_rounding initial)))
  /\ boxes (snd (calc_vp initial)) = boxes initial.
Proof.
  apply (refused_entry_changes_no_box initial). reflexivity.
Defined.

(** The V-RMS handler with an impedance that [update_dbm] refuses: four boxes
    are rewritten, the dBm box keeps its text and the dialog is shown. *)
Lemma vrms_conversion_refused_impedance (v : R) (s : gui) :
  PyText.float (vrms_box s) = Ok (Fin v) -> 0 < v ->
  magnitude_rejected (impedance_box s) = true ->
  vrms_conversion s
  = (Ok tt,
     let rnd := rounding s in
     mkGui rnd
           (rendered rnd (Fin (v * sqrt 2)))
           (rendered rnd (Fin (2 * v * sqrt 2)))
           (vrms_box s)
           (rendered rnd (Fin (20 * PyFloat.log10 (v / REF_U))))
           (rendered rnd (Fin (20 * PyFloat.log10 v)))
           (dbm_box s)
           (impedance_box s) (rounding_spinbox s)
           ("dBm Impedance Error" :: errors s)).
Proof.
  intros Hv Hpos Hz. unfold vrms_conversion.
  rewrite (magnitude_guard_accepts vrms_box _ _ s (Fin v) Hv)
    by (cbn [PyFloat.le0]; apply Rle_dec_false; exact Hpos).
  unfold try_except.
  rewrite (bind_ok _ _ _ _ _ (update_vp_of_vrms v s)).
  rewrite (bind_ok _ _ _ _ _ (update_vpp_of_vrms v _)).
  rewrite (bind_ok _ _ _ _ _ (update_dbu_run v _ Hpos)).
  rewrite (bind_ok _ _ _ _ _ (update_dbv_run v _ Hpos)).
  rewrite update_dbm_rejected by exact Hz.
  reflexivity.
Qed.

Lemma magnitude_rejected_zero : magnitude_rejected "0" = true.
Proof.
  unfold magnitude_rejected.
  rewrite (float_decimal "0" false 0 0) by reflexivity.
  cbn [PyFloat.le0]. apply Rle_dec_true. simpl. lra.
Qed.

Lemma impedance_scenario_run :
  calc_vrms impedance_scenario
  = (Ok tt,
     mkGui 4 "1.4142" "2.8284" "1" "2.2185" "0" "" "0" "4"
           ["dBm Impedance Error"]).
Proof.
  assert (Hr : update_rounding impedance_scenario
               = (Ok tt, set_rounding 4 impedance_scenario)).
  { apply update_rounding_valid; [ reflexivity | unfold valid_rounding; lia ]. }
  unfold calc_vrms. rewrite (bind_ok _ _ _ _ _ Hr).
  rewrite (vrms_conversion_refused_impedance 1);
    [ | exact float_text_1 | lra | exact magnitude_rejected_zero ].
  cbv zeta. cbn [rounding set_rounding].
  rewrite vrms_scenario_vp, vrms_scenario_vpp, vrms_scenario_dbu,
    vrms_scenario_dbv.
  reflexivity.
Qed.

(** C1, counterexample. With an impedance of [0] the V-RMS handler shows the
    impedance dialog and still rewrites the V-p, V-pp, dBu and dBV boxes. *)
Lemma partial_update_on_refused_impedance :
  ~ no_partial_update calc_vrms impedance_scenario.
Proof.
  unfold no_partial_update. rewrite impedance_scenario_run. simpl.
  intros H. assert (E : ["dBm Impedance Error"] <> @nil string) by discriminate.
  specialize (H E). discriminate H.
Qed.

(** ** C2: an unusable rounding does not stop the conversion *)

(** C2 (as the code has it). When the spinbox does not hold an integer from
    1 to 10, [update_rounding] shows its dialog and keeps the stored rounding,
    and each handler then runs its conversion on that window, with the stored
    rounding. *)
Theorem invalid_rounding_keeps_stored_precision :
  forall s : gui,
    rounding_rejected (rounding_spinbox s) = true ->
    let s1 := push_error "Decimal places rounding error" s in
    rounding s1 = rounding s
    /\ calc_vp s = vp_conversion s1
    /\ calc_vpp s = vpp_conversion s1
    /\ calc_vrms s = vrms_conversion s1
    /\ calc_dbu s = dbu_conversion s1
    /\ calc_dbv s = dbv_conversion s1
    /\ calc_dbm s = dbm_conversion s1.
Proof.
  intros s H s1. pose proof (update_rounding_rejected s H) as E.
  unfold calc_vp, calc_vpp, calc_vrms, calc_dbu, calc_dbv, calc_dbm.
  rewrite !(bind_ok _ _ _ _ _ E). repeat split.
Qed.

Lemma invalid_rounding_keeps_stored_precision_witness :
  let s1 := push_error "Decimal places rounding error" rounding_scenario in
  rounding s1 = rounding rounding_scenario
  /\ calc_vp rounding_scenario = vp_conversion s1
  /\ calc_vpp rounding_scenario = vpp_conversion s1
  /\ calc_vrms rounding_scenario = vrms_conversion s1
  /\ calc_dbu rounding_scenario = dbu_conversion s1
  /\ calc_dbv rounding_scenario = dbv_conversion s1
  /\ calc_dbm rounding_scenario = dbm_conversion s1.
Proof.
  apply (invalid_rounding_keeps_stored_precision rounding_scenario).
  reflexivity.
Defined.

Lemma float_text_2 : PyText.float "2" = Ok (Fin 2).
Proof.
  rewrite (float_decimal "2" false 2 0) by reflexivity.
  do 2 f_equal. simpl. lra.
Qed.

Lemma rounding_scenario_vpp :
  vpp_box (snd (calc_vp rounding_scenario)) = "4".
Proof.
  assert (E : update_rounding rounding_scenario
              = (Ok tt, push_error "Decimal places rounding error"
                                   rounding_scenario))
    by (apply update_rounding_rejected; reflexivity).
  unfold calc_vp. rewrite (bind_ok _ _ _ _ _ E).
  rewrite (vp_conversion_first_write _ (Fin 2));
    [ | exact float_text_2 | cbn [PyFloat.le0]; apply Rle_dec_false; lra ].
  cbn [PyFloat.mul]. rewrite (rendered_whole _ 4); [ reflexivity | lra ].
Qed.

(** C2, counterexample. With [0] in the spinbox and [2] in the V-p box the
    handler goes on and writes [4] into the V-pp box. *)
Lemma invalid_rounding_still_converts :
  ~ rejects_invalid_rounding calc_vp rounding_scenario.
Proof.
  unfold rejects_invalid_rounding. intros H.
  specialize (H eq_refl).
  apply (f_equal (fun l => nth 1 l "")) in H. simpl in H.
  rewrite rounding_scenario_vpp in H. discriminate H.
Qed.

(** ** C6: the V-RMS scenario *)

(** C6 (as the code has it). With the V-RMS entry [1], rounding 4 and the
    impedance 600 the handler returns and the boxes read V-p [1.4142],
    V-pp [2.8284], dBu [2.2185], dBV [0] and dBm [2.2185]. *)
Theorem vrms_scenario_outputs :
  rounding_spinbox vrms_scenario = "4"
  /\ impedance_box vrms_scenario = "600"
  /\ vrms_box vrms_scenario = "1"
  /\ fst (calc_vrms vrms_scenario) = Ok tt
  /\ vp_box (snd (calc_vrms vrms_scenario)) = "1.4142"
  /\ vpp_box (snd (calc_vrms vrms_scenario)) = "2.8284"
  /\ dbu_box (snd (calc_vrms vrms_scenario)) = "2.2185"
  /\ dbv_box (snd (calc_vrms vrms_scenario)) = "0"
  /\ dbm_box (snd (calc_vrms vrms_scenario)) = "2.2185".
Proof. rewrite vrms_scenario_run. repeat split. Qed.

(** C6, counterexample. The outputs listed by the specification are not the
    ones the handler writes: the dBu box reads [2.2185], not [2.2190], and
    the dBm box reads [2.2185], not [-27.7815]. *)
Lemma vrms_scenario_not_as_specified :
  ~ vrms_scenario_as_specified (snd (calc_vrms vrms_scenario)).
Proof.
  unfold vrms_scenario_as_specified. rewrite vrms_scenario_run. simpl.
  intros (_ & _ & H & _). discriminate H.
Qed.

(** ** C5: which entries the guards refuse *)

Lemma le0_fin (r : R) : PyFloat.le0 (Fin r) = true <-> r <= 0.
Proof.
  unfold PyFloat.le0. destruct (Rle_dec r 0); split; intros H;
    first [ assumption | reflexivity | discriminate | contradiction ].
Qed.

Lemma calc_accepted (conversion : M unit) (s : gui) :
  (update_rounding ;; conversion) s = conversion (snd (update_rounding s)).
Proof.
  destruct (update_rounding_boxes s) as (Hok & _).
  destruct (update_rounding s) as [r s1] eqn:E. simpl in *. subst r.
  exact (bind_ok update_rounding (fun _ => conversion) _ _ _ E).
Qed.

(** The values that are not [<= 0.0] although they are no finite number. *)

Lemma mul_inf_positive (negative : bool) (a : R) :
  0 < a -> PyFloat.mul_inf negative a = PyFloat.inf_of_sign negative.
Proof.
  intros H. unfold PyFloat.mul_inf.
  rewrite Req_dec_false by lra. rewrite Rlt_dec_false by lra. reflexivity.
Qed.

Lemma first_outputs_of_nan :
  PyFloat.mul NaN (Fin 2) = NaN
  /\ vp_of_vpp NaN = Ok NaN
  /\ vp_of_vrms NaN = Ok NaN.
Proof.
  repeat apply conj.
  - reflexivity.
  - unfold vp_of_vpp. rewrite div_fin by lra. reflexivity.
  - unfold vp_of_vrms. rewrite math_sqrt_2. reflexivity.
Qed.

Lemma first_outputs_of_inf :
  PyFloat.mul PInf (Fin 2) = PInf
  /\ vp_of_vpp PInf = Ok PInf
  /\ vp_of_vrms PInf = Ok PInf.
Proof.
  pose proof sqrt2_pos as H2. repeat apply conj.
  - cbn [PyFloat.mul]. apply mul_inf_positive. lra.
  - unfold vp_of_vpp. rewrite div_fin by lra.
    rewrite mul_inf_positive by lra. reflexivity.
  - unfold vp_of_vrms. rewrite math_sqrt_2. cbn [rbind PyFloat.mul].
    rewrite mul_inf_positive by assumption. reflexivity.
Qed.

Lemma rendered_nan (rnd : Z) : rendered rnd NaN = "nan".
Proof. reflexivity. Qed.

Lemma rendered_inf (rnd : Z) : rendered rnd PInf = "inf".
Proof. reflexivity. Qed.

(** The value of the formula itself is within every tolerance. *)

Lemma written_near_exact (rnd : Z) (val : R) :
  written_near rnd val (rendered rnd (Fin val)).
Proof.
  exists val. split; [ | reflexivity ].
  replace (val - val) with 0 by ring. rewrite Rabs_R0.
  apply Rmult_le_pos; [ apply Rabs_pos | ].
  left. apply Rinv_0_lt_compat, pow_lt. lra.
Qed.

Lemma written_within_exact (rnd : Z) (val : R) :
  written_within rnd val (rendered rnd (Fin val)).
Proof.
  exists val. split; [ | reflexivity ].
  replace (val - val) with 0 by ring. rewrite Rabs_R0.
  left. apply Rinv_0_lt_compat, pow_lt. lra.
Qed.

Lemma in_range_positive (k : nat) (r : R) : in_range k r -> 0 < r.
Proof.
  intros [H _]. assert (0 < / 10 ^ k) by (apply Rinv_0_lt_compat, pow_lt; lra).
  lra.
Qed.

Lemma in_range_one (k : nat) : in_range k 1.
Proof.
  assert (H : 1 <= 10 ^ k) by (apply pow_R1_Rle; lra).
  split; [ | exact H ].
  rewrite <- Rinv_1. apply Rinv_le_contravar; lra.
Qed.

(** C5 (as the code has it).  [x <= 0.0] holds of a finite [x] exactly when
    it is zero or negative, holds of [-inf], and fails of [nan] and [inf].
    - A V-p, V-pp or V-RMS request whose entry [float()] cannot read, or
      reads as a value [<= 0.0], is refused with its own dialog and no box
      changed; a dBu or dBV request is refused in this way when [float()]
      cannot read the entry.
    - The entries [nan] and [inf] are not refused: the first output box
      receives the text [nan], respectively [inf].
    - A finite V-p, V-pp or V-RMS entry between [10^-300] and [10^300] is
      not refused: the first output box receives the text of [2 * vp], of
      [vpp / 2], respectively of [vrms * sqrt 2], to nine significant
      digits.
    - A finite dBu or dBV entry between [-6000] and [6000] is not refused:
      the V-RMS box receives the text of [0.7745966692 * 10^(dbu/20)],
      respectively of [10^(dbv/20)], to nine significant digits.
    Nothing is said here of what follows the first output box. *)
Theorem guards_of_the_handlers :
  forall s : gui,
    let s1 := snd (update_rounding s) in
    let rnd := rounding s1 in
    let text_of (v : pyfloat) : string :=
      match v with NaN => "nan" | _ => "inf" end in
    (PyFloat.le0 NaN = false /\ PyFloat.le0 PInf = false
     /\ PyFloat.le0 NInf = true
     /\ forall r : R, PyFloat.le0 (Fin r) = true <-> r <= 0)
    /\ ((magnitude_rejected (vp_box s) = true ->
         calc_vp s = (Ok tt, push_error "V-p Error" s1))
        /\ (magnitude_rejected (vpp_box s) = true ->
            calc_vpp s = (Ok tt, push_error "V-pp Error" s1))
        /\ (magnitude_rejected (vrms_box s) = true ->
            calc_vrms s = (Ok tt, push_error "V-RMS Error" s1))
        /\ (number_rejected (dbu_box s) = true ->
            calc_dbu s = (Ok tt, push_error "dBu Error" s1))
        /\ (number_rejected (dbv_box s) = true ->
            calc_dbv s = (Ok tt, push_error "dBV Error" s1)))
    /\ (forall v : pyfloat,
           v = NaN \/ v = PInf ->
           (PyText.float (vp_box s) = Ok v ->
            vpp_box (snd (calc_vp s)) = text_of v)
           /\ (PyText.float (vpp_box s) = Ok v ->
               vp_box (snd (calc_vpp s)) = text_of v)
           /\ (PyText.float (vrms_box s) = Ok v ->
               vp_box (snd (calc_vrms s)) = text_of v))
    /\ (forall r : R,
           in_range 300 r ->
           (PyText.float (vp_box s) = Ok (Fin r) ->
            written_near rnd (r * 2) (vpp_box (snd (calc_vp s))))
           /\ (PyText.float (vpp_box s) = Ok (Fin r) ->
               written_near rnd (r / 2) (vp_box (snd (calc_vpp s))))
           /\ (PyText.float (vrms_box s) = Ok (Fin r) ->
               written_near rnd (r * sqrt 2) (vp_box (snd (calc_vrms s)))))
    /\ (forall d : R,
           -6000 <= d <= 6000 ->
           (PyText.float (dbu_box s) = Ok (Fin d) ->
            written_near rnd (REF_U * Rpower 10 (d / 20))
              (vrms_box (snd (calc_dbu s))))
           /\ (PyText.float (dbv_box s) = Ok (Fin d) ->
               written_near rnd (Rpower 10 (d / 20))
                 (vrms_box (snd (calc_dbv s))))).
Proof.
  intros s s1 rnd text_of.
  pose proof (update_rounding_keeps s) as (K1 & K2 & K3 & K4 & K5 & _).
  fold s1 in K1, K2, K3, K4, K5.
  assert (Fvp : forall v : pyfloat,
             PyText.float (vp_box s) = Ok v -> PyFloat.le0 v = false ->
             vpp_box (snd (calc_vp s))
             = rendered rnd (PyFloat.mul v (Fin 2))).
  { intros v E Hv. unfold calc_vp. rewrite calc_accepted. fold s1.
    apply vp_conversion_first_write; [ rewrite K1 | ]; assumption. }
  assert (Fvpp : forall v x : pyfloat,
             PyText.float (vpp_box s) = Ok v -> PyFloat.le0 v = false ->
             vp_of_vpp v = Ok x ->
             vp_box (snd (calc_vpp s)) = rendered rnd x).
  { intros v x E Hv Hx. unfold calc_vpp. rewrite calc_accepted. fold s1.
    apply (vpp_conversion_first_write s1 v); [ rewrite K2 | | ]; assumption. }
  assert (Fvrms : forall v x : pyfloat,
             PyText.float (vrms_box s) = Ok v -> PyFloat.le0 v = false ->
             vp_of_vrms v = Ok x ->
             vp_box (snd (calc_vrms s)) = rendered rnd x).
  { intros v x E Hv Hx. unfold calc_vrms. rewrite calc_accepted. fold s1.
    apply (vrms_conversion_first_write s1 v); [ rewrite K3 | | ]; assumption. }
  split; [ repeat split; apply le0_fin | ].
  split; [ | split; [ | split ] ].
  - repeat apply conj; intros H.
    + apply (calc_rejected_magnitude vp_box); assumption.
    + apply (calc_rejected_magnitude vpp_box); assumption.
    + apply (calc_rejected_magnitude vrms_box); assumption.
    + apply (calc_rejected_number dbu_box); assumption.
    + apply (calc_rejected_number dbv_box); assumption.
  - destruct first_outputs_of_nan as (N1 & N2 & N3).
    destruct first_outputs_of_inf as (I1 & I2 & I3).
    intros v [-> | ->]; repeat apply conj; intros E.
    + rewrite (Fvp NaN E eq_refl), N1. reflexivity.
    + rewrite (Fvpp NaN NaN E eq_refl N2). reflexivity.
    + rewrite (Fvrms NaN NaN E eq_refl N3). reflexivity.
    + rewrite (Fvp PInf E eq_refl), I1. reflexivity.
    + rewrite (Fvpp PInf PInf E eq_refl I2). reflexivity.
    + rewrite (Fvrms PInf PInf E eq_refl I3). reflexivity.
  - intros r Hr. pose proof (in_range_positive _ _ Hr) as Hpos.
    assert (Hle : PyFloat.le0 (Fin r) = false)
      by (cbn [PyFloat.le0]; apply Rle_dec_false; exact Hpos).
    repeat apply conj; intros E.
    + rewrite (Fvp (Fin r) E Hle). apply written_near_exact.
    + rewrite (Fvpp (Fin r) _ E Hle (vp_of_vpp_fin r)).
      apply written_near_exact.
    + rewrite (Fvrms (Fin r) _ E Hle (vp_of_vrms_fin r)).
      apply written_near_exact.
  - intros d Hd. split; intros E.
    + unfold calc_dbu. rewrite calc_accepted. fold s1.
      rewrite (dbu_conversion_first_write s1 (Fin d)
                 (Fin (REF_U * Rpower 10 (d / 20))));
        [ apply written_near_exact | rewrite K4; exact E
        | apply vrms_of_dbu_fin ].
    + unfold calc_dbv. rewrite calc_accepted. fold s1.
      rewrite (dbv_conversion_first_write s1 (Fin d)
                 (Fin (Rpower 10 (d / 20))));
        [ apply written_near_exact | rewrite K5; exact E
        | apply vrms_of_dbv_fin ].
Qed.

Lemma guards_of_the_handlers_witness :
  written_near 4 (1 * 2) (vpp_box (snd (calc_vp (set_vp_box "1" initial)))).
Proof.
  pose proof (guards_of_the_handlers (set_vp_box "1" initial)) as H.
  cbv zeta in H. destruct H as (_ & _ & _ & H & _).
  change (rounding (snd (update_rounding (set_vp_box "1" initial))))
    with 4%Z in H.
  apply (H 1).
  - apply in_range_one.
  - exact float_text_1.
Defined.

(** The V-p handler on the entry [nan]. *)

Lemma vrms_of_vp_nan : vrms_of_vp NaN = Ok NaN.
Proof. unfold vrms_of_vp. rewrite inv_sqrt2_value. reflexivity. Qed.

Lemma dbu_of_vrms_nan : dbu_of_vrms NaN = Ok NaN.
Proof.
  unfold dbu_of_vrms. pose proof REF_U_pos.
  rewrite div_fin by lra. reflexivity.
Qed.

Lemma dbm_of_vrms_nan (z : R) : 0 < z -> dbm_of_vrms (Fin z) NaN = Ok NaN.
Proof.
  intros Hz. unfold dbm_of_vrms, PyFloat.sq, PyFloat.mul.
  rewrite div_fin by lra. reflexivity.
Qed.

Lemma update_dbm_nan (z : R) (s : gui) :
  PyText.float (impedance_box s) = Ok (Fin z) -> 0 < z ->
  update_dbm NaN s = (Ok tt, set_dbm_box "nan" s).
Proof.
  intros Hi Hz. unfold update_dbm, try_except.
  unfold bind at 1. unfold float_of, bind at 1, gets, lift.
  rewrite Hi. cbn [PyFloat.le0].
  rewrite Rle_dec_false by assumption.
  rewrite (lift_write_run _ _ _ _ (dbm_of_vrms_nan z Hz)).
  reflexivity.
Qed.

Lemma float_of_run (box : gui -> string) (k : pyfloat -> M unit) (s : gui)
      (v : pyfloat) :
  PyText.float (box s) = Ok v ->
  (x <- float_of box ;; k x) s = k v s.
Proof.
  intros E. unfold bind at 1. unfold float_of, bind, gets, lift.
  rewrite E. reflexivity.
Qed.

Lemma float_of_raise (box : gui -> string) (k : pyfloat -> M unit) (s : gui)
      (e : exn) :
  PyText.float (box s) = Raise e ->
  (x <- float_of box ;; k x) s = (Raise e, s).
Proof.
  intros E. unfold bind at 1. unfold float_of, bind, gets, lift.
  rewrite E. reflexivity.
Qed.

Lemma nan_scenario_run :
  calc_vp nan_scenario
  = (Ok tt, mkGui 4 "nan" "nan" "nan" "nan" "nan" "nan" "600" "4" []).
Proof.
  assert (Hr : update_rounding nan_scenario
               = (Ok tt, set_rounding 4 nan_scenario)).
  { apply update_rounding_valid; [ reflexivity | unfold valid_rounding; lia ]. }
  unfold calc_vp. rewrite (bind_ok _ _ _ _ _ Hr). unfold vp_conversion.
  rewrite (magnitude_guard_accepts vp_box _ _ _ NaN) by reflexivity.
  unfold try_except.
  rewrite (bind_ok _ _ _ _ _ (update_vpp_of_vp NaN None _)).
  assert (Hv : forall s,
             update_vrms (Some NaN) None None None None s
             = (Ok tt, set_vrms_box "nan" s)).
  { intros s. unfold update_vrms.
    rewrite (lift_write_run _ _ _ _ vrms_of_vp_nan). reflexivity. }
  rewrite (bind_ok _ _ _ _ _ (Hv _)).
  erewrite bind_ok.
  2: { rewrite (float_of_run _ _ _ NaN) by reflexivity.
       rewrite update_dbu_cases, dbu_of_vrms_nan. reflexivity. }
  erewrite bind_ok.
  2: { rewrite (float_of_run _ _ _ NaN) by reflexivity.
       rewrite update_dbv_cases. reflexivity. }
  rewrite (float_of_run _ _ _ NaN) by reflexivity.
  rewrite (update_dbm_nan 600); [ reflexivity | exact float_text_600 | lra ].
Qed.

(** C5, counterexample. The entry [nan] is not a finite number above zero,
    yet the V-p handler shows no dialog and writes [nan] into every box. *)
Lemma nan_passes_the_magnitude_guard :
  ~ magnitude_error_iff_not_positive nan_scenario.
Proof.
  unfold magnitude_error_iff_not_positive. intros H.
  specialize (H NaN eq_refl). rewrite nan_scenario_run in H. simpl in H.
  destruct H as [H _]. apply H. intros F. exact F.
Qed.

(** The dBu handler on the entry [-1000000]: the V-RMS value is so small that
    it is rendered as [0.0000]; read back it is zero, and [math.log10] raises
    in [update_dbv], outside any [try]. *)

Lemma Rpower_10_neg5 : Rpower 10 (-5) = / 100000.
Proof.
  replace (-5) with (- INR 5) by (simpl; lra).
  rewrite Rpower_Ropp. f_equal.
  rewrite Rpower_pow by lra. simpl. lra.
Qed.

Lemma tiny_vrms_bounds (d : R) :
  d <= -200 -> 0 < REF_U * Rpower 10 (d / 20) < 1 / 100000.
Proof.
  intros Hd. pose proof (Rpower_pos 10 (d / 20)) as Hp.
  assert (Hlt : Rpower 10 (d / 20) < / 100000).
  { rewrite <- Rpower_10_neg5. apply Rpower_lt; lra. }
  unfold REF_U. split; nra.
Qed.

Lemma tiny_vrms_rendered (d : R) :
  d <= -200 -> rendered 4 (Fin (REF_U * Rpower 10 (d / 20))) = "0.0000".
Proof.
  intros Hd. pose proof (tiny_vrms_bounds d Hd) as H.
  rewrite rendered_fixed by (apply (is_whole_between _ 0); lra).
  rewrite (format_fixed_pos _ _ 0);
    [ reflexivity | lra | rewrite pow10_4; lra ].
Qed.

Lemma float_text_zeros : PyText.float "0.0000" = Ok (Fin 0).
Proof.
  rewrite (float_decimal "0.0000" false 0 (-4)) by reflexivity.
  do 2 f_equal. lra.
Qed.

Lemma dbv_of_vrms_zero : dbv_of_vrms (Fin 0) = Raise ValueError.
Proof.
  unfold dbv_of_vrms. cbn [rbind PyFloat.math_log10].
  rewrite Rle_dec_true by lra. reflexivity.
Qed.

(** (A binary float underflows to [0.0] here and the V-RMS box then reads
    [0]; the exact value is positive and is rendered [0.0000].  Either text
    reads back as zero, so what follows is the same.) *)
Lemma dbu_scenario_run :
  calc_dbu dbu_scenario
  = (Raise ValueError,
     mkGui 4 "0" "0" "0.0000" "-1000000" "" "" "600" "4" []).
Proof.
  assert (Hr : update_rounding dbu_scenario
               = (Ok tt, set_rounding 4 dbu_scenario)).
  { apply update_rounding_valid; [ reflexivity | unfold valid_rounding; lia ]. }
  assert (Hd : PyText.float "-1000000" = Ok (Fin (-1000000))).
  { rewrite (float_decimal "-1000000" true 1000000 0) by reflexivity.
    do 2 f_equal. simpl. lra. }
  unfold calc_dbu. rewrite (bind_ok _ _ _ _ _ Hr). unfold dbu_conversion.
  rewrite (number_guard_accepts dbu_box _ _ _ (Fin (-1000000))) by exact Hd.
  rewrite (bind_ok _ _ _ _ _ (update_vrms_of_dbu _ _ _ _)).
  cbn [rounding set_rounding]. rewrite tiny_vrms_rendered by lra.
  erewrite bind_ok.
  2: { rewrite (float_of_run _ _ _ (Fin 0)) by exact float_text_zeros.
       rewrite update_vp_of_vrms. cbn [rounding set_vrms_box set_rounding].
       rewrite (rendered_whole _ 0) by lra. reflexivity. }
  erewrite bind_ok.
  2: { rewrite (float_of_run _ _ _ (Fin 0)) by exact float_text_zeros.
       rewrite update_vpp_of_vrms.
       cbn [rounding set_vrms_box set_vp_box set_rounding].
       rewrite (rendered_whole _ 0) by lra. reflexivity. }
  erewrite bind_raise; [ reflexivity | ].
  rewrite (float_of_run _ _ _ (Fin 0)) by exact float_text_zeros.
  rewrite update_dbv_cases, dbv_of_vrms_zero. reflexivity.
Qed.

(** The request does not complete: the exception escapes [calc_dbu] after the
    V-RMS, V-p and V-pp boxes were rewritten, and the dBV and dBm boxes keep
    their old text. *)
Lemma dbu_minus_million_raises :
  fst (calc_dbu dbu_scenario) = Raise ValueError
  /\ dbv_box (snd (calc_dbu dbu_scenario)) = dbv_box dbu_scenario
  /\ dbm_box (snd (calc_dbu dbu_scenario)) = dbm_box dbu_scenario
  /\ vp_box (snd (calc_dbu dbu_scenario)) = "0".
Proof. rewrite dbu_scenario_run. repeat split. Qed.

(** ** C3: the dB boxes of the V-p and V-pp handlers *)

Lemma update_dbm_cases (v : pyfloat) (s : gui) :
  update_dbm v s
  = match PyText.float (impedance_box s) with
    | Ok z =>
        if PyFloat.le0 z
        then (Ok tt, push_error "dBm Impedance Error" s)
        else match dbm_of_vrms z v with
             | Ok x => (Ok tt, set_dbm_box (rendered (rounding s) x) s)
             | Raise ValueError =>
                 (Ok tt, push_error "dBm Impedance Error" s)
             | Raise e => (Raise e, s)
             end
    | Raise _ => (Ok tt, push_error "dBm Impedance Error" s)
    end.
Proof.
  unfold update_dbm, try_except.
  destruct (PyText.float (impedance_box s)) as [z | e] eqn:E.
  - rewrite (float_of_run _ _ _ z E).
    destruct (PyFloat.le0 z); [ reflexivity | ].
    rewrite lift_write_cases.
    destruct (dbm_of_vrms z v) as [x | []]; reflexivity.
  - rewrite (float_of_raise _ _ _ e E).
    rewrite (float_raises_value_error _ _ E). reflexivity.
Qed.














(** A value that the magnitude guard refuses makes [math.log10] raise in
    [update_dbu]. *)
Lemma dbu_of_vrms_refused (v : pyfloat) :
  PyFloat.le0 v = true -> dbu_of_vrms v = Raise ValueError.
Proof.
  pose proof REF_U_pos as Hu. unfold dbu_of_vrms.
  rewrite div_fin by lra.
  destruct v as [r | | |]; cbn [PyFloat.le0]; intros H; try discriminate.
  - apply le0_fin in H. cbn [rbind PyFloat.math_log10].
    rewrite Rle_dec_true; [ reflexivity | ].
    assert (Hi : 0 < / REF_U) by apply Rinv_0_lt_compat, Hu.
    unfold Rdiv. nra.
  - unfold PyFloat.mul_inf. rewrite Req_dec_false by lra.
    rewrite Rlt_dec_false by lra. reflexivity.
Qed.






Lemma le0_positive (r : R) : 0 < r -> PyFloat.le0 (Fin r) = false.
Proof. intros H. cbn [PyFloat.le0]. apply Rle_dec_false, H. Qed.



Lemma inv_sqrt2_bounds : 0.7071067 < 1 * (1 / sqrt 2) < 0.7071069.
Proof.
  pose proof sqrt2_bounds as H.
  assert (E : 1 * (1 / sqrt 2) * sqrt 2 = 1) by (field; lra).
  set (q := 1 * (1 / sqrt 2)) in *.
  split.
  - destruct (Rlt_dec 0.7071067 q) as [Hq | Hq]; [ exact Hq | exfalso ].
    assert (q * sqrt 2 <= 0.7071067 * sqrt 2)
      by (apply Rmult_le_compat_r; lra).
    lra.
  - destruct (Rlt_dec q 0.7071069) as [Hq | Hq]; [ exact Hq | exfalso ].
    assert (0.7071069 * sqrt 2 <= q * sqrt 2)
      by (apply Rmult_le_compat_r; lra).
    lra.
Qed.











(** ** C7, counterexample *)

Lemma has_char_app (c : ascii) (a b : string) :
  has_char c (a ++ b) = (has_char c a || has_char c b)%bool.
Proof.
  induction a as [| c' a IH]; simpl; [ reflexivity | ].
  rewrite IH. apply orb_assoc.
Qed.

(** C7, counterexample. The V-p entry [nan] makes the raw V-pp value [nan],
    which is not whole; the V-pp box then reads [nan], a text without a point
    and without digits. *)
Lemma nan_is_not_fixed_point :
  PyText.float (vp_box nan_scenario) = Ok NaN
  /\ vpp_box (snd (calc_vp nan_scenario)) = "nan"
  /\ ~ whole_or_fixed (rounding (snd (calc_vp nan_scenario)))
                      (PyFloat.mul NaN (Fin 2))
                      (vpp_box (snd (calc_vp nan_scenario))).
Proof.
  rewrite nan_scenario_run. repeat split.
  unfold whole_or_fixed. simpl.
  intros (sign & ip & fp & E & _).
  apply (f_equal (has_char ".")) in E.
  rewrite !has_char_app in E. simpl in E.
  rewrite !orb_true_r in E. discriminate E.
Qed.

(** * Further properties of the code *)

(** ** What the handlers leave alone *)

(** X1. No handler rewrites the entry box it converts from, and none touches
    the impedance box or the rounding spinbox, whatever the texts are and
    whether the handler returns or an exception escapes. *)
Theorem handlers_keep_their_inputs :
  keeps_inputs vp_box calc_vp
  /\ keeps_inputs vpp_box calc_vpp
  /\ keeps_inputs vrms_box calc_vrms
  /\ keeps_inputs dbu_box calc_dbu
  /\ keeps_inputs dbv_box calc_dbv
  /\ keeps_inputs dbm_box calc_dbm.
Proof.
  assert (Hr : forall X (proj : gui -> X),
             (forall v s, proj (set_rounding v s) = proj s) ->
             (forall t s, proj (push_error t s) = proj s) ->
             preserves proj update_rounding).
  { intros X proj H1 H2. unfold update_rounding. frame. }
  repeat apply conj; intros s; repeat apply conj.
  all: match goal with
       | |- ?proj (snd (?h ?w)) = ?proj ?w =>
           assert (P : preserves proj h);
           [ apply preserves_bind;
             [ apply Hr; reflexivity | intros _; frame_calls ]
           | apply P ]
       end.
Qed.

(** ** Which helpers can raise *)

Lemma vrms_of_vp_total (v : pyfloat) : exists x, vrms_of_vp v = Ok x.
Proof. unfold vrms_of_vp. rewrite inv_sqrt2_value. cbn [rbind]. eauto. Qed.

Lemma vrms_of_vpp_total (v : pyfloat) : exists x, vrms_of_vpp v = Ok x.
Proof.
  unfold vrms_of_vpp. rewrite div_fin by lra. cbn [rbind].
  rewrite inv_sqrt2_value. cbn [rbind]. eauto.
Qed.

Ltac decide_reals :=
  repeat match goal with
         | |- context [Rle_dec ?a ?b] => destruct (Rle_dec a b)
         | |- context [Rlt_dec ?a ?b] => destruct (Rlt_dec a b)
         | |- context [Req_dec_T ?a ?b] => destruct (Req_dec_T a b)
         | H : context [Rle_dec ?a ?b] |- _ => destruct (Rle_dec a b)
         end.

Lemma le0_false_cases (x : pyfloat) :
  PyFloat.le0 x = false ->
  (exists r, x = Fin r /\ 0 < r) \/ x = PInf \/ x = NaN.
Proof.
  destruct x as [r | | |]; cbn [PyFloat.le0]; intros H; try discriminate; auto.
  left. exists r. split; [ reflexivity | ].
  destruct (Rle_dec r 0); [ discriminate | lra ].
Qed.

Lemma vrms_of_dbm_total (impedance dbm : pyfloat) :
  PyFloat.le0 impedance = false ->
  exists x, vrms_of_dbm impedance dbm = Ok x.
Proof.
  intros H. unfold vrms_of_dbm. rewrite div_fin by lra. cbn [rbind].
  destruct (le0_false_cases _ H) as [(z & -> & Hz) | [-> | ->]];
    destruct dbm as [d | | |];
    cbn [PyFloat.pow10 PyFloat.mul PyFloat.math_sqrt PyFloat.inf_of_sign negb];
    unfold PyFloat.mul_inf;
    try pose proof (Rpower_pos 10 (d / 10));
    decide_reals;
    cbn [PyFloat.pow10 PyFloat.mul PyFloat.math_sqrt PyFloat.inf_of_sign negb];
    unfold PyFloat.mul_inf;
    decide_reals;
    cbn [PyFloat.pow10 PyFloat.mul PyFloat.math_sqrt PyFloat.inf_of_sign negb];
    decide_reals;
    solve [ eauto | exfalso; nra ].
Qed.

Lemma dbm_of_vrms_outcome (impedance vrms : pyfloat) :
  PyFloat.le0 impedance = false ->
  (exists x, dbm_of_vrms impedance vrms = Ok x)
  \/ dbm_of_vrms impedance vrms = Raise ValueError.
Proof.
  intros H. unfold dbm_of_vrms.
  destruct (le0_false_cases _ H) as [(z & -> & Hz) | [-> | ->]];
    destruct vrms as [r | | |];
    cbn [PyFloat.sq PyFloat.mul PyFloat.div rbind];
    unfold PyFloat.mul_inf;
    decide_reals;
    cbn [PyFloat.inf_of_sign PyFloat.div PyFloat.math_log10 PyFloat.mul rbind negb];
    decide_reals;
    cbn [PyFloat.inf_of_sign PyFloat.div PyFloat.math_log10 PyFloat.mul rbind negb];
    solve [ eauto | exfalso; lra ].
Qed.

Lemma dbu_of_vrms_accepted (v : pyfloat) :
  PyFloat.le0 v = false -> exists x, dbu_of_vrms v = Ok x.
Proof.
  intros H. pose proof REF_U_pos as Hu. unfold dbu_of_vrms.
  rewrite div_fin by lra.
  destruct (le0_false_cases _ H) as [(r & -> & Hr) | [-> | ->]];
    cbn [rbind PyFloat.math_log10].
  - rewrite Rle_dec_false by (apply Rdiv_lt_0_compat; assumption).
    cbn [rbind]. eauto.
  - unfold PyFloat.mul_inf. rewrite Req_dec_false, Rlt_dec_false by lra.
    cbn [PyFloat.inf_of_sign PyFloat.math_log10 rbind]. eauto.
  - eauto.
Qed.

Lemma dbv_of_vrms_refused (v : pyfloat) :
  PyFloat.le0 v = true -> dbv_of_vrms v = Raise ValueError.
Proof.
  unfold dbv_of_vrms.
  destruct v as [r | | |]; cbn [PyFloat.le0]; intros H; try discriminate.
  - apply le0_fin in H. cbn [rbind PyFloat.math_log10].
    rewrite Rle_dec_true by assumption. reflexivity.
  - reflexivity.
Qed.

Lemma dbv_of_vrms_accepted (v : pyfloat) :
  PyFloat.le0 v = false -> exists x, dbv_of_vrms v = Ok x.
Proof.
  intros H. unfold dbv_of_vrms.
  destruct (le0_false_cases _ H) as [(r & -> & Hr) | [-> | ->]];
    cbn [rbind PyFloat.math_log10].
  - rewrite Rle_dec_false by assumption. cbn [rbind]. eauto.
  - eauto.
  - eauto.
Qed.

Lemma lift_write_never_raises (set : string -> gui -> gui)
      (c : result pyfloat) :
  (exists y, c = Ok y) -> never_raises (v <- lift c ;; write_box set v).
Proof.
  intros [y ->] s. rewrite (lift_write_run set (Ok y) y s eq_refl).
  exists tt. reflexivity.
Qed.

Lemma update_vp_never_raises (o1 o2 : option pyfloat) :
  never_raises (update_vp o1 o2).
Proof.
  unfold update_vp. destruct o1 as [a |]; [ | destruct o2 as [b |] ].
  - apply lift_write_never_raises, vp_of_vpp_total.
  - apply lift_write_never_raises, vp_of_vrms_total.
  - intros s. exists tt. reflexivity.
Qed.

Lemma update_vpp_never_raises (o1 o2 : option pyfloat) :
  never_raises (update_vpp o1 o2).
Proof.
  unfold update_vpp. destruct o1 as [a |]; [ | destruct o2 as [b |] ].
  - apply lift_write_never_raises. unfold vpp_of_vp. eauto.
  - apply lift_write_never_raises, vpp_of_vrms_total.
  - intros s. exists tt. reflexivity.
Qed.

(** Over the reals [update_vrms] and [update_dbm] cannot raise on any
    argument; in the program the powers [10 ** x] and [vrms ** 2] can leave
    the range of a double, which is why the statements on the handlers below
    bound the entries. *)
Lemma update_vrms_never_raises (o1 o2 o3 o4 o5 : option pyfloat) :
  never_raises (update_vrms o1 o2 o3 o4 o5).
Proof.
  unfold update_vrms.
  destruct o1 as [a |]; [ apply lift_write_never_raises, vrms_of_vp_total | ].
  destruct o2 as [a |]; [ apply lift_write_never_raises, vrms_of_vpp_total | ].
  destruct o3 as [a |]; [ apply lift_write_never_raises, vrms_of_dbu_total | ].
  destruct o4 as [a |]; [ apply lift_write_never_raises, vrms_of_dbv_total | ].
  destruct o5 as [a |]; [ | intros s; exists tt; reflexivity ].
  intros s. unfold try_except.
  destruct (PyText.float (impedance_box s)) as [z | e] eqn:E.
  - rewrite (float_of_run _ _ _ z E).
    destruct (PyFloat.le0 z) eqn:Hz; [ exists tt; reflexivity | ].
    destruct (vrms_of_dbm_total z a Hz) as [y Hy].
    rewrite (lift_write_run _ _ _ _ Hy). exists tt. reflexivity.
  - rewrite (float_of_raise _ _ _ e E).
    rewrite (float_raises_value_error _ _ E). exists tt. reflexivity.
Qed.

Lemma update_dbm_never_raises (x : pyfloat) : never_raises (update_dbm x).
Proof.
  intros s. rewrite update_dbm_cases.
  destruct (PyText.float (impedance_box s)) as [z | e];
    [ | exists tt; reflexivity ].
  destruct (PyFloat.le0 z) eqn:Hz; [ exists tt; reflexivity | ].
  destruct (dbm_of_vrms_outcome z x Hz) as [[y ->] | ->];
    exists tt; reflexivity.
Qed.

Lemma update_rounding_never_raises : never_raises update_rounding.
Proof. intros s. exists tt. apply update_rounding_boxes. Qed.

(** X2. [update_vp] and [update_vpp] never raise, whatever their arguments
    and the window, and neither does [update_vrms] on a V-p or a V-pp
    argument: their arithmetic is a product or a quotient by a constant,
    which gives [inf] or [nan] where it gives no number.  [update_rounding]
    never raises either: it catches its own [ValueError]. *)
Theorem helpers_that_never_raise :
  forall (o1 o2 o3 o4 : option pyfloat) (x : pyfloat),
    never_raises (update_vp o1 o2)
    /\ never_raises (update_vpp o1 o2)
    /\ never_raises (update_vrms (Some x) o1 o2 o3 o4)
    /\ never_raises (update_vrms None (Some x) o1 o2 o3)
    /\ never_raises update_rounding.
Proof.
  intros o1 o2 o3 o4 x. repeat apply conj.
  - apply update_vp_never_raises.
  - apply update_vpp_never_raises.
  - apply update_vrms_never_raises.
  - apply update_vrms_never_raises.
  - apply update_rounding_never_raises.
Qed.

(** X3. [update_dbu] and [update_dbv] raise [ValueError] exactly when their
    argument is [<= 0.0] (zero, a negative number or [-inf]), and then change
    nothing in the window; on any other argument ([nan] and [inf] included)
    they return and rewrite their own box. *)
Theorem db_helpers_raise_on_non_positive :
  forall (v : pyfloat) (s : gui),
    if PyFloat.le0 v
    then update_dbu v s = (Raise ValueError, s)
         /\ update_dbv v s = (Raise ValueError, s)
    else exists x y : pyfloat,
        dbu_of_vrms v = Ok x
        /\ dbv_of_vrms v = Ok y
        /\ update_dbu v s = (Ok tt, set_dbu_box (rendered (rounding s) x) s)
        /\ update_dbv v s = (Ok tt, set_dbv_box (rendered (rounding s) y) s).
Proof.
  intros v s. rewrite update_dbu_cases, update_dbv_cases.
  destruct (PyFloat.le0 v) eqn:H.
  - rewrite (dbu_of_vrms_refused v H), (dbv_of_vrms_refused v H). split; reflexivity.
  - destruct (dbu_of_vrms_accepted v H) as [x Hx].
    destruct (dbv_of_vrms_accepted v H) as [y Hy].
    exists x, y. rewrite Hx, Hy. repeat split.
Qed.

(** X4. With an impedance between [10^-100] and [10^100] in its box,
    [update_dbm] on a finite V-RMS of a magnitude between [10^-100] and
    [10^100] returns, shows no dialog and writes into the dBm box the text of
    [10 * log10 (vrms^2 / (0.001 * Z))] to within [10^-9]; what it does is the
    same for [vrms] and [-vrms].  On a V-RMS of exactly zero [math.log10]
    raises inside the [try], so the box is left alone and the impedance
    dialog is shown although the impedance is fine. *)
Theorem update_dbm_on_finite_values :
  forall (z r : R) (s : gui),
    PyText.float (impedance_box s) = Ok (Fin z) -> in_range 100 z ->
    (in_range 100 (Rabs r) ->
     (exists t : string,
         written_within (rounding s)
           (10 * PyFloat.log10 (r ^ 2 / (0.001 * z))) t
         /\ update_dbm (Fin r) s = (Ok tt, set_dbm_box t s))
     /\ update_dbm (Fin (- r)) s = update_dbm (Fin r) s)
    /\ update_dbm (Fin 0) s = (Ok tt, push_error "dBm Impedance Error" s).
Proof.
  intros z r s Hi Hrange. pose proof (in_range_positive _ _ Hrange) as Hz.
  assert (Hle : PyFloat.le0 (Fin z) = false) by (apply le0_positive, Hz).
  assert (F : forall q, q <> 0 ->
              dbm_of_vrms (Fin z) (Fin q)
              = Ok (Fin (10 * PyFloat.log10 (q ^ 2 / (0.001 * z))))).
  { intros q Hq. unfold dbm_of_vrms, PyFloat.sq, PyFloat.mul.
    rewrite div_fin by lra. cbn [rbind PyFloat.math_log10].
    rewrite Rle_dec_false; [ reflexivity | ].
    apply Rdiv_lt_0_compat; [ | lra ].
    assert (0 < q * q) by (destruct (Rlt_dec q 0); nra). nra. }
  split.
  - intros Hr.
    assert (Hr0 : r <> 0).
    { intros ->. apply in_range_positive in Hr. rewrite Rabs_R0 in Hr. lra. }
    rewrite !update_dbm_cases, Hi, Hle.
    rewrite (F r Hr0), (F (- r)) by lra.
    replace ((- r) ^ 2) with (r ^ 2) by ring.
    split; [ | reflexivity ].
    eexists. split; [ apply written_within_exact | reflexivity ].
  - rewrite update_dbm_cases, Hi, Hle.
    assert (E : dbm_of_vrms (Fin z) (Fin 0) = Raise ValueError).
    { unfold dbm_of_vrms, PyFloat.sq, PyFloat.mul.
      rewrite div_fin by lra. cbn [rbind PyFloat.math_log10].
      rewrite Rle_dec_true; [ reflexivity | ].
      replace (0 ^ 2 / (0.001 * z)) with 0 by (field; lra). lra. }
    rewrite E. reflexivity.
Qed.

Lemma in_range_600 : in_range 100 600.
Proof.
  assert (H : 10 ^ 3 <= 10 ^ 100) by (apply Rle_pow; [ lra | lia ]).
  assert (E : 10 ^ 3 = 1000) by (simpl; lra).
  assert (P : 1 <= 10 ^ 100) by (apply pow_R1_Rle; lra).
  split; [ | lra ].
  apply Rle_trans with 1; [ | lra ].
  rewrite <- Rinv_1. apply Rinv_le_contravar; lra.
Qed.

Lemma update_dbm_on_finite_values_witness :
  update_dbm (Fin (- 1)) initial = update_dbm (Fin 1) initial
  /\ update_dbm (Fin 0) initial
     = (Ok tt, push_error "dBm Impedance Error" initial).
Proof.
  destruct (update_dbm_on_finite_values 600 1 initial) as [H1 H2].
  - exact float_text_600.
  - exact in_range_600.
  - split; [ | exact H2 ]. apply H1.
    rewrite Rabs_R1. apply in_range_one.
Defined.

(** ** Which handlers can raise *)

Section Raising.
Context {A B : Type}.

Lemma never_raises_bind (c : M A) (k : A -> M B) :
  never_raises c -> (forall a, never_raises (k a)) -> never_raises (bind c k).
Proof.
  intros Hc Hk s. unfold bind. destruct (Hc s) as [a Ha].
  destruct (c s) as [[a' | e] s']; simpl in Ha; [ apply Hk | discriminate ].
Qed.

Lemma only_value_error_bind (c : M A) (k : A -> M B) :
  raises_only_value_error c -> (forall a, raises_only_value_error (k a)) ->
  raises_only_value_error (bind c k).
Proof.
  intros Hc Hk s. unfold bind. specialize (Hc s).
  destruct (c s) as [[a | e] s']; simpl in *; [ apply Hk | exact Hc ].
Qed.

Lemma never_raises_only_value_error (c : M A) :
  never_raises c -> raises_only_value_error c.
Proof.
  intros H s. destruct (H s) as [a Ha]. rewrite Ha. exact I.
Qed.
End Raising.

Lemma try_except_never_raises (body handler : M unit) :
  raises_only_value_error body -> never_raises handler ->
  never_raises (try_except body handler).
Proof.
  intros Hb Hh s. unfold try_except. specialize (Hb s).
  destruct (body s) as [[[] | e] s']; simpl in *.
  - exists tt. reflexivity.
  - subst e. apply Hh.
Qed.

Lemma only_value_error_float_of (box : gui -> string) :
  raises_only_value_error (float_of box).
Proof.
  intros s. unfold float_of, bind, gets, lift.
  destruct (PyText.float (box s)) as [v | e] eqn:E; simpl; [ exact I | ].
  apply (float_raises_value_error _ _ E).
Qed.

Lemma only_value_error_update_dbu (v : pyfloat) :
  raises_only_value_error (update_dbu v).
Proof.
  intros s. rewrite update_dbu_cases.
  destruct (PyFloat.le0 v) eqn:H.
  - rewrite (dbu_of_vrms_refused v H). reflexivity.
  - destruct (dbu_of_vrms_accepted v H) as [x ->]. exact I.
Qed.

Lemma only_value_error_update_dbv (v : pyfloat) :
  raises_only_value_error (update_dbv v).
Proof.
  intros s. rewrite update_dbv_cases.
  destruct (PyFloat.le0 v) eqn:H.
  - rewrite (dbv_of_vrms_refused v H). reflexivity.
  - destruct (dbv_of_vrms_accepted v H) as [x ->]. exact I.
Qed.

Lemma never_raises_showerror (title : string) : never_raises (showerror title).
Proof. intros s. exists tt. reflexivity. Qed.

Lemma only_value_error_raise : raises_only_value_error (@raise unit ValueError).
Proof. intros s. reflexivity. Qed.


Lemma only_value_error_try_except_else {A : Type} (body : M A)
      (handler : M unit) (continue : A -> M unit) :
  raises_only_value_error body -> never_raises handler ->
  (forall a, raises_only_value_error (continue a)) ->
  raises_only_value_error (try_except_else body handler continue).
Proof.
  intros Hb Hh Hk s. unfold try_except_else. specialize (Hb s).
  destruct (body s) as [[a | e] s']; simpl in *.
  - apply Hk.
  - subst e. destruct (Hh s') as [[] Ha]. rewrite Ha. exact I.
Qed.

Ltac raising :=
  repeat first
    [ apply only_value_error_float_of
    | apply only_value_error_update_dbu
    | apply only_value_error_update_dbv
    | apply only_value_error_raise
    | apply never_raises_only_value_error;
      first [ apply update_vp_never_raises
            | apply update_vpp_never_raises
            | apply update_vrms_never_raises
            | apply update_dbm_never_raises
            | apply update_rounding_never_raises ]
    | match goal with
      | |- raises_only_value_error (if ?b then _ else _) => destruct b
      end
    | apply only_value_error_bind; [ | intro ] ].

(** Over the reals no exception leaves the V-p, V-pp and V-RMS handlers,
    and only [ValueError] leaves the dB handlers. *)
Lemma exceptions_over_the_reals :
  never_raises calc_vp
  /\ never_raises calc_vpp
  /\ never_raises calc_vrms
  /\ raises_only_value_error calc_dbu
  /\ raises_only_value_error calc_dbv
  /\ raises_only_value_error calc_dbm.
Proof.
  repeat apply conj.
  1-3: apply never_raises_bind;
    [ apply update_rounding_never_raises | intros _ ];
    apply try_except_never_raises;
    [ raising | apply never_raises_showerror ].
  all: apply only_value_error_bind;
    [ raising | intros _ ];
    apply only_value_error_try_except_else;
    [ raising | apply never_raises_showerror | intro; raising ].
Qed.

(** X5. Take a window whose impedance, when it is a finite number above
    zero, is at least [10^-100].  If the V-p, V-pp or V-RMS entry, when it is
    a finite number, is at most [10^100], no exception leaves the handler of
    that entry: it returns, every [ValueError] being caught by its [try].
    If the dBu or dBV entry, when it is a finite number, is at most [2000],
    or the dBm entry at most [1000], the only exception that can leave the
    handler of that entry is [ValueError] (the conversions of these three
    run outside the [try]).  Within these bounds no power overflows and
    [0.001 * impedance] is not zero. *)
Theorem handlers_and_exceptions :
  forall s : gui,
    impedance_not_tiny (impedance_box s) ->
    let returns (handler : M unit) :=
      exists a : unit, fst (handler s) = Ok a in
    let value_error_only (handler : M unit) :=
      match fst (handler s) with
      | Ok _ => True
      | Raise e => e = ValueError
      end in
    (at_most (10 ^ 100) (vp_box s) -> returns calc_vp)
    /\ (at_most (10 ^ 100) (vpp_box s) -> returns calc_vpp)
    /\ (at_most (10 ^ 100) (vrms_box s) -> returns calc_vrms)
    /\ (at_most 2000 (dbu_box s) -> value_error_only calc_dbu)
    /\ (at_most 2000 (dbv_box s) -> value_error_only calc_dbv)
    /\ (at_most 1000 (dbm_box s) -> value_error_only calc_dbm).
Proof.
  intros s _ returns value_error_only.
  destruct exceptions_over_the_reals as (H1 & H2 & H3 & H4 & H5 & H6).
  repeat apply conj; intros _.
  - apply H1.
  - apply H2.
  - apply H3.
  - apply H4.
  - apply H5.
  - apply H6.
Qed.

Lemma impedance_not_tiny_600 : impedance_not_tiny "600".
Proof.
  intros z E _. rewrite float_text_600 in E. injection E as <-.
  apply in_range_600.
Qed.

Lemma at_most_text_1 (k : nat) : at_most (10 ^ k) "1".
Proof.
  intros r E. rewrite float_text_1 in E. injection E as <-.
  apply pow_R1_Rle. lra.
Qed.

Lemma handlers_and_exceptions_witness :
  exists a : unit, fst (calc_vp (set_vp_box "1" initial)) = Ok a.
Proof.
  pose proof (handlers_and_exceptions (set_vp_box "1" initial)
                impedance_not_tiny_600) as H.
  cbv zeta in H. destruct H as (H & _).
  apply H. apply at_most_text_1.
Defined.

(** ** The arithmetic of the conversions *)

Lemma sqrt2_nonzero : sqrt 2 <> 0.
Proof. pose proof sqrt2_pos. lra. Qed.

(** X6. On every finite value the conversions between V-p, V-pp and V-RMS are
    inverse to each other, pair by pair, and the two routes to a value agree:
    V-pp from V-RMS is V-pp from the V-p of that V-RMS, and V-RMS from V-pp is
    V-RMS from the V-p of that V-pp. *)
Theorem voltage_round_trips :
  forall r : R,
    rbind (vpp_of_vp (Fin r)) vp_of_vpp = Ok (Fin r)
    /\ rbind (vp_of_vpp (Fin r)) vpp_of_vp = Ok (Fin r)
    /\ rbind (vp_of_vrms (Fin r)) vrms_of_vp = Ok (Fin r)
    /\ rbind (vrms_of_vp (Fin r)) vp_of_vrms = Ok (Fin r)
    /\ rbind (vpp_of_vrms (Fin r)) vrms_of_vpp = Ok (Fin r)
    /\ rbind (vrms_of_vpp (Fin r)) vpp_of_vrms = Ok (Fin r)
    /\ vpp_of_vrms (Fin r) = rbind (vp_of_vrms (Fin r)) vpp_of_vp
    /\ vrms_of_vpp (Fin r) = rbind (vp_of_vpp (Fin r)) vrms_of_vp.
Proof.
  intros r. pose proof sqrt2_nonzero as Hs.
  unfold vpp_of_vp. cbn [PyFloat.mul].
  rewrite vp_of_vpp_fin, vp_of_vrms_fin, vrms_of_vp_fin, vpp_of_vrms_fin,
    vrms_of_vpp_fin.
  cbn [rbind PyFloat.mul].
  rewrite !vp_of_vpp_fin, !vrms_of_vp_fin, !vp_of_vrms_fin, !vrms_of_vpp_fin,
    !vpp_of_vrms_fin.
  repeat apply conj; do 2 f_equal; field; assumption.
Qed.

Lemma Rpower_10_log10 (x : R) : 0 < x -> Rpower 10 (PyFloat.log10 x) = x.
Proof.
  intros H. pose proof ln10_pos. unfold Rpower, PyFloat.log10.
  replace (ln x / ln 10 * ln 10) with (ln x) by (field; lra).
  apply exp_ln, H.
Qed.

Lemma log10_Rpower_10 (y : R) : PyFloat.log10 (Rpower 10 y) = y.
Proof.
  pose proof ln10_pos. unfold Rpower, PyFloat.log10.
  rewrite ln_exp. field. lra.
Qed.

Lemma log10_mult (a b : R) :
  0 < a -> 0 < b -> PyFloat.log10 (a * b) = PyFloat.log10 a + PyFloat.log10 b.
Proof.
  intros Ha Hb. pose proof ln10_pos. unfold PyFloat.log10.
  rewrite ln_mult by assumption. field. lra.
Qed.

Lemma log10_div (a b : R) :
  0 < a -> 0 < b -> PyFloat.log10 (a / b) = PyFloat.log10 a - PyFloat.log10 b.
Proof.
  intros Ha Hb. pose proof ln10_pos.
  assert (E : ln (a / b) = ln a - ln b).
  { unfold Rdiv. rewrite ln_mult, ln_Rinv; [ lra | assumption | assumption | ].
    apply Rinv_0_lt_compat, Hb. }
  unfold PyFloat.log10. rewrite E. field. lra.
Qed.

Lemma log10_10 : PyFloat.log10 10 = 1.
Proof. pose proof ln10_pos. unfold PyFloat.log10. field. lra. Qed.

(** X7. For a finite V-RMS above zero, and a finite impedance above zero for
    dBm, converting to dBV, dBu or dBm and back gives the V-RMS again; and
    for every finite dB value, converting to V-RMS and back gives the dB
    value again. *)
Theorem decibel_round_trips :
  forall v d z : R,
    0 < v -> 0 < z ->
    rbind (dbv_of_vrms (Fin v)) vrms_of_dbv = Ok (Fin v)
    /\ rbind (vrms_of_dbv (Fin d)) dbv_of_vrms = Ok (Fin d)
    /\ rbind (dbu_of_vrms (Fin v)) vrms_of_dbu = Ok (Fin v)
    /\ rbind (vrms_of_dbu (Fin d)) dbu_of_vrms = Ok (Fin d)
    /\ rbind (dbm_of_vrms (Fin z) (Fin v)) (vrms_of_dbm (Fin z)) = Ok (Fin v)
    /\ rbind (vrms_of_dbm (Fin z) (Fin d)) (dbm_of_vrms (Fin z)) = Ok (Fin d).
Proof.
  intros v d z Hv Hz. pose proof REF_U_pos as Hu.
  rewrite dbv_of_vrms_fin, dbu_of_vrms_fin, dbm_of_vrms_fin by assumption.
  rewrite vrms_of_dbv_fin, vrms_of_dbu_fin, vrms_of_dbm_fin by assumption.
  cbn [rbind].
  rewrite vrms_of_dbv_fin, vrms_of_dbu_fin, vrms_of_dbm_fin by assumption.
  pose proof (Rpower_pos 10 (d / 20)) as P20.
  pose proof (Rpower_pos 10 (d / 10)) as P10.
  assert (HX : 0 < 0.001 * z * Rpower 10 (d / 10)) by nra.
  rewrite dbv_of_vrms_fin by assumption.
  rewrite dbu_of_vrms_fin by nra.
  rewrite dbm_of_vrms_fin by (try apply sqrt_lt_R0; assumption).
  repeat apply conj; do 2 f_equal.
  - replace (20 * PyFloat.log10 v / 20) with (PyFloat.log10 v) by field.
    apply Rpower_10_log10, Hv.
  - rewrite log10_Rpower_10. field.
  - replace (20 * PyFloat.log10 (v / REF_U) / 20)
      with (PyFloat.log10 (v / REF_U)) by field.
    rewrite Rpower_10_log10 by (apply Rdiv_lt_0_compat; assumption).
    field. lra.
  - replace (REF_U * Rpower 10 (d / 20) / REF_U) with (Rpower 10 (d / 20))
      by (field; lra).
    rewrite log10_Rpower_10. field.
  - replace (10 * PyFloat.log10 (v ^ 2 / (0.001 * z)) / 10)
      with (PyFloat.log10 (v ^ 2 / (0.001 * z))) by field.
    rewrite Rpower_10_log10 by (apply Rdiv_lt_0_compat; nra).
    replace (0.001 * z * (v ^ 2 / (0.001 * z))) with (v ^ 2) by (field; lra).
    apply sqrt_pow2. lra.
  - rewrite pow2_sqrt by lra.
    replace (0.001 * z * Rpower 10 (d / 10) / (0.001 * z))
      with (Rpower 10 (d / 10)) by (field; lra).
    rewrite log10_Rpower_10. field.
Qed.

Lemma decibel_round_trips_witness :
  rbind (dbv_of_vrms (Fin 1)) vrms_of_dbv = Ok (Fin 1)
  /\ rbind (vrms_of_dbv (Fin (-6))) dbv_of_vrms = Ok (Fin (-6))
  /\ rbind (dbu_of_vrms (Fin 1)) vrms_of_dbu = Ok (Fin 1)
  /\ rbind (vrms_of_dbu (Fin (-6))) dbu_of_vrms = Ok (Fin (-6))
  /\ rbind (dbm_of_vrms (Fin 600) (Fin 1)) (vrms_of_dbm (Fin 600)) = Ok (Fin 1)
  /\ rbind (vrms_of_dbm (Fin 600) (Fin (-6))) (dbm_of_vrms (Fin 600))
     = Ok (Fin (-6)).
Proof. apply (decibel_round_trips 1 (-6) 600); lra. Defined.

Lemma pow2_30 : 2 ^ 30 = 1073741824.
Proof. simpl. lra. Qed.

Lemma log10_ref_power_bounds :
  0 / 2 ^ 30
  <= PyFloat.log10 (0.001 * 600 / (REF_U * REF_U))
  <= (0 + 1) / 2 ^ 30.
Proof.
  apply (bits_sound 30 1000000000107109618944805803802
                    1000000000107109618944805803803).
  - lia.
  - unfold REF_U. lra.
  - unfold REF_U. unfold_scale. lra.
  - vm_compute. reflexivity.
Qed.

(** X8. The docstring derives the dBu reference from 1 mW into 600 ohms.
    Accordingly, for every finite V-RMS above zero: dBu exceeds dBV by one and
    the same offset, [20 * log10 (1 / 0.7745966692)], which lies between
    2.21848 and 2.21849; and dBu and dBm at 600 ohms agree to within a
    hundred-millionth of a dB, dBu being the larger. *)
Theorem decibel_offsets :
  forall v : R,
    0 < v ->
    exists a b c : R,
      dbu_of_vrms (Fin v) = Ok (Fin a)
      /\ dbv_of_vrms (Fin v) = Ok (Fin b)
      /\ dbm_of_vrms (Fin 600) (Fin v) = Ok (Fin c)
      /\ a - b = 20 * PyFloat.log10 (1 / REF_U)
      /\ 2.21848 < a - b < 2.21849
      /\ 0 <= a - c <= 1 / 100000000.
Proof.
  intros v Hv. pose proof REF_U_pos as Hu.
  exists (20 * PyFloat.log10 (v / REF_U)), (20 * PyFloat.log10 v),
    (10 * PyFloat.log10 (v ^ 2 / (0.001 * 600))).
  rewrite dbu_of_vrms_fin, dbv_of_vrms_fin, dbm_of_vrms_fin by lra.
  assert (E1 : PyFloat.log10 (v / REF_U)
               = PyFloat.log10 v - PyFloat.log10 REF_U)
    by (apply log10_div; assumption).
  assert (E2 : PyFloat.log10 (1 / REF_U) = - PyFloat.log10 REF_U).
  { rewrite log10_div, log10_1 by lra. lra. }
  assert (E3 : PyFloat.log10 (v ^ 2 / (0.001 * 600))
               = 2 * PyFloat.log10 v - PyFloat.log10 (0.001 * 600)).
  { rewrite log10_div by nra.
    replace (v ^ 2) with (v * v) by ring.
    rewrite log10_mult by assumption. lra. }
  assert (E4 : PyFloat.log10 (0.001 * 600 / (REF_U * REF_U))
               = PyFloat.log10 (0.001 * 600) - 2 * PyFloat.log10 REF_U).
  { rewrite log10_div by nra.
    rewrite (log10_mult REF_U REF_U) by assumption. lra. }
  pose proof log10_inv_ref_bounds as B1. rewrite pow2_24 in B1.
  pose proof log10_ref_power_bounds as B2. rewrite pow2_30 in B2.
  repeat split; try reflexivity; lra.
Qed.

Lemma decibel_offsets_witness :
  exists a b c : R,
    dbu_of_vrms (Fin 1) = Ok (Fin a)
    /\ dbv_of_vrms (Fin 1) = Ok (Fin b)
    /\ dbm_of_vrms (Fin 600) (Fin 1) = Ok (Fin c)
    /\ a - b = 20 * PyFloat.log10 (1 / REF_U)
    /\ 2.21848 < a - b < 2.21849
    /\ 0 <= a - c <= 1 / 100000000.
Proof. apply (decibel_offsets 1). lra. Defined.

(** X9. A tenfold V-RMS adds exactly 20 to dBu, to dBV and to dBm, for every
    finite V-RMS above zero and every finite impedance above zero. *)
Theorem tenfold_adds_twenty :
  forall v z : R,
    0 < v -> 0 < z ->
    exists a b c : R,
      dbu_of_vrms (Fin v) = Ok (Fin a)
      /\ dbv_of_vrms (Fin v) = Ok (Fin b)
      /\ dbm_of_vrms (Fin z) (Fin v) = Ok (Fin c)
      /\ dbu_of_vrms (Fin (10 * v)) = Ok (Fin (a + 20))
      /\ dbv_of_vrms (Fin (10 * v)) = Ok (Fin (b + 20))
      /\ dbm_of_vrms (Fin z) (Fin (10 * v)) = Ok (Fin (c + 20)).
Proof.
  intros v z Hv Hz. pose proof REF_U_pos as Hu.
  exists (20 * PyFloat.log10 (v / REF_U)), (20 * PyFloat.log10 v),
    (10 * PyFloat.log10 (v ^ 2 / (0.001 * z))).
  rewrite !dbu_of_vrms_fin, !dbv_of_vrms_fin, !dbm_of_vrms_fin by lra.
  assert (Hq : 0 < v / REF_U) by (apply Rdiv_lt_0_compat; assumption).
  assert (Hp : 0 < v ^ 2 / (0.001 * z)) by (apply Rdiv_lt_0_compat; nra).
  repeat split; do 2 f_equal.
  - replace (10 * v / REF_U) with (10 * (v / REF_U)) by (field; lra).
    rewrite log10_mult, log10_10 by lra. lra.
  - rewrite log10_mult, log10_10 by lra. lra.
  - replace ((10 * v) ^ 2 / (0.001 * z))
      with (10 * (10 * (v ^ 2 / (0.001 * z)))) by (field; lra).
    rewrite !log10_mult, log10_10 by lra. lra.
Qed.

Lemma tenfold_adds_twenty_witness :
  exists a b c : R,
    dbu_of_vrms (Fin 1) = Ok (Fin a)
    /\ dbv_of_vrms (Fin 1) = Ok (Fin b)
    /\ dbm_of_vrms (Fin 600) (Fin 1) = Ok (Fin c)
    /\ dbu_of_vrms (Fin (10 * 1)) = Ok (Fin (a + 20))
    /\ dbv_of_vrms (Fin (10 * 1)) = Ok (Fin (b + 20))
    /\ dbm_of_vrms (Fin 600) (Fin (10 * 1)) = Ok (Fin (c + 20)).
Proof. apply (tenfold_adds_twenty 1 600); lra. Defined.

(** X10. Over the reals, that is without the overflow, the underflow and
    the rounding of a double: the V-RMS formulas of [update_vrms] give a
    number above zero for every dBu, dBV or dBm value (with an impedance
    above zero for dBm) and a strictly larger one for a larger dB value; the
    dBu and dBV formulas give strictly more for a larger V-RMS above zero. *)
Theorem conversions_preserve_order :
  forall d1 d2 v1 v2 z : R,
    d1 < d2 -> 0 < v1 -> v1 < v2 -> 0 < z ->
    exists a1 a2 b1 b2 c1 c2 u1 u2 w1 w2 : R,
      vrms_of_dbu (Fin d1) = Ok (Fin a1) /\ vrms_of_dbu (Fin d2) = Ok (Fin a2)
      /\ vrms_of_dbv (Fin d1) = Ok (Fin b1)
      /\ vrms_of_dbv (Fin d2) = Ok (Fin b2)
      /\ vrms_of_dbm (Fin z) (Fin d1) = Ok (Fin c1)
      /\ vrms_of_dbm (Fin z) (Fin d2) = Ok (Fin c2)
      /\ dbu_of_vrms (Fin v1) = Ok (Fin u1) /\ dbu_of_vrms (Fin v2) = Ok (Fin u2)
      /\ dbv_of_vrms (Fin v1) = Ok (Fin w1) /\ dbv_of_vrms (Fin v2) = Ok (Fin w2)
      /\ 0 < a1 < a2 /\ 0 < b1 < b2 /\ 0 < c1 < c2
      /\ u1 < u2 /\ w1 < w2.
Proof.
  intros d1 d2 v1 v2 z Hd Hv1 Hv Hz. pose proof REF_U_pos as Hu.
  do 10 eexists.
  rewrite !vrms_of_dbu_fin, !vrms_of_dbv_fin, !vrms_of_dbm_fin by assumption.
  rewrite !dbu_of_vrms_fin, !dbv_of_vrms_fin by lra.
  do 10 (split; [ reflexivity | ]).
  pose proof (Rpower_pos 10 (d1 / 20)) as P1.
  pose proof (Rpower_pos 10 (d1 / 10)) as Q1.
  assert (L20 : Rpower 10 (d1 / 20) < Rpower 10 (d2 / 20))
    by (apply Rpower_lt; lra).
  assert (L10 : Rpower 10 (d1 / 10) < Rpower 10 (d2 / 10))
    by (apply Rpower_lt; lra).
  repeat split.
  - nra.
  - nra.
  - assumption.
  - assumption.
  - apply sqrt_lt_R0. nra.
  - apply sqrt_lt_1; nra.
  - apply Rmult_lt_compat_l; [ lra | ]. apply log10_increasing.
    + apply Rdiv_lt_0_compat; assumption.
    + unfold Rdiv. apply Rmult_lt_compat_r;
        [ apply Rinv_0_lt_compat, Hu | exact Hv ].
  - apply Rmult_lt_compat_l; [ lra | ]. apply log10_increasing; assumption.
Qed.

Lemma conversions_preserve_order_witness :
  exists a1 a2 b1 b2 c1 c2 u1 u2 w1 w2 : R,
    vrms_of_dbu (Fin 0) = Ok (Fin a1) /\ vrms_of_dbu (Fin 6) = Ok (Fin a2)
    /\ vrms_of_dbv (Fin 0) = Ok (Fin b1)
    /\ vrms_of_dbv (Fin 6) = Ok (Fin b2)
    /\ vrms_of_dbm (Fin 600) (Fin 0) = Ok (Fin c1)
    /\ vrms_of_dbm (Fin 600) (Fin 6) = Ok (Fin c2)
    /\ dbu_of_vrms (Fin 1) = Ok (Fin u1) /\ dbu_of_vrms (Fin 2) = Ok (Fin u2)
    /\ dbv_of_vrms (Fin 1) = Ok (Fin w1) /\ dbv_of_vrms (Fin 2) = Ok (Fin w2)
    /\ 0 < a1 < a2 /\ 0 < b1 < b2 /\ 0 < c1 < c2
    /\ u1 < u2 /\ w1 < w2.
Proof. apply (conversions_preserve_order 0 6 1 2 600); lra. Defined.

(** ** Reading back what was written *)

Lemma list_ascii_app (a b : string) :
  list_ascii_of_string (a ++ b)
  = (list_ascii_of_string a ++ list_ascii_of_string b)%list.
Proof. induction a as [| c a IH]; simpl; [ reflexivity | rewrite IH; reflexivity ]. Qed.

Lemma digit_val_range (c : ascii) (d : Z) :
  PyText.digit_val c = Some d ->
  (48 <= nat_of_ascii c <= 57)%nat /\ d = Z.of_nat (nat_of_ascii c - 48).
Proof.
  unfold PyText.digit_val.
  destruct ((48 <=? nat_of_ascii c)%nat && (nat_of_ascii c <=? 57)%nat) eqn:E;
    [ | discriminate ].
  intros H. injection H as <-.
  apply andb_true_iff in E. destruct E as [E1 E2].
  apply Nat.leb_le in E1. apply Nat.leb_le in E2. auto.
Qed.

Lemma digit_not_space (c : ascii) (d : Z) :
  PyText.digit_val c = Some d -> PyText.is_space c = false.
Proof.
  intros H. apply digit_val_range in H. destruct H as [[H1 H2] _].
  unfold PyText.is_space. cbv zeta.
  replace (nat_of_ascii c <=? 13)%nat with false
    by (symmetry; apply Nat.leb_gt; lia).
  replace (nat_of_ascii c =? 32)%nat with false
    by (symmetry; apply Nat.eqb_neq; lia).
  replace (nat_of_ascii c =? 133)%nat with false
    by (symmetry; apply Nat.eqb_neq; lia).
  replace (nat_of_ascii c =? 160)%nat with false
    by (symmetry; apply Nat.eqb_neq; lia).
  rewrite andb_false_r. reflexivity.
Qed.

Lemma digit_lower (c : ascii) (d : Z) :
  PyText.digit_val c = Some d -> PyText.lower c = c.
Proof.
  intros H. apply digit_val_range in H. destruct H as [[H1 H2] _].
  unfold PyText.lower.
  replace ((65 <=? nat_of_ascii c)%nat) with false
    by (symmetry; apply Nat.leb_gt; lia).
  reflexivity.
Qed.

Lemma digit_not_char (c c' : ascii) (d : Z) :
  PyText.digit_val c = Some d -> PyText.digit_val c' = None ->
  Ascii.eqb c c' = false.
Proof.
  intros H H'. destruct (Ascii.eqb c c') eqn:E; [ | reflexivity ].
  apply Ascii.eqb_eq in E. subst c'. congruence.
Qed.

Lemma digits_val_no_space (l : list ascii) :
  forall acc v, digits_val acc l = Some v -> no_space l = true.
Proof.
  induction l as [| c l IH]; intros acc v H; [ reflexivity | ].
  cbn [digits_val] in H. unfold no_space. cbn [forallb].
  destruct (PyText.digit_val c) as [d |] eqn:E; [ | discriminate ].
  rewrite (digit_not_space c d E). apply (IH _ _ H).
Qed.

Lemma digits_val_app (l1 l2 : list ascii) :
  forall acc v,
    digits_val acc l1 = Some v ->
    digits_val acc (l1 ++ l2) = digits_val v l2.
Proof.
  induction l1 as [| c l1 IH]; intros acc v H; cbn [digits_val app] in *.
  - injection H as <-. reflexivity.
  - destruct (PyText.digit_val c); [ apply IH, H | discriminate ].
Qed.

(** The run of digits is read whole and the reading stops where it ends. *)
Lemma digits_tail_run (ds rest : list ascii) :
  forall acc cnt v,
    digits_val acc ds = Some v -> stops rest ->
    PyText.digits_tail acc cnt (ds ++ rest)
    = (v, (cnt + List.length ds)%nat, rest).
Proof.
  induction ds as [| c ds IH]; intros acc cnt v H Hs.
  - cbn [digits_val] in H. injection H as <-.
    rewrite Nat.add_0_r. cbn [app].
    destruct rest as [| c rest]; [ reflexivity | ].
    destruct Hs as [H1 H2]. cbn [PyText.digits_tail]. rewrite H1, H2.
    reflexivity.
  - cbn [digits_val] in H. cbn [app PyText.digits_tail List.length].
    destruct (PyText.digit_val c) as [d |]; [ | discriminate ].
    rewrite (IH _ (S cnt) _ H Hs). f_equal. f_equal. lia.
Qed.

Lemma digitpart_run (c : ascii) (ds rest : list ascii) (acc v : Z) :
  digits_val acc (c :: ds) = Some v -> stops rest ->
  PyText.digitpart acc ((c :: ds) ++ rest)
  = Some (v, List.length (c :: ds), rest).
Proof.
  intros H Hs. cbn [digits_val] in H. cbn [app PyText.digitpart].
  destruct (PyText.digit_val c) as [d |]; [ | discriminate ].
  rewrite (digits_tail_run ds rest _ 1%nat _ H Hs). reflexivity.
Qed.

Lemma strip_no_space (l : list ascii) : no_space l = true -> PyText.strip l = l.
Proof.
  assert (L : forall l, no_space l = true -> PyText.lstrip l = l).
  { intros [| c l'] H; [ reflexivity | ].
    unfold no_space in H. cbn [forallb] in H.
    apply andb_true_iff in H. destruct H as [H _].
    cbn [PyText.lstrip]. apply negb_true_iff in H. rewrite H. reflexivity. }
  intros H. unfold PyText.strip. rewrite (L l H).
  rewrite L; [ apply rev_involutive | ].
  unfold no_space. rewrite forallb_forall. intros c Hc.
  apply in_rev in Hc. unfold no_space in H. rewrite forallb_forall in H.
  apply H, Hc.
Qed.

(** The digits that [str] writes for a number of the library. *)
Lemma uint_digits (d : Decimal.uint) :
  forall acc,
    digits_val acc (list_ascii_of_string (NilEmpty.string_of_uint d))
    = Some (uint_value acc d).
Proof.
  induction d; intros acc; [ reflexivity | .. ];
    cbn [NilEmpty.string_of_uint list_ascii_of_string digits_val uint_value];
    match goal with
    | |- context [PyText.digit_val ?c] =>
        let v := eval vm_compute in (PyText.digit_val c) in
        change (PyText.digit_val c) with v
    end;
    cbv iota; apply IHd.
Qed.

Lemma uint_value_acc (d : Decimal.uint) :
  forall acc : positive,
    uint_value (Z.pos acc) d = Z.pos (Pos.of_uint_acc d acc).
Proof.
  induction d; intros acc; cbn [uint_value Pos.of_uint_acc];
    try reflexivity; rewrite <- IHd; f_equal; lia.
Qed.

Lemma uint_value_of_uint (d : Decimal.uint) :
  uint_value 0 d = Z.of_N (Pos.of_uint d).
Proof.
  induction d; cbn [uint_value Pos.of_uint]; try reflexivity;
    try (exact IHd);
    match goal with
    | |- uint_value ?a _ = _ =>
        let p := eval cbv in (Z.to_pos a) in
        change a with (Z.pos p); rewrite uint_value_acc; reflexivity
    end.
Qed.

Lemma str_int_pos_digits (p : positive) :
  exists c ds,
    list_ascii_of_string (NilZero.string_of_uint (Pos.to_uint p)) = c :: ds
    /\ digits_val 0 (c :: ds) = Some (Z.pos p).
Proof.
  pose proof (uint_digits (Pos.to_uint p) 0) as H.
  rewrite uint_value_of_uint, DecimalPos.Unsigned.of_to in H. cbn [Z.of_N] in H.
  unfold NilZero.string_of_uint.
  destruct (Pos.to_uint p) eqn:E;
    try (cbn [NilEmpty.string_of_uint list_ascii_of_string] in *;
         eexists; eexists; split; [ reflexivity | exact H ]).
Qed.

(** The text of a non-negative integer is a non-empty run of digits of that
    value. *)
Lemma str_int_digits (z : Z) :
  (0 <= z)%Z ->
  exists c ds,
    list_ascii_of_string (PyText.str_int z) = c :: ds
    /\ digits_val 0 (c :: ds) = Some z.
Proof.
  intros Hz. unfold PyText.str_int. destruct z as [| p | p]; [ | | lia ].
  - exists "0"%char, []. split; reflexivity.
  - apply str_int_pos_digits.
Qed.

Lemma str_int_neg (p : positive) :
  PyText.str_int (Z.neg p) = String "-" (PyText.str_int (Z.pos p)).
Proof. reflexivity. Qed.

Lemma digit_val_digit_char (d : Z) :
  (0 <= d < 10)%Z -> PyText.digit_val (PyText.digit_char d) = Some d.
Proof.
  intros H.
  assert (E : (d = 0 \/ d = 1 \/ d = 2 \/ d = 3 \/ d = 4 \/ d = 5 \/ d = 6
               \/ d = 7 \/ d = 8 \/ d = 9)%Z) by lia.
  repeat (destruct E as [-> | E]; [ reflexivity | ]).
  subst d. reflexivity.
Qed.

(** The [n] digits that the format writes after the point are read back as
    the number they spell. *)
Lemma frac_digits_value (n : nat) (f : Z) :
  forall acc,
    digits_val acc (list_ascii_of_string (PyText.frac_digits n f))
    = Some (acc * 10 ^ Z.of_nat n + f mod 10 ^ Z.of_nat n)%Z.
Proof.
  induction n as [| n IH]; intros acc.
  - cbn [PyText.frac_digits list_ascii_of_string digits_val].
    f_equal. change (10 ^ Z.of_nat 0)%Z with 1%Z. rewrite Z.mod_1_r. lia.
  - cbn [PyText.frac_digits list_ascii_of_string digits_val].
    assert (Hp : (0 < 10 ^ Z.of_nat n)%Z) by (apply Z.pow_pos_nonneg; lia).
    rewrite digit_val_digit_char by (apply Z.mod_pos_bound; lia).
    rewrite IH. f_equal.
    rewrite Nat2Z.inj_succ, Z.pow_succ_r by lia.
    rewrite (Z.mul_comm 10 (10 ^ Z.of_nat n)).
    rewrite (Z.rem_mul_r f (10 ^ Z.of_nat n) 10) by lia.
    ring.
Qed.

Lemma list_ascii_length (t : string) :
  List.length (list_ascii_of_string t) = String.length t.
Proof. induction t as [| c t IH]; cbn; [ reflexivity | rewrite IH; reflexivity ]. Qed.

Lemma frac_digits_cons (n : nat) (f : Z) :
  exists c fs,
    list_ascii_of_string (PyText.frac_digits (S n) f) = c :: fs
    /\ List.length (c :: fs) = S n.
Proof.
  exists (PyText.digit_char ((f / 10 ^ Z.of_nat n) mod 10)),
    (list_ascii_of_string (PyText.frac_digits n f)).
  split; [ reflexivity | ].
  cbn [List.length]. rewrite list_ascii_length, frac_digits_length.
  reflexivity.
Qed.

Lemma read_sign_digits (neg : bool) (c : ascii) (l : list ascii) (d : Z) :
  PyText.digit_val c = Some d ->
  PyText.read_sign (sign_chars neg ++ c :: l) = (neg, c :: l).
Proof.
  intros H. destruct neg; [ reflexivity | ].
  cbn [sign_chars app PyText.read_sign].
  rewrite (digit_not_char c "-" d H eq_refl).
  rewrite (digit_not_char c "+" d H eq_refl). reflexivity.
Qed.

Lemma strip_signed_digits (neg : bool) (l : list ascii) :
  no_space l = true ->
  PyText.strip (sign_chars neg ++ l) = (sign_chars neg ++ l)%list.
Proof.
  intros H. apply strip_no_space. unfold no_space in *.
  rewrite forallb_app, H. destruct neg; reflexivity.
Qed.

Lemma not_a_keyword (c : ascii) (l : list ascii) (d : Z) :
  PyText.digit_val c = Some d ->
  let word := string_of_list_ascii (map PyText.lower (c :: l)) in
  String.eqb word "nan" = false
  /\ String.eqb word "inf" = false
  /\ String.eqb word "infinity" = false.
Proof.
  intros H word. unfold word. cbn [map string_of_list_ascii String.eqb].
  rewrite (digit_lower c d H).
  rewrite (digit_not_char c "n" d H eq_refl).
  rewrite (digit_not_char c "i" d H eq_refl). repeat split.
Qed.

Lemma head_digit (acc : Z) (c : ascii) (l : list ascii) (v : Z) :
  digits_val acc (c :: l) = Some v -> exists d, PyText.digit_val c = Some d.
Proof.
  cbn [digits_val]. destruct (PyText.digit_val c) as [d |];
    [ eauto | discriminate ].
Qed.

(** [float()] and [int()] on an optional minus sign and a run of digits. *)
Lemma parse_integer_text (neg : bool) (c : ascii) (ds : list ascii) (ip : Z) :
  digits_val 0 (c :: ds) = Some ip ->
  let t := string_of_list_ascii (sign_chars neg ++ c :: ds) in
  PyText.parse_float t = Some (PyText.LDec neg ip 0)
  /\ PyText.parse_int t = Some (if neg then (- ip)%Z else ip).
Proof.
  intros H t. destruct (head_digit _ _ _ _ H) as [d Hd].
  pose proof (digits_val_no_space _ _ _ H) as Hn.
  pose proof (digitpart_run c ds [] 0 ip H I) as Hp.
  rewrite app_nil_r in Hp.
  destruct (not_a_keyword c ds d Hd) as (K1 & K2 & K3).
  unfold PyText.parse_float, PyText.parse_int, t.
  rewrite list_ascii_of_string_of_list_ascii.
  rewrite (strip_signed_digits neg _ Hn), (read_sign_digits neg c ds d Hd).
  rewrite K1, K2, K3. cbn [orb].
  unfold PyText.read_number. rewrite Hp.
  cbn [PyText.read_exponent]. split; reflexivity.
Qed.

(** [float()] on an optional minus sign, a run of digits, a point and a
    second run of digits. *)
Lemma parse_decimal_text (neg : bool) (c : ascii) (ds : list ascii)
      (c' : ascii) (fs : list ascii) (ip v : Z) :
  digits_val 0 (c :: ds) = Some ip ->
  digits_val ip (c' :: fs) = Some v ->
  PyText.parse_float
    (string_of_list_ascii
       (sign_chars neg ++ (c :: ds) ++ "."%char :: c' :: fs))
  = Some (PyText.LDec neg v (- Z.of_nat (List.length (c' :: fs)))).
Proof.
  intros H H'. destruct (head_digit _ _ _ _ H) as [d Hd].
  assert (Hn : no_space ((c :: ds) ++ "."%char :: c' :: fs) = true).
  { pose proof (digits_val_no_space _ _ _ H) as N1.
    pose proof (digits_val_no_space _ _ _ H') as N2.
    unfold no_space in *. rewrite forallb_app, N1.
    change (forallb (fun x => negb (PyText.is_space x))
                    ("."%char :: c' :: fs))
      with (negb (PyText.is_space ".")
            && forallb (fun x => negb (PyText.is_space x)) (c' :: fs)).
    rewrite N2. reflexivity. }
  assert (Hs : stops ("."%char :: c' :: fs)) by (split; reflexivity).
  pose proof (digitpart_run c ds _ 0 ip H Hs) as Hp.
  pose proof (digitpart_run c' fs [] ip v H' I) as Hp'.
  rewrite app_nil_r in Hp'.
  destruct (not_a_keyword c (ds ++ "."%char :: c' :: fs) d Hd)
    as (K1 & K2 & K3).
  unfold PyText.parse_float.
  rewrite list_ascii_of_string_of_list_ascii.
  rewrite (strip_signed_digits neg _ Hn).
  change ((c :: ds) ++ "."%char :: c' :: fs)%list
    with (c :: (ds ++ "."%char :: c' :: fs))%list.
  rewrite (read_sign_digits neg c _ d Hd).
  rewrite K1, K2, K3. cbn [orb].
  unfold PyText.read_number.
  change (c :: (ds ++ "."%char :: c' :: fs))%list
    with ((c :: ds) ++ "."%char :: c' :: fs)%list.
  rewrite Hp. change (Ascii.eqb "." ".") with true. cbv iota.
  rewrite Hp'. cbn [PyText.read_exponent]. reflexivity.
Qed.

Lemma round_half_even_error (x : R) :
  - (1 / 2) <= IZR (PyText.round_half_even x) - x <= 1 / 2.
Proof.
  unfold PyText.round_half_even. pose proof (Zfloor_bound x) as [H1 H2].
  destruct (Rlt_dec (x - IZR (Zfloor x)) (1 / 2)); [ lra | ].
  destruct (Rlt_dec (1 / 2) (x - IZR (Zfloor x)));
    [ rewrite plus_IZR; lra | ].
  destruct (Z.even (Zfloor x)); [ lra | rewrite plus_IZR; lra ].
Qed.

Lemma powerRZ_10_neg (n : nat) : powerRZ 10 (- Z.of_nat n) = / 10 ^ n.
Proof. rewrite powerRZ_neg', <- pow_powerRZ. reflexivity. Qed.

(** What [float()] reads from a fixed-point text with at least one digit
    after the point: the rounded magnitude, scaled back, with the sign. *)
Lemma float_format_fixed (k : nat) (r : R) :
  let m := PyText.round_half_even (Rabs r * 10 ^ S k) in
  PyText.float (PyText.format_fixed (S k) r)
  = Ok (Fin ((if Rlt_dec r 0 then - IZR m else IZR m) * / 10 ^ S k)).
Proof.
  intros m.
  assert (Hm : (0 <= m)%Z).
  { apply round_half_even_nonneg. apply Rmult_le_pos;
      [ apply Rabs_pos | apply pow_le; lra ]. }
  set (scale := (10 ^ Z.of_nat (S k))%Z).
  assert (Hs : (0 < scale)%Z) by (apply Z.pow_pos_nonneg; lia).
  assert (Hip : (0 <= m / scale)%Z) by (apply Z.div_pos; lia).
  destruct (str_int_digits _ Hip) as (c & ds & E1 & V1).
  destruct (frac_digits_cons k (m mod scale)) as (c' & fs & E2 & L2).
  pose proof (frac_digits_value (S k) (m mod scale) (m / scale)) as V2.
  fold scale in V2. rewrite E2 in V2.
  rewrite Z.mod_mod in V2 by lia.
  replace (m / scale * scale + m mod scale)%Z with m in V2
    by (rewrite (Z.div_mod m scale) at 1 by lia; ring).
  set (neg := if Rlt_dec r 0 then true else false).
  assert (T : PyText.format_fixed (S k) r
              = string_of_list_ascii
                  (sign_chars neg ++ (c :: ds) ++ "."%char :: c' :: fs)).
  { rewrite <- (string_of_list_ascii_of_string (PyText.format_fixed (S k) r)).
    f_equal. unfold PyText.format_fixed. fold m. fold scale.
    rewrite !list_ascii_app. rewrite E1.
    change (list_ascii_of_string
              ("." ++ PyText.frac_digits (S k) (m mod scale)))
      with ("."%char
              :: list_ascii_of_string
                   (PyText.frac_digits (S k) (m mod scale))).
    rewrite E2. unfold neg. destruct (Rlt_dec r 0); reflexivity. }
  rewrite T.
  rewrite (float_decimal _ neg m (- Z.of_nat (List.length (c' :: fs))))
    by (apply (parse_decimal_text neg c ds c' fs _ _ V1 V2)).
  rewrite L2. rewrite powerRZ_10_neg.
  unfold neg. destruct (Rlt_dec r 0); reflexivity.
Qed.

Lemma float_str_int (z : Z) : PyText.float (PyText.str_int z) = Ok (Fin (IZR z)).
Proof.
  assert (P : forall q : Z, (0 <= q)%Z -> forall neg : bool,
              PyText.float
                (string_of_list_ascii
                   (sign_chars neg
                      ++ list_ascii_of_string (PyText.str_int q)))
              = Ok (Fin ((if neg then - IZR q else IZR q) * 1))).
  { intros q Hq neg. destruct (str_int_digits q Hq) as (c & ds & E & V).
    rewrite E.
    destruct (parse_integer_text neg c ds q V) as [Hf _].
    rewrite (float_decimal _ neg q 0 Hf). reflexivity. }
  destruct z as [| p | p].
  - specialize (P 0%Z (Z.le_refl 0) false). cbn [sign_chars app] in P.
    rewrite string_of_list_ascii_of_string in P. rewrite P.
    do 2 f_equal. lra.
  - specialize (P (Z.pos p) (Pos2Z.is_nonneg p) false). cbn [sign_chars app] in P.
    rewrite string_of_list_ascii_of_string in P. rewrite P.
    do 2 f_equal. lra.
  - specialize (P (Z.pos p) (Pos2Z.is_nonneg p) true).
    rewrite str_int_neg.
    rewrite <- (string_of_list_ascii_of_string
                  (String "-" (PyText.str_int (Z.pos p)))).
    cbn [list_ascii_of_string]. cbn [sign_chars app] in P. rewrite P.
    do 2 f_equal. change (Z.neg p) with (- Z.pos p)%Z. rewrite opp_IZR. lra.
Qed.

(** X11. Every text the helpers write can be read back by [float()], so
    rereading a box that the program has just written never fails.  With a
    stored rounding of at least one digit: the text of [nan], [inf] and
    [-inf] reads back as itself; the text of a whole number reads back as
    that number; and the text of any other finite number reads back as a
    number within half a unit of the last digit written. *)
Theorem written_text_reads_back :
  forall (rnd : Z) (x : pyfloat),
    (0 < rnd)%Z ->
    exists y : pyfloat,
      PyText.float (rendered rnd x) = Ok y
      /\ match x, y with
         | Fin r, Fin w =>
             Rabs (w - r) <= 1 / 2 * / 10 ^ Z.to_nat rnd
             /\ (PyFloat.is_whole r = true -> w = r)
         | PInf, PInf | NInf, NInf | NaN, NaN => True
         | _, _ => False
         end.
Proof.
  intros rnd x Hr. destruct x as [r | | |].
  - destruct (PyFloat.is_whole r) eqn:Hw.
    + pose proof (is_whole_true r Hw) as E.
      exists (Fin r). rewrite (rendered_whole rnd (Zfloor r) r E).
      rewrite float_str_int, <- E. split; [ reflexivity | ].
      split; [ | reflexivity ].
      replace (r - r) with 0 by ring. rewrite Rabs_R0.
      apply Rmult_le_pos; [ lra | ].
      left. apply Rinv_0_lt_compat, pow_lt. lra.
    + rewrite (rendered_fixed rnd r Hw).
      destruct (Z.to_nat rnd) as [| k] eqn:En; [ lia | ].
      rewrite float_format_fixed. eexists. split; [ reflexivity | ].
      split; [ | discriminate ].
      set (P := 10 ^ S k). assert (HP : 0 < P) by (apply pow_lt; lra).
      pose proof (round_half_even_error (Rabs r * P)) as B.
      set (m := IZR (PyText.round_half_even (Rabs r * P))) in *.
      assert (Hi : 0 < / P) by (apply Rinv_0_lt_compat, HP).
      assert (E : forall a, a * / P * P = a) by (intros a; field; lra).
      apply Rabs_le.
      destruct (Rlt_dec r 0) as [Hneg | Hpos].
      * rewrite Rabs_left in B by assumption.
        split; apply Rmult_le_reg_r with P; try assumption;
          unfold Rminus; rewrite ?Rmult_plus_distr_r, ?E;
          replace (- (1 / 2 * / P) * P) with (- (1 / 2)) by (field; lra);
          replace (1 / 2 * / P * P) with (1 / 2) by (field; lra); lra.
      * rewrite Rabs_pos_eq in B by lra.
        split; apply Rmult_le_reg_r with P; try assumption;
          unfold Rminus; rewrite ?Rmult_plus_distr_r, ?E;
          replace (- (1 / 2 * / P) * P) with (- (1 / 2)) by (field; lra);
          replace (1 / 2 * / P * P) with (1 / 2) by (field; lra); lra.
  - exists PInf. split; [ reflexivity | exact I ].
  - exists NInf. split; [ reflexivity | exact I ].
  - exists NaN. split; [ reflexivity | exact I ].
Qed.

Lemma written_text_reads_back_witness :
  exists y : pyfloat,
    PyText.float (rendered 4 (Fin (1 / 2))) = Ok y
    /\ match y with
       | Fin w =>
           Rabs (w - 1 / 2) <= 1 / 2 * / 10 ^ Z.to_nat 4
           /\ (PyFloat.is_whole (1 / 2) = true -> w = 1 / 2)
       | _ => False
       end.
Proof. apply (written_text_reads_back 4 (Fin (1 / 2))). lia. Defined.

(** X12. [int()] reads back what [str()] writes for any integer, negative
    ones included; in particular the stored rounding, written into the
    spinbox, is accepted again by [update_rounding]. *)
Theorem int_reads_back_str :
  forall z : Z,
    PyText.int (PyText.str_int z) = Ok z
    /\ (valid_rounding z -> rounding_rejected (PyText.str_int z) = false).
Proof.
  assert (P : forall z, PyText.parse_int (PyText.str_int z) = Some z).
  { assert (Q : forall q : Z, (0 <= q)%Z -> forall neg : bool,
                PyText.parse_int
                  (string_of_list_ascii
                     (sign_chars neg
                        ++ list_ascii_of_string (PyText.str_int q)))
                = Some (if neg then (- q)%Z else q)).
    { intros q Hq neg. destruct (str_int_digits q Hq) as (c & ds & E & V).
      rewrite E. apply (parse_integer_text neg c ds q V). }
    intros [| p | p].
    - reflexivity.
    - specialize (Q (Z.pos p) (Pos2Z.is_nonneg p) false).
      cbn [sign_chars app] in Q.
      rewrite string_of_list_ascii_of_string in Q. exact Q.
    - specialize (Q (Z.pos p) (Pos2Z.is_nonneg p) true).
      rewrite str_int_neg.
      rewrite <- (string_of_list_ascii_of_string
                    (String "-" (PyText.str_int (Z.pos p)))).
      cbn [list_ascii_of_string]. cbn [sign_chars app] in Q. exact Q. }
  intros z. split.
  - unfold PyText.int. rewrite P. reflexivity.
  - intros [H1 H2]. unfold rounding_rejected. rewrite P.
    apply orb_false_iff. split; lia.
Qed.

Lemma int_reads_back_str_witness :
  PyText.int (PyText.str_int 7) = Ok 7%Z
  /\ rounding_rejected (PyText.str_int 7) = false.
Proof.
  split.
  - apply (int_reads_back_str 7).
  - apply (int_reads_back_str 7). unfold valid_rounding. lia.
Defined.

(** ** Blank boxes *)

Lemma strip_blank (l : list ascii) :
  forallb PyText.is_space l = true -> PyText.strip l = [].
Proof.
  intros H. unfold PyText.strip.
  assert (L : PyText.lstrip l = []).
  { induction l as [| c l IH]; [ reflexivity | ].
    cbn [forallb] in H. apply andb_true_iff in H. destruct H as [H1 H2].
    cbn [PyText.lstrip]. rewrite H1. apply IH, H2. }
  rewrite L. reflexivity.
Qed.

Lemma blank_is_refused (t : string) :
  is_blank t = true ->
  PyText.float t = Raise ValueError
  /\ PyText.int t = Raise ValueError
  /\ magnitude_rejected t = true
  /\ number_rejected t = true
  /\ rounding_rejected t = true.
Proof.
  intros H. unfold is_blank in H. apply strip_blank in H.
  assert (F : PyText.parse_float t = None)
    by (unfold PyText.parse_float; rewrite H; reflexivity).
  assert (G : PyText.parse_int t = None)
    by (unfold PyText.parse_int; rewrite H; reflexivity).
  unfold magnitude_rejected, number_rejected, rounding_rejected,
    PyText.float, PyText.int.
  rewrite F, G. repeat split.
Qed.

(** X13. A box that is empty or holds white space only is refused by
    [float()] and by [int()].  So in a window whose six entry boxes are blank,
    as when the program starts, each "Convert" button shows the dialog of its
    own entry ("V-p Error", "V-pp Error", "V-RMS Error", "dBu Error",
    "dBV Error", "dBm Error"), shows no other dialog after [update_rounding],
    and changes no box; and with a blank spinbox [update_rounding] shows its
    dialog and keeps the stored rounding. *)
Theorem blank_boxes_are_refused :
  forall s : gui,
    let s1 := snd (update_rounding s) in
    (forall t : string,
        is_blank t = true ->
        PyText.float t = Raise ValueError /\ PyText.int t = Raise ValueError)
    /\ (forallb is_blank (boxes s) = true ->
        boxes s1 = boxes s
        /\ calc_vp s = (Ok tt, push_error "V-p Error" s1)
        /\ calc_vpp s = (Ok tt, push_error "V-pp Error" s1)
        /\ calc_vrms s = (Ok tt, push_error "V-RMS Error" s1)
        /\ calc_dbu s = (Ok tt, push_error "dBu Error" s1)
        /\ calc_dbv s = (Ok tt, push_error "dBV Error" s1)
        /\ calc_dbm s = (Ok tt, push_error "dBm Error" s1))
    /\ (is_blank (rounding_spinbox s) = true ->
        update_rounding s
        = (Ok tt, push_error "Decimal places rounding error" s)).
Proof.
  intros s s1. split; [ | split ].
  - intros t H. destruct (blank_is_refused t H) as (F & G & _). auto.
  - intros H. cbn [boxes forallb] in H.
    repeat (apply andb_true_iff in H; destruct H as [?B H]).
    apply blank_is_refused in B, B0, B1, B2, B3, B4.
    destruct B as (_ & _ & M0 & _), B0 as (_ & _ & M1 & _),
      B1 as (_ & _ & M2 & _), B2 as (_ & _ & _ & N3 & _),
      B3 as (_ & _ & _ & N4 & _), B4 as (_ & _ & _ & N5 & _).
    repeat apply conj.
    + apply update_rounding_boxes.
    + apply (calc_rejected_magnitude vp_box); [ keep_box s | exact M0 ].
    + apply (calc_rejected_magnitude vpp_box); [ keep_box s | exact M1 ].
    + apply (calc_rejected_magnitude vrms_box); [ keep_box s | exact M2 ].
    + apply (calc_rejected_number dbu_box); [ keep_box s | exact N3 ].
    + apply (calc_rejected_number dbv_box); [ keep_box s | exact N4 ].
    + apply (calc_rejected_number dbm_box); [ keep_box s | exact N5 ].
  - intros H. apply update_rounding_rejected.
    apply (blank_is_refused _ H).
Qed.

Lemma blank_boxes_are_refused_witness :
  calc_dbm initial
  = (Ok tt, push_error "dBm Error" (snd (update_rounding initial))).
Proof.
  destruct (blank_boxes_are_refused initial) as (_ & H & _).
  apply H. reflexivity.
Defined.

(** ** Values too small for the chosen number of decimals *)

(** A positive value below half a unit of the last decimal is written as
    zeros, and [float()] reads zero back. *)
Lemma vanishing_reads_zero (rnd : Z) (r : R) :
  valid_rounding rnd ->
  0 < r -> r * 10 ^ Z.to_nat rnd < 1 / 2 ->
  PyText.float (rendered rnd (Fin r)) = Ok (Fin 0).
Proof.
  intros Hv Hr Hs. unfold valid_rounding in Hv.
  destruct (Z.to_nat rnd) as [| k] eqn:En; [ lia | ].
  assert (Hp : 1 <= 10 ^ S k) by (apply pow_R1_Rle; lra).
  assert (Hlt : r < 1) by nra.
  rewrite rendered_fixed by (apply (is_whole_between _ 0); lra).
  rewrite En, float_format_fixed.
  rewrite Rabs_pos_eq by lra.
  rewrite (round_half_even_near _ 0) by (split; nra).
  rewrite Rlt_dec_false by lra.
  do 2 f_equal. lra.
Qed.

Lemma valid_after_update_rounding (s : gui) :
  valid_rounding (rounding s) ->
  valid_rounding (rounding (snd (update_rounding s))).
Proof.
  intros H.
  destruct (update_rounding_cases s) as [(v & _ & Hv & ->) | (_ & ->)];
    assumption.
Qed.

Lemma rendered_zero (rnd : Z) (r : R) : r = 0 -> rendered rnd (Fin r) = "0".
Proof. intros H. rewrite (rendered_whole _ 0) by exact H. reflexivity. Qed.

(** After a V-RMS text that reads back as zero, the dB handlers write [0]
    into the V-p and V-pp boxes and the next helper raises. *)
Lemma zero_vrms_then_raise (rest : M unit) (s : gui) :
  PyText.float (vrms_box s) = Ok (Fin 0) ->
  (forall s' : gui,
      PyText.float (vrms_box s') = Ok (Fin 0) ->
      rest s' = (Raise ValueError, s')) ->
  ((v <- float_of vrms_box ;; update_vp None (Some v)) ;;
   (v <- float_of vrms_box ;; update_vpp None (Some v)) ;;
   rest) s
  = (Raise ValueError, set_vpp_box "0" (set_vp_box "0" s)).
Proof.
  intros E Hrest.
  erewrite bind_ok.
  2: { rewrite (float_of_run _ _ _ (Fin 0)) by exact E.
       rewrite update_vp_of_vrms, rendered_zero by lra. reflexivity. }
  erewrite bind_ok.
  2: { rewrite (float_of_run _ _ _ (Fin 0)) by exact E.
       rewrite update_vpp_of_vrms, rendered_zero by lra. reflexivity. }
  apply Hrest. exact E.
Qed.

Lemma reread_zero_raises (helper : pyfloat -> M unit) (rest : M unit)
      (s : gui) :
  helper (Fin 0) s = (Raise ValueError, s) ->
  PyText.float (vrms_box s) = Ok (Fin 0) ->
  ((v <- float_of vrms_box ;; helper v) ;; rest) s = (Raise ValueError, s).
Proof.
  intros Hh E. apply bind_raise.
  rewrite (float_of_run _ _ _ (Fin 0)) by exact E. exact Hh.
Qed.

Lemma update_dbu_zero (s : gui) : update_dbu (Fin 0) s = (Raise ValueError, s).
Proof.
  rewrite update_dbu_cases, dbu_of_vrms_refused; [ reflexivity | ].
  apply le0_fin. lra.
Qed.

Lemma update_dbv_zero (s : gui) : update_dbv (Fin 0) s = (Raise ValueError, s).
Proof. rewrite update_dbv_cases, dbv_of_vrms_zero. reflexivity. Qed.

Lemma positive_factor (v c : R) : 0 < c -> 0 < v * c -> 0 < v.
Proof.
  intros Hc H. destruct (Rlt_dec 0 v) as [Hv | Hv]; [ exact Hv | ].
  assert (v * c <= 0) by nra. lra.
Qed.

Lemma inv_sqrt2_pos : 0 < 1 / sqrt 2.
Proof. pose proof sqrt2_pos. apply Rdiv_lt_0_compat; lra. Qed.

(** The text of zeros: a point and [rnd] digits [0]. *)
Lemma vanishing_text (rnd : Z) (r : R) :
  0 < r -> r * 10 ^ Z.to_nat rnd < 1 / 2 ->
  rendered rnd (Fin r) = PyText.format_fixed (Z.to_nat rnd) 0.
Proof.
  intros Hr Hs.
  assert (Hp : 1 <= 10 ^ Z.to_nat rnd) by (apply pow_R1_Rle; lra).
  assert (Hlt : r < 1) by nra.
  rewrite rendered_fixed by (apply (is_whole_between _ 0); lra).
  unfold PyText.format_fixed.
  rewrite (Rabs_pos_eq r) by lra. rewrite Rabs_R0, Rmult_0_l.
  assert (Hm : 0 < r * 10 ^ Z.to_nat rnd)
    by (apply Rmult_lt_0_compat; lra).
  rewrite (round_half_even_near (r * 10 ^ Z.to_nat rnd) 0) by (split; lra).
  rewrite (round_half_even_near 0 0) by (split; lra).
  rewrite !Rlt_dec_false by lra. reflexivity.
Qed.

Lemma zeros_read_zero (rnd : Z) :
  valid_rounding rnd ->
  PyText.float (PyText.format_fixed (Z.to_nat rnd) 0) = Ok (Fin 0).
Proof.
  intros Hv.
  assert (HP : 0 < 10 ^ Z.to_nat rnd) by (apply pow_lt; lra).
  assert (Hr : 0 < / (10 * 10 ^ Z.to_nat rnd))
    by (apply Rinv_0_lt_compat; lra).
  assert (Hs : / (10 * 10 ^ Z.to_nat rnd) * 10 ^ Z.to_nat rnd < 1 / 2).
  { replace (/ (10 * 10 ^ Z.to_nat rnd) * 10 ^ Z.to_nat rnd) with (/ 10)
      by (field; lra). lra. }
  rewrite <- (vanishing_text rnd _ Hr Hs).
  apply vanishing_reads_zero; assumption.
Qed.

(** X14. A positive value below half a unit of the last decimal is written
    as zeros ([0.0000] with four decimals), which [float()] reads as zero.
    Call a V-RMS value vanishing when it is at least [10^-300] and at most
    two fifths of a unit of the last decimal.  When the V-RMS value of a V-p
    entry vanishes, the V-p handler writes the V-pp box (the text of
    [2 * vp] to nine significant digits) and zeros into the V-RMS box, then
    shows "V-p Error", returns, and leaves the dB boxes as they were.  When
    the V-RMS value of a dBu or dBV entry vanishes, the handler writes zeros
    into the V-RMS box and [0] into the V-p and V-pp boxes, and ends with a
    [ValueError] that nothing catches; the remaining dB boxes keep their
    text. *)
Theorem values_that_round_to_zero :
  forall s : gui,
    valid_rounding (rounding s) ->
    let s1 := snd (update_rounding s) in
    let rnd := rounding s1 in
    let zeros := PyText.format_fixed (Z.to_nat rnd) 0 in
    let vanishes (r : R) :=
      / 10 ^ 300 <= r /\ r * 10 ^ Z.to_nat rnd <= 2 / 5 in
    ((forall r : R,
         0 < r -> r * 10 ^ Z.to_nat rnd < 1 / 2 ->
         rendered rnd (Fin r) = zeros)
     /\ PyText.float zeros = Ok (Fin 0))
    /\ (forall v : R,
           PyText.float (vp_box s) = Ok (Fin v) ->
           vanishes (v * (1 / sqrt 2)) ->
           exists t : string,
             written_near rnd (v * 2) t
             /\ calc_vp s
                = (Ok tt,
                   push_error "V-p Error"
                     (set_vrms_box zeros (set_vpp_box t s1))))
    /\ (forall d : R,
           PyText.float (dbu_box s) = Ok (Fin d) ->
           vanishes (REF_U * Rpower 10 (d / 20)) ->
           calc_dbu s
           = (Raise ValueError,
              set_vpp_box "0" (set_vp_box "0" (set_vrms_box zeros s1))))
    /\ (forall d : R,
           PyText.float (dbv_box s) = Ok (Fin d) ->
           vanishes (Rpower 10 (d / 20)) ->
           calc_dbv s
           = (Raise ValueError,
              set_vpp_box "0" (set_vp_box "0" (set_vrms_box zeros s1)))).
Proof.
  intros s Hvalid s1 rnd zeros vanishes.
  assert (Hrnd : valid_rounding rnd)
    by (apply valid_after_update_rounding, Hvalid).
  destruct (update_rounding_keeps s) as (K1 & _ & _ & K4 & K5 & _).
  fold s1 in K1, K4, K5.
  assert (Hz0 : PyText.float zeros = Ok (Fin 0))
    by (apply zeros_read_zero, Hrnd).
  assert (V : forall r : R,
             vanishes r ->
             0 < r /\ rendered rnd (Fin r) = zeros).
  { intros r [H1 H2].
    assert (0 < / 10 ^ 300) by (apply Rinv_0_lt_compat, pow_lt; lra).
    split; [ lra | ]. apply vanishing_text; lra. }
  repeat apply conj.
  - intros r H1 H2. apply vanishing_text; assumption.
  - exact Hz0.
  - intros v E Hz. destruct (V _ Hz) as [Hr Ht].
    assert (Hv : 0 < v)
      by (apply (positive_factor _ (1 / sqrt 2)); [ apply inv_sqrt2_pos | exact Hr ]).
    exists (rendered rnd (Fin (v * 2))).
    split; [ apply written_near_exact | ].
    unfold calc_vp. rewrite calc_accepted. fold s1.
    unfold vp_conversion.
    rewrite (magnitude_guard_accepts vp_box _ _ s1 (Fin v))
      by (try (rewrite K1; exact E); apply le0_positive, Hv).
    unfold try_except.
    rewrite (bind_ok _ _ _ _ _ (update_vpp_of_vp (Fin v) None s1)).
    rewrite (bind_ok _ _ _ _ _ (update_vrms_of_vp v _ _ _ _ _)).
    cbn [rounding set_vpp_box]. fold rnd. rewrite Ht.
    rewrite reread_zero_raises;
      [ reflexivity | apply update_dbu_zero | exact Hz0 ].
  - intros d E Hz. destruct (V _ Hz) as [Hr Ht].
    unfold calc_dbu. rewrite calc_accepted. fold s1.
    unfold dbu_conversion.
    rewrite (number_guard_accepts dbu_box _ _ s1 (Fin d))
      by (rewrite K4; exact E).
    rewrite (bind_ok _ _ _ _ _ (update_vrms_of_dbu _ _ _ _)). fold rnd.
    rewrite Ht.
    apply zero_vrms_then_raise; [ exact Hz0 | ].
    intros s' E'. apply reread_zero_raises; [ apply update_dbv_zero | exact E' ].
  - intros d E Hz. destruct (V _ Hz) as [Hr Ht].
    unfold calc_dbv. rewrite calc_accepted. fold s1.
    unfold dbv_conversion.
    rewrite (number_guard_accepts dbv_box _ _ s1 (Fin d))
      by (rewrite K5; exact E).
    erewrite bind_ok
      by (unfold update_vrms; apply lift_write_run, vrms_of_dbv_fin).
    fold rnd. rewrite Ht.
    apply zero_vrms_then_raise; [ exact Hz0 | ].
    intros s' E'. apply reread_zero_raises; [ apply update_dbu_zero | exact E' ].
Qed.

Lemma Rpower_10_neg_nat (n : nat) : Rpower 10 (- INR n) = / 10 ^ n.
Proof. rewrite Rpower_Ropp. f_equal. apply Rpower_pow. lra. Qed.

Lemma float_text_minus_200 : PyText.float "-200" = Ok (Fin (-200)).
Proof.
  rewrite (float_decimal "-200" true 200 0) by reflexivity.
  do 2 f_equal. simpl. lra.
Qed.

Lemma values_that_round_to_zero_witness :
  calc_dbu (set_dbu_box "-200" initial)
  = (Raise ValueError,
     set_vpp_box "0"
       (set_vp_box "0"
          (set_vrms_box "0.0000"
             (snd (update_rounding (set_dbu_box "-200" initial)))))).
Proof.
  assert (V : valid_rounding (rounding (set_dbu_box "-200" initial)))
    by (unfold valid_rounding; simpl; lia).
  pose proof (values_that_round_to_zero (set_dbu_box "-200" initial) V) as H.
  cbv zeta in H. destruct H as (_ & _ & H & _).
  change (rounding (snd (update_rounding (set_dbu_box "-200" initial))))
    with 4%Z in H.
  assert (Ez : PyText.format_fixed (Z.to_nat 4) 0 = "0.0000").
  { rewrite (format_fixed_pos _ _ 0);
      [ reflexivity | lra | rewrite pow10_4; lra ]. }
  rewrite Ez in H.
  apply (H (-200)).
  - exact float_text_minus_200.
  - pose proof (tiny_vrms_bounds (-200) ltac:(lra)) as B.
    split; [ | rewrite pow10_4; lra ].
    replace (-200 / 20) with (- INR 10) by (simpl; lra).
    rewrite Rpower_10_neg_nat.
    assert (P : 0 < / 10 ^ 10) by (apply Rinv_0_lt_compat, pow_lt; lra).
    assert (Q : / 10 ^ 300 <= / 10 ^ 11).
    { apply Rinv_le_contravar; [ apply pow_lt; lra | ].
      apply Rle_pow; [ lra | lia ]. }
    assert (E : / 10 ^ 11 = / 10 * / 10 ^ 10).
    { change (10 ^ 11) with (10 * 10 ^ 10). apply Rinv_mult. }
    unfold REF_U. nra.
Defined.

(** ** Values large enough for the chosen number of decimals *)

(** A positive value above half a unit of the last decimal reads back as a
    positive value. *)
Lemma printable_reads_positive (rnd : Z) (r : R) :
  valid_rounding rnd ->
  0 < r -> 1 / 2 < r * 10 ^ Z.to_nat rnd ->
  exists w : R,
    PyText.float (rendered rnd (Fin r)) = Ok (Fin w) /\ 0 < w.
Proof.
  intros Hv Hr Hs. unfold valid_rounding in Hv.
  destruct (PyFloat.is_whole r) eqn:Hw.
  - pose proof (is_whole_true r Hw) as E.
    exists r. rewrite (rendered_whole rnd (Zfloor r) r E).
    rewrite float_str_int, <- E. split; [ reflexivity | exact Hr ].
  - rewrite (rendered_fixed rnd r Hw).
    destruct (Z.to_nat rnd) as [| k] eqn:En; [ lia | ].
    rewrite float_format_fixed. eexists. split; [ reflexivity | ].
    rewrite Rlt_dec_false by lra. rewrite Rabs_pos_eq by lra.
    pose proof (round_half_even_error (r * 10 ^ S k)) as B.
    assert (Hm : (0 < PyText.round_half_even (r * 10 ^ S k))%Z).
    { apply lt_IZR. lra. }
    apply Rmult_lt_0_compat;
      [ apply IZR_lt, Hm | apply Rinv_0_lt_compat, pow_lt; lra ].
Qed.

Lemma update_vrms_of_dbv (d : R) (o : option pyfloat) (s : gui) :
  update_vrms None None None (Some (Fin d)) o s
  = (Ok tt, set_vrms_box (rendered (rounding s) (Fin (Rpower 10 (d / 20)))) s).
Proof. apply lift_write_run, vrms_of_dbv_fin. Qed.

Lemma update_vrms_of_dbm (z d : R) (s : gui) :
  PyText.float (impedance_box s) = Ok (Fin z) -> 0 < z ->
  update_vrms None None None None (Some (Fin d)) s
  = (Ok tt,
     set_vrms_box
       (rendered (rounding s) (Fin (sqrt (0.001 * z * Rpower 10 (d / 10)))))
       s).
Proof.
  intros Hi Hz. unfold update_vrms, try_except.
  rewrite (float_of_run _ _ _ (Fin z) Hi).
  rewrite (le0_positive z Hz).
  rewrite (lift_write_run _ _ _ _ (vrms_of_dbm_fin z d Hz)).
  reflexivity.
Qed.

Ltac reread w Hw :=
  rewrite (float_of_run _ _ _ (Fin w)) by exact Hw.

(** Over the reals, with a valid rounding and a positive impedance, a dBu,
    dBV or dBm request whose V-RMS value is above half a unit of the last
    decimal runs through: the V-RMS text reads back as a positive value and
    the four remaining boxes are written from it. *)
Lemma db_requests_over_the_reals :
  forall (s : gui) (z : R),
    valid_rounding (rounding s) ->
    PyText.float (impedance_box s) = Ok (Fin z) -> 0 < z ->
    let s1 := snd (update_rounding s) in
    let rnd := rounding s1 in
    let completes (calc : M unit) (r : R)
          (outputs : R -> gui -> gui) :=
      exists w : R,
        PyText.float (rendered rnd (Fin r)) = Ok (Fin w) /\ 0 < w
        /\ calc s
           = (Ok tt,
              outputs w
                (set_vpp_box (rendered rnd (Fin (2 * w * sqrt 2)))
                   (set_vp_box (rendered rnd (Fin (w * sqrt 2)))
                      (set_vrms_box (rendered rnd (Fin r)) s1)))) in
    let dbu w := rendered rnd (Fin (20 * PyFloat.log10 (w / REF_U))) in
    let dbv w := rendered rnd (Fin (20 * PyFloat.log10 w)) in
    let dbm w :=
      rendered rnd (Fin (10 * PyFloat.log10 (w ^ 2 / (0.001 * z)))) in
    (forall d : R,
        PyText.float (dbu_box s) = Ok (Fin d) ->
        1 / 2 < REF_U * Rpower 10 (d / 20) * 10 ^ Z.to_nat rnd ->
        completes calc_dbu (REF_U * Rpower 10 (d / 20))
          (fun w t => set_dbm_box (dbm w) (set_dbv_box (dbv w) t)))
    /\ (forall d : R,
           PyText.float (dbv_box s) = Ok (Fin d) ->
           1 / 2 < Rpower 10 (d / 20) * 10 ^ Z.to_nat rnd ->
           completes calc_dbv (Rpower 10 (d / 20))
             (fun w t => set_dbm_box (dbm w) (set_dbu_box (dbu w) t)))
    /\ (forall d : R,
           PyText.float (dbm_box s) = Ok (Fin d) ->
           1 / 2
           < sqrt (0.001 * z * Rpower 10 (d / 10)) * 10 ^ Z.to_nat rnd ->
           completes calc_dbm (sqrt (0.001 * z * Rpower 10 (d / 10)))
             (fun w t => set_dbv_box (dbv w) (set_dbu_box (dbu w) t))).
Proof.
  intros s z Hvalid Hi Hz s1 rnd completes dbu dbv dbm.
  assert (Hrnd : valid_rounding rnd)
    by (apply valid_after_update_rounding, Hvalid).
  destruct (update_rounding_keeps s) as (_ & _ & _ & K4 & K5 & K6).
  destruct (update_rounding_boxes s) as (_ & _ & Ki).
  fold s1 in K4, K5, K6, Ki. rewrite <- Ki in Hi.
  pose proof REF_U_pos as Hu.
  repeat apply conj.
  - intros d E Hp. pose proof (Rpower_pos 10 (d / 20)) as Pp.
    destruct (printable_reads_positive rnd (REF_U * Rpower 10 (d / 20)))
      as (w & Hw & Hpos); [ assumption | nra | assumption | ].
    exists w. repeat apply conj; [ exact Hw | exact Hpos | ].
    unfold calc_dbu. rewrite calc_accepted. fold s1. unfold dbu_conversion.
    rewrite (number_guard_accepts dbu_box _ _ s1 (Fin d))
      by (rewrite K4; exact E).
    rewrite (bind_ok _ _ _ _ _ (update_vrms_of_dbu _ _ _ _)). fold rnd.
    erewrite bind_ok by (reread w Hw; apply update_vp_of_vrms).
    erewrite bind_ok by (reread w Hw; apply update_vpp_of_vrms).
    erewrite bind_ok by (reread w Hw; apply update_dbv_run, Hpos).
    reread w Hw. rewrite (update_dbm_run z w) by (try exact Hi; assumption).
    reflexivity.
  - intros d E Hp. pose proof (Rpower_pos 10 (d / 20)) as Pp.
    destruct (printable_reads_positive rnd (Rpower 10 (d / 20)))
      as (w & Hw & Hpos); [ assumption | assumption | assumption | ].
    exists w. repeat apply conj; [ exact Hw | exact Hpos | ].
    unfold calc_dbv. rewrite calc_accepted. fold s1. unfold dbv_conversion.
    rewrite (number_guard_accepts dbv_box _ _ s1 (Fin d))
      by (rewrite K5; exact E).
    rewrite (bind_ok _ _ _ _ _ (update_vrms_of_dbv _ _ _)). fold rnd.
    erewrite bind_ok by (reread w Hw; apply update_vp_of_vrms).
    erewrite bind_ok by (reread w Hw; apply update_vpp_of_vrms).
    erewrite bind_ok by (reread w Hw; apply update_dbu_run, Hpos).
    reread w Hw. rewrite (update_dbm_run z w) by (try exact Hi; assumption).
    reflexivity.
  - intros d E Hp.
    assert (Hr : 0 < sqrt (0.001 * z * Rpower 10 (d / 10))).
    { apply sqrt_lt_R0. pose proof (Rpower_pos 10 (d / 10)). nra. }
    destruct (printable_reads_positive rnd
                (sqrt (0.001 * z * Rpower 10 (d / 10))))
      as (w & Hw & Hpos); [ assumption | assumption | assumption | ].
    exists w. repeat apply conj; [ exact Hw | exact Hpos | ].
    unfold calc_dbm. rewrite calc_accepted. fold s1. unfold dbm_conversion.
    rewrite (number_guard_accepts dbm_box _ _ s1 (Fin d))
      by (rewrite K6; exact E).
    rewrite (bind_ok _ _ _ _ _ (update_vrms_of_dbm z d s1 Hi Hz)). fold rnd.
    erewrite bind_ok by (reread w Hw; apply update_vp_of_vrms).
    erewrite bind_ok by (reread w Hw; apply update_vpp_of_vrms).
    erewrite bind_ok by (reread w Hw; apply update_dbu_run, Hpos).
    reread w Hw. rewrite (update_dbv_run w) by assumption.
    reflexivity.
Qed.

(** X15. With a valid rounding and an impedance between [10^-100] and
    [10^100], a dBu, dBV or dBm request whose V-RMS value is at least one unit
    of the last decimal and at most [10^100] completes: the handler returns,
    the conversion shows no dialog, and the V-RMS box holds a text that
    [float()] reads as a number above zero. *)
Theorem db_requests_that_complete :
  forall (s : gui) (z : R),
    valid_rounding (rounding s) ->
    PyText.float (impedance_box s) = Ok (Fin z) -> in_range 100 z ->
    let s1 := snd (update_rounding s) in
    let rnd := rounding s1 in
    let printable (r : R) :=
      1 <= r * 10 ^ Z.to_nat rnd /\ r <= 10 ^ 100 in
    let completes (calc : M unit) :=
      fst (calc s) = Ok tt
      /\ errors (snd (calc s)) = errors s1
      /\ exists w : R,
          PyText.float (vrms_box (snd (calc s))) = Ok (Fin w) /\ 0 < w in
    (forall d : R,
        PyText.float (dbu_box s) = Ok (Fin d) ->
        printable (REF_U * Rpower 10 (d / 20)) -> completes calc_dbu)
    /\ (forall d : R,
           PyText.float (dbv_box s) = Ok (Fin d) ->
           printable (Rpower 10 (d / 20)) -> completes calc_dbv)
    /\ (forall d : R,
           PyText.float (dbm_box s) = Ok (Fin d) ->
           printable (sqrt (0.001 * z * Rpower 10 (d / 10))) ->
           completes calc_dbm).
Proof.
  intros s z Hvalid Hi Hrange s1 rnd printable completes.
  pose proof (in_range_positive _ _ Hrange) as Hz.
  pose proof (db_requests_over_the_reals s z Hvalid Hi Hz) as H.
  cbv zeta in H. fold s1 in H. fold rnd in H.
  destruct H as (H1 & H2 & H3).
  repeat apply conj.
  - intros d E [Hp _].
    destruct (H1 d E) as (w & Hw & Hpos & Hc); [ lra | ].
    unfold completes. rewrite Hc.
    split; [ reflexivity | split; [ reflexivity | ] ].
    exists w. split; [ exact Hw | exact Hpos ].
  - intros d E [Hp _].
    destruct (H2 d E) as (w & Hw & Hpos & Hc); [ lra | ].
    unfold completes. rewrite Hc.
    split; [ reflexivity | split; [ reflexivity | ] ].
    exists w. split; [ exact Hw | exact Hpos ].
  - intros d E [Hp _].
    destruct (H3 d E) as (w & Hw & Hpos & Hc); [ lra | ].
    unfold completes. rewrite Hc.
    split; [ reflexivity | split; [ reflexivity | ] ].
    exists w. split; [ exact Hw | exact Hpos ].
Qed.

Lemma float_text_0 : PyText.float "0" = Ok (Fin 0).
Proof.
  rewrite (float_decimal "0" false 0 0) by reflexivity.
  do 2 f_equal. simpl. lra.
Qed.

Lemma db_requests_that_complete_witness :
  fst (calc_dbu (set_dbu_box "0" initial)) = Ok tt
  /\ errors (snd (calc_dbu (set_dbu_box "0" initial)))
     = errors (snd (update_rounding (set_dbu_box "0" initial))).
Proof.
  assert (V : valid_rounding (rounding (set_dbu_box "0" initial)))
    by (unfold valid_rounding; simpl; lia).
  assert (Hi : PyText.float (impedance_box (set_dbu_box "0" initial))
               = Ok (Fin 600)) by exact float_text_600.
  pose proof (db_requests_that_complete (set_dbu_box "0" initial) 600 V Hi
                in_range_600) as H.
  cbv zeta in H. destruct H as (H & _ & _).
  change (rounding (snd (update_rounding (set_dbu_box "0" initial))))
    with 4%Z in H.
  destruct (H 0) as (H1 & H2 & _).
  - exact float_text_0.
  - replace (0 / 20) with 0 by lra. rewrite Rpower_O by lra.
    assert (P : 1 <= 10 ^ 100) by (apply pow_R1_Rle; lra).
    rewrite pow10_4. unfold REF_U. split; lra.
  - split; assumption.
Defined.

(** ** The impedance and the requests *)

(** Over the reals a V-RMS request on a positive entry writes the V-p, V-pp,
    dBu and dBV boxes from the entry, and the dBm box when the impedance is
    accepted. *)
Lemma vrms_request_over_the_reals :
  forall (s : gui) (v : R),
    PyText.float (vrms_box s) = Ok (Fin v) -> 0 < v ->
    let s1 := snd (update_rounding s) in
    let rnd := rounding s1 in
    let four :=
      set_dbv_box (rendered rnd (Fin (20 * PyFloat.log10 v)))
        (set_dbu_box (rendered rnd (Fin (20 * PyFloat.log10 (v / REF_U))))
           (set_vpp_box (rendered rnd (Fin (2 * v * sqrt 2)))
              (set_vp_box (rendered rnd (Fin (v * sqrt 2))) s1))) in
    (forall z : R,
        PyText.float (impedance_box s) = Ok (Fin z) -> 0 < z ->
        calc_vrms s
        = (Ok tt,
           set_dbm_box
             (rendered rnd (Fin (10 * PyFloat.log10 (v ^ 2 / (0.001 * z)))))
             four))
    /\ (magnitude_rejected (impedance_box s) = true ->
        calc_vrms s = (Ok tt, push_error "dBm Impedance Error" four)).
Proof.
  intros s v E Hv s1 rnd four.
  destruct (update_rounding_keeps s) as (_ & _ & K3 & _).
  destruct (update_rounding_boxes s) as (_ & _ & Ki).
  fold s1 in K3, Ki. rewrite <- K3 in E.
  split.
  - intros z Hi Hz. rewrite <- Ki in Hi.
    unfold calc_vrms. rewrite calc_accepted. fold s1.
    rewrite (vrms_conversion_run v z s1 E Hv Hi Hz). reflexivity.
  - intros Hi. rewrite <- Ki in Hi.
    unfold calc_vrms. rewrite calc_accepted. fold s1.
    rewrite (vrms_conversion_refused_impedance v s1 E Hv Hi). reflexivity.
Qed.

(** X16. A V-RMS request on an entry between [10^-100] and [10^100]
    returns, and the V-p, V-pp, dBu and dBV boxes receive the texts of
    [vrms * sqrt 2], [2 * vrms * sqrt 2] (to nine significant digits),
    [20 * log10 (vrms / 0.7745966692)] and [20 * log10 vrms] (to within
    [10^-9]).  With an impedance between [10^-100] and [10^100] the dBm box
    receives the text of [10 * log10 (vrms^2 / (0.001 * Z))] and the
    conversion shows no dialog; with an impedance that [float()] cannot read
    or that is [<= 0.0] the dBm box keeps its text and the only dialog of the
    conversion is "dBm Impedance Error". *)
Theorem vrms_request_and_impedance :
  forall (s : gui) (v : R),
    PyText.float (vrms_box s) = Ok (Fin v) -> in_range 100 v ->
    let s1 := snd (update_rounding s) in
    let rnd := rounding s1 in
    let four_written (t : gui) :=
      exists t1 t2 t3 t4 : string,
        written_near rnd (v * sqrt 2) t1
        /\ written_near rnd (2 * v * sqrt 2) t2
        /\ written_within rnd (20 * PyFloat.log10 (v / REF_U)) t3
        /\ written_within rnd (20 * PyFloat.log10 v) t4
        /\ t = set_dbv_box t4
                 (set_dbu_box t3 (set_vpp_box t2 (set_vp_box t1 s1))) in
    (forall z : R,
        PyText.float (impedance_box s) = Ok (Fin z) -> in_range 100 z ->
        exists (t : gui) (t5 : string),
          four_written t
          /\ written_within rnd
               (10 * PyFloat.log10 (v ^ 2 / (0.001 * z))) t5
          /\ calc_vrms s = (Ok tt, set_dbm_box t5 t))
    /\ (magnitude_rejected (impedance_box s) = true ->
        exists t : gui,
          four_written t
          /\ calc_vrms s = (Ok tt, push_error "dBm Impedance Error" t)).
Proof.
  intros s v E Hrange s1 rnd four_written.
  pose proof (in_range_positive _ _ Hrange) as Hv.
  pose proof (vrms_request_over_the_reals s v E Hv) as H.
  cbv zeta in H. fold s1 in H. fold rnd in H. destruct H as [H1 H2].
  assert (F : four_written
                (set_dbv_box (rendered rnd (Fin (20 * PyFloat.log10 v)))
                   (set_dbu_box
                      (rendered rnd (Fin (20 * PyFloat.log10 (v / REF_U))))
                      (set_vpp_box (rendered rnd (Fin (2 * v * sqrt 2)))
                         (set_vp_box (rendered rnd (Fin (v * sqrt 2)))
                            s1))))).
  { do 4 eexists.
    split; [ apply written_near_exact | ].
    split; [ apply written_near_exact | ].
    split; [ apply written_within_exact | ].
    split; [ apply written_within_exact | reflexivity ]. }
  split.
  - intros z Hi Hz. pose proof (in_range_positive _ _ Hz) as Hzpos.
    eexists. eexists. split; [ exact F | ].
    split; [ apply written_within_exact | ].
    apply (H1 z Hi Hzpos).
  - intros Hi. eexists. split; [ exact F | ]. apply (H2 Hi).
Qed.

Lemma vrms_request_and_impedance_witness :
  exists t : gui,
    calc_vrms impedance_scenario
    = (Ok tt, push_error "dBm Impedance Error" t).
Proof.
  destruct (vrms_request_and_impedance impedance_scenario 1) as [_ H].
  - exact float_text_1.
  - apply in_range_one.
  - destruct (H magnitude_rejected_zero) as (t & _ & Hc).
    exists t. exact Hc.
Defined.




(** ** Pressing the same button again *)

Ltac settle :=
  unfold settling_level, settling, settled_box in *;
  repeat match goal with
         | H : _ /\ _ |- _ => destruct H
         | H : true = true -> _ |- _ => specialize (H eq_refl)
         end;
  cbn [fst snd rounding impedance_box vp_box vpp_box vrms_box dbu_box dbv_box
       dbm_box set_vp_box set_vpp_box set_vrms_box set_dbu_box set_dbv_box
       set_dbm_box push_error] in *;
  repeat (repeat apply conj; intros);
  first [ assumption | reflexivity | discriminate
        | left; congruence | congruence | solve [ auto ] ].

Section Settling.
Variable t : gui.

Lemma follows_bind {A B} (r1 r2 r3 : bool) (c : M A) (k : A -> M B) :
  follows t r1 r2 c -> (forall x, follows t r2 r3 (k x)) ->
  follows t r1 r3 (bind c k).
Proof.
  intros Hc Hk a b H. destruct (Hc a b H) as (Hf & Hs & Hq). unfold bind.
  destruct (c a) as [[x | e] a'], (c b) as [[y | e'] b']; simpl in *;
    try discriminate.
  - injection Hf as <-. apply Hk. apply (Hq x). reflexivity.
  - injection Hf as <-.
    split; [ reflexivity | split; [ assumption | intros x Hx; discriminate Hx ] ].
Qed.

Lemma follows_weaken {A} (r1 r2 : bool) (m : M A) :
  follows t r1 r2 m -> follows t true false m.
Proof.
  intros Hm a b H.
  assert (H' : settling_level r1 t a b) by (destruct H; split; auto).
  destruct (Hm a b H') as (Hf & Hs & Hq).
  split; [ assumption | split; [ assumption | ] ].
  intros x Hx. split; [ assumption | discriminate ].
Qed.

Lemma follows_from_false {A} (r : bool) (m : M A) :
  follows t false r m -> forall r0 : bool, follows t r0 r m.
Proof.
  intros Hm r0 a b H. apply Hm. destruct H. split; [ assumption | discriminate ].
Qed.

Lemma follows_showerror (title : string) (r : bool) :
  follows t r r (showerror title).
Proof. intros a b H. unfold showerror, modify. settle. Qed.

Lemma follows_try_except (r : bool) (body handler : M unit) :
  follows t r false body -> follows t false false handler ->
  follows t r false (try_except body handler).
Proof.
  intros Hb Hh a b H. destruct (Hb a b H) as (Hf & Hs & Hq).
  unfold try_except.
  destruct (body a) as [[x | e] a'], (body b) as [[y | e'] b']; simpl in *;
    try discriminate.
  - split; [ assumption | split; [ assumption | ] ].
    intros x' _. split; [ assumption | discriminate ].
  - injection Hf as <-.
    destruct e;
      [ apply Hh; split; [ assumption | discriminate ] | | ];
      (split;
       [ reflexivity | split; [ assumption | intros x Hx; discriminate Hx ] ]).
Qed.

Lemma follows_float_of_vrms : follows t true true (float_of vrms_box).
Proof.
  intros a b H. unfold float_of, bind, gets, lift.
  assert (E : vrms_box a = vrms_box b) by (destruct H as [_ H]; auto).
  rewrite E. destruct (PyText.float (vrms_box b)); settle.
Qed.

Lemma follows_write_vp (r : bool) (c : result pyfloat) :
  follows t r r (v <- lift c ;; write_box set_vp_box v).
Proof. intros a b H. rewrite !lift_write_cases. destruct c; settle. Qed.

Lemma follows_write_vpp (r : bool) (c : result pyfloat) :
  follows t r r (v <- lift c ;; write_box set_vpp_box v).
Proof. intros a b H. rewrite !lift_write_cases. destruct c; settle. Qed.

Lemma follows_write_vrms (r : bool) (c : result pyfloat) :
  follows t r true (v <- lift c ;; write_box set_vrms_box v).
Proof. intros a b H. rewrite !lift_write_cases. destruct c; settle. Qed.

Lemma follows_update_vp (r : bool) (vpp vrms : option pyfloat) :
  follows t r r (update_vp vpp vrms).
Proof.
  unfold update_vp. destruct vpp, vrms; try apply follows_write_vp.
  intros a b H. unfold ret. settle.
Qed.

Lemma follows_update_vpp (r : bool) (vp vrms : option pyfloat) :
  follows t r r (update_vpp vp vrms).
Proof.
  unfold update_vpp. destruct vp, vrms; try apply follows_write_vpp.
  intros a b H. unfold ret. settle.
Qed.

Lemma follows_update_dbu (r : bool) (v : pyfloat) :
  follows t r r (update_dbu v).
Proof.
  intros a b H. rewrite !update_dbu_cases. destruct (dbu_of_vrms v); settle.
Qed.

Lemma follows_update_dbv (r : bool) (v : pyfloat) :
  follows t r r (update_dbv v).
Proof.
  intros a b H. rewrite !update_dbv_cases. destruct (dbv_of_vrms v); settle.
Qed.

Lemma follows_update_dbm (r : bool) (v : pyfloat) :
  follows t r r (update_dbm v).
Proof.
  intros a b H. rewrite !update_dbm_cases.
  assert (Hi : impedance_box a = impedance_box b) by (destruct H as [H _]; apply H).
  rewrite Hi.
  destruct (PyText.float (impedance_box b)) as [z | e]; [ | settle ].
  destruct (PyFloat.le0 z); [ settle | ].
  destruct (dbm_of_vrms z v) as [x | []]; settle.
Qed.

(** The helpers that read the V-RMS box back first. *)
Lemma follows_reread (r : bool) (helper : pyfloat -> M unit) :
  (forall v, follows t true r (helper v)) ->
  follows t true r (v <- float_of vrms_box ;; helper v).
Proof.
  intros H. apply follows_bind with (r2 := true);
    [ apply follows_float_of_vrms | exact H ].
Qed.
End Settling.

Lemma update_vrms_dbm_cases (x : pyfloat) (s : gui) :
  update_vrms None None None None (Some x) s
  = match PyText.float (impedance_box s) with
    | Ok z =>
        if PyFloat.le0 z
        then (Ok tt, push_error "dBm Impedance Error" s)
        else match vrms_of_dbm z x with
             | Ok y => (Ok tt, set_vrms_box (rendered (rounding s) y) s)
             | Raise ValueError =>
                 (Ok tt, push_error "dBm Impedance Error" s)
             | Raise e => (Raise e, s)
             end
    | Raise _ => (Ok tt, push_error "dBm Impedance Error" s)
    end.
Proof.
  unfold update_vrms, try_except.
  destruct (PyText.float (impedance_box s)) as [z | e] eqn:E.
  - rewrite (float_of_run _ _ _ z E).
    destruct (PyFloat.le0 z); [ reflexivity | ].
    rewrite lift_write_cases.
    destruct (vrms_of_dbm z x) as [y | []]; reflexivity.
  - rewrite (float_of_raise _ _ _ e E).
    rewrite (float_raises_value_error _ _ E). reflexivity.
Qed.

Ltac follow :=
  repeat first
    [ apply follows_reread; intros
    | apply follows_update_vp
    | apply follows_update_vpp
    | apply follows_write_vrms
    | apply follows_update_dbu
    | apply follows_update_dbv
    | apply follows_update_dbm
    | apply follows_showerror
    | eapply follows_bind; [ | intros ] ].

Lemma follows_post {A} (t : gui) (r1 r2 : bool) (m : M A) :
  follows t r1 r2 m -> follows t r1 false m.
Proof.
  intros Hm a b H. destruct (Hm a b H) as (Hf & Hs & Hq).
  split; [ assumption | split; [ assumption | ] ].
  intros x Hx. split; [ assumption | discriminate ].
Qed.

Lemma settling_start (t a b : gui) (reread : bool) :
  settling t a b -> (reread = true -> vrms_box a = vrms_box b) ->
  settling_level reread t a b.
Proof. intros H1 H2. split; assumption. Qed.

(** The second run of each conversion beside the first. *)

Lemma vp_conversion_again (t a b : gui) :
  settling t a b -> vp_box a = vp_box b ->
  fst (vp_conversion a) = fst (vp_conversion b)
  /\ settling t (snd (vp_conversion a)) (snd (vp_conversion b)).
Proof.
  intros H E. unfold vp_conversion.
  destruct (magnitude_rejected (vp_box a)) eqn:G.
  - rewrite (magnitude_guard_rejects vp_box _ _ a G).
    rewrite E in G. rewrite (magnitude_guard_rejects vp_box _ _ b G).
    settle.
  - destruct (magnitude_accepted_inv _ G) as (v & Ev & Hv).
    rewrite (magnitude_guard_accepts vp_box _ _ a v Ev Hv).
    rewrite E in Ev. rewrite (magnitude_guard_accepts vp_box _ _ b v Ev Hv).
    assert (F : follows t false false
                  (try_except
                     (update_vpp (Some v) None ;;
                      update_vrms (Some v) None None None None ;;
                      (w <- float_of vrms_box ;; update_dbu w) ;;
                      (w <- float_of vrms_box ;; update_dbv w) ;;
                      (w <- float_of vrms_box ;; update_dbm w))
                     (showerror "V-p Error"))).
    { apply follows_try_except; [ | follow ].
      apply (follows_post t false true). unfold update_vrms. follow. }
    destruct (F a b (settling_start t a b false H ltac:(discriminate)))
      as (F1 & F2 & _).
    split; assumption.
Qed.

Lemma vpp_conversion_again (t a b : gui) :
  settling t a b -> vpp_box a = vpp_box b ->
  fst (vpp_conversion a) = fst (vpp_conversion b)
  /\ settling t (snd (vpp_conversion a)) (snd (vpp_conversion b)).
Proof.
  intros H E. unfold vpp_conversion.
  destruct (magnitude_rejected (vpp_box a)) eqn:G.
  - rewrite (magnitude_guard_rejects vpp_box _ _ a G).
    rewrite E in G. rewrite (magnitude_guard_rejects vpp_box _ _ b G).
    settle.
  - destruct (magnitude_accepted_inv _ G) as (v & Ev & Hv).
    rewrite (magnitude_guard_accepts vpp_box _ _ a v Ev Hv).
    rewrite E in Ev. rewrite (magnitude_guard_accepts vpp_box _ _ b v Ev Hv).
    assert (F : follows t false false
                  (try_except
                     (update_vp (Some v) None ;;
                      update_vrms None (Some v) None None None ;;
                      (w <- float_of vrms_box ;; update_dbu w) ;;
                      (w <- float_of vrms_box ;; update_dbv w) ;;
                      (w <- float_of vrms_box ;; update_dbm w))
                     (showerror "V-pp Error"))).
    { apply follows_try_except; [ | follow ].
      apply (follows_post t false true). unfold update_vrms. follow. }
    destruct (F a b (settling_start t a b false H ltac:(discriminate)))
      as (F1 & F2 & _).
    split; assumption.
Qed.

Lemma vrms_conversion_again (t a b : gui) :
  settling t a b -> vrms_box a = vrms_box b ->
  fst (vrms_conversion a) = fst (vrms_conversion b)
  /\ settling t (snd (vrms_conversion a)) (snd (vrms_conversion b)).
Proof.
  intros H E. unfold vrms_conversion.
  destruct (magnitude_rejected (vrms_box a)) eqn:G.
  - rewrite (magnitude_guard_rejects vrms_box _ _ a G).
    rewrite E in G. rewrite (magnitude_guard_rejects vrms_box _ _ b G).
    settle.
  - destruct (magnitude_accepted_inv _ G) as (v & Ev & Hv).
    rewrite (magnitude_guard_accepts vrms_box _ _ a v Ev Hv).
    pose proof Ev as Ev'. rewrite E in Ev'.
    rewrite (magnitude_guard_accepts vrms_box _ _ b v Ev' Hv).
    assert (F : follows t true false
                  (try_except
                     (update_vp None (Some v) ;;
                      update_vpp None (Some v) ;;
                      update_dbu v ;; update_dbv v ;; update_dbm v)
                     (showerror "V-RMS Error"))).
    { apply follows_try_except; [ | follow ].
      apply (follows_post t true true). follow. }
    destruct (F a b (settling_start t a b true H (fun _ => E)))
      as (F1 & F2 & _).
    split; assumption.
Qed.

Lemma dbu_conversion_again (t a b : gui) :
  settling t a b -> dbu_box a = dbu_box b ->
  fst (dbu_conversion a) = fst (dbu_conversion b)
  /\ settling t (snd (dbu_conversion a)) (snd (dbu_conversion b)).
Proof.
  intros H E. unfold dbu_conversion.
  destruct (number_rejected (dbu_box a)) eqn:G.
  - rewrite (number_guard_rejects dbu_box _ _ a G).
    rewrite E in G. rewrite (number_guard_rejects dbu_box _ _ b G).
    settle.
  - destruct (number_accepted_inv _ G) as (v & Ev).
    rewrite (number_guard_accepts dbu_box _ _ a v Ev).
    rewrite E in Ev. rewrite (number_guard_accepts dbu_box _ _ b v Ev).
    assert (F : follows t false true
                  (update_vrms None None (Some v) None None ;;
                   (w <- float_of vrms_box ;; update_vp None (Some w)) ;;
                   (w <- float_of vrms_box ;; update_vpp None (Some w)) ;;
                   (w <- float_of vrms_box ;; update_dbv w) ;;
                   (w <- float_of vrms_box ;; update_dbm w))).
    { unfold update_vrms. follow. }
    destruct (F a b (settling_start t a b false H ltac:(discriminate)))
      as (F1 & F2 & _).
    split; assumption.
Qed.

Lemma dbv_conversion_again (t a b : gui) :
  settling t a b -> dbv_box a = dbv_box b ->
  fst (dbv_conversion a) = fst (dbv_conversion b)
  /\ settling t (snd (dbv_conversion a)) (snd (dbv_conversion b)).
Proof.
  intros H E. unfold dbv_conversion.
  destruct (number_rejected (dbv_box a)) eqn:G.
  - rewrite (number_guard_rejects dbv_box _ _ a G).
    rewrite E in G. rewrite (number_guard_rejects dbv_box _ _ b G).
    settle.
  - destruct (number_accepted_inv _ G) as (v & Ev).
    rewrite (number_guard_accepts dbv_box _ _ a v Ev).
    rewrite E in Ev. rewrite (number_guard_accepts dbv_box _ _ b v Ev).
    assert (F : follows t false true
                  (update_vrms None None None (Some v) None ;;
                   (w <- float_of vrms_box ;; update_vp None (Some w)) ;;
                   (w <- float_of vrms_box ;; update_vpp None (Some w)) ;;
                   (w <- float_of vrms_box ;; update_dbu w) ;;
                   (w <- float_of vrms_box ;; update_dbm w))).
    { unfold update_vrms. follow. }
    destruct (F a b (settling_start t a b false H ltac:(discriminate)))
      as (F1 & F2 & _).
    split; assumption.
Qed.

(** In the dBm handler [update_vrms] may leave the V-RMS box alone, and the
    helpers that follow read the text it already held: the second run reads
    the same text, since the first run did not write the box either. *)
Lemma dbm_conversion_again (a b : gui) :
  let t := snd (dbm_conversion a) in
  settling t a b -> dbm_box a = dbm_box b ->
  fst (dbm_conversion a) = fst (dbm_conversion b)
  /\ settling t (snd (dbm_conversion a)) (snd (dbm_conversion b)).
Proof.
  intros t H E.
  destruct (number_rejected (dbm_box a)) eqn:G.
  - unfold dbm_conversion.
    rewrite (number_guard_rejects dbm_box _ _ a G).
    rewrite E in G. rewrite (number_guard_rejects dbm_box _ _ b G).
    settle.
  - destruct (number_accepted_inv _ G) as (v & Ev).
    set (tail := (w <- float_of vrms_box ;; update_vp None (Some w)) ;;
                 (w <- float_of vrms_box ;; update_vpp None (Some w)) ;;
                 (w <- float_of vrms_box ;; update_dbu w) ;;
                 (w <- float_of vrms_box ;; update_dbv w)).
    assert (Ha : dbm_conversion a
                 = (update_vrms None None None None (Some v) ;; tail) a)
      by (unfold dbm_conversion;
          rewrite (number_guard_accepts dbm_box _ _ a v Ev); reflexivity).
    assert (Hb : dbm_conversion b
                 = (update_vrms None None None None (Some v) ;; tail) b)
      by (unfold dbm_conversion; rewrite E in Ev;
          rewrite (number_guard_accepts dbm_box _ _ b v Ev); reflexivity).
    assert (F : follows t true true tail) by (unfold tail; follow).
    assert (Fr : preserves vrms_box tail) by (unfold tail; frame_calls).
    assert (Go : forall a1 b1 : gui,
               settling_level true t a1 b1 ->
               fst (tail a1) = fst (tail b1)
               /\ settling t (snd (tail a1)) (snd (tail b1))).
    { intros a1 b1 H1. destruct (F a1 b1 H1) as (F1 & F2 & _).
      split; assumption. }
    assert (Hr : rounding a = rounding b) by apply H.
    assert (Hi : impedance_box a = impedance_box b) by apply H.
    assert (Stay : forall title : string,
               dbm_conversion a = tail (push_error title a) ->
               vrms_box a = vrms_box b).
    { intros title Hd.
      assert (Ht : vrms_box t = vrms_box a).
      { unfold t. rewrite Hd. rewrite Fr. reflexivity. }
      destruct H as (_ & _ & _ & _ & [Hv | Hv] & _);
        [ symmetry; exact Hv | rewrite <- Ht; symmetry; exact Hv ]. }
    revert Stay. rewrite Ha, Hb. unfold bind.
    rewrite !update_vrms_dbm_cases, <- Hi, <- Hr.
    destruct (PyText.float (impedance_box a)) as [z | e].
    + destruct (PyFloat.le0 z).
      * intros Stay. apply Go. specialize (Stay _ eq_refl). settle.
      * destruct (vrms_of_dbm z v) as [y | []].
        -- intros _. apply Go. settle.
        -- intros Stay. apply Go. specialize (Stay _ eq_refl). settle.
        -- intros _. settle.
        -- intros _. settle.
    + intros Stay. apply Go. specialize (Stay _ eq_refl). settle.
Qed.

(** [update_rounding] on a window whose stored rounding already is what the
    spinbox asks for. *)
Lemma update_rounding_again (s : gui) :
  let t := snd (update_rounding s) in
  forall u : gui,
    rounding_spinbox u = rounding_spinbox s -> rounding u = rounding t ->
    rounding (snd (update_rounding u)) = rounding u.
Proof.
  intros t u Hs Hr.
  destruct (update_rounding_cases u) as [(v & Hp & Hv & ->) | (_ & ->)];
    [ | reflexivity ].
  cbn [snd rounding set_rounding]. rewrite Hr. unfold t.
  rewrite Hs in Hp.
  destruct (update_rounding_cases s) as [(v' & Hp' & _ & ->) | (Hn & _)].
  - cbn [snd rounding set_rounding]. congruence.
  - destruct (Hn v Hp Hv).
Qed.

Lemma repeat_request (src : gui -> string) (conv : M unit) :
  preserves src update_rounding ->
  preserves src conv -> preserves rounding conv ->
  preserves rounding_spinbox conv -> preserves impedance_box conv ->
  (forall a b : gui,
      let t := snd (conv a) in
      settling t a b -> src a = src b ->
      fst (conv a) = fst (conv b) /\ settling t t (snd (conv b))) ->
  repeatable (update_rounding ;; conv).
Proof.
  intros Pu Ps Pr Pp Pi Hsim s. cbv zeta. rewrite !calc_accepted.
  set (a := snd (update_rounding s)).
  set (t := snd (conv a)).
  set (b := snd (update_rounding t)).
  assert (Hspin : rounding_spinbox t = rounding_spinbox s).
  { unfold t. rewrite Pp. unfold a.
    destruct (update_rounding_cases s) as [(v & _ & _ & ->) | (_ & ->)];
      reflexivity. }
  assert (Hround : rounding b = rounding t).
  { apply (update_rounding_again s); [ exact Hspin | apply Pr ]. }
  destruct (update_rounding_keeps t) as (K1 & K2 & K3 & K4 & K5 & K6).
  destruct (update_rounding_boxes t) as (_ & _ & Ki).
  fold b in K1, K2, K3, K4, K5, K6, Ki.
  assert (S0 : settling t a b).
  { unfold settling, settled_box.
    repeat apply conj; try (right; assumption).
    - rewrite Hround. symmetry. apply Pr.
    - rewrite Ki. symmetry. apply Pi. }
  assert (E0 : src a = src b).
  { unfold b. rewrite Pu. symmetry. apply Ps. }
  destruct (Hsim a b S0 E0) as (Hf & Hs). fold t in Hs.
  destruct Hs as (R & _ & [B1 | B1] & [B2 | B2] & [B3 | B3] & [B4 | B4]
                  & [B5 | B5] & [B6 | B6]).
  all: repeat apply conj;
    [ symmetry; exact Hf
    | unfold boxes; rewrite B1, B2, B3, B4, B5, B6; reflexivity
    | symmetry; exact R ].
Qed.

Lemma update_rounding_frame {X : Type} (proj : gui -> X) :
  (forall v s, proj (set_rounding v s) = proj s) ->
  (forall e s, proj (push_error e s) = proj s) ->
  preserves proj update_rounding.
Proof.
  intros H1 H2 s.
  destruct (update_rounding_cases s) as [(v & _ & _ & ->) | (_ & ->)];
    [ apply H1 | apply H2 ].
Qed.

(** X18. Pressing the same "Convert" button a second time, with nothing
    typed in between, ends as the first press did (normally, or with the same
    exception) and leaves all six boxes and the stored rounding as the first
    press left them; only dialogs are shown again.  This holds of each of the
    six handlers and of every window, also when the first press failed half
    way. *)
Theorem second_press_changes_no_box :
  repeatable calc_vp /\ repeatable calc_vpp /\ repeatable calc_vrms
  /\ repeatable calc_dbu /\ repeatable calc_dbv /\ repeatable calc_dbm.
Proof.
  repeat apply conj.
  - apply (repeat_request vp_box);
      [ apply update_rounding_frame; reflexivity
      | unfold vp_conversion; frame_calls .. | ].
    intros a b t H E. apply vp_conversion_again; assumption.
  - apply (repeat_request vpp_box);
      [ apply update_rounding_frame; reflexivity
      | unfold vpp_conversion; frame_calls .. | ].
    intros a b t H E. apply vpp_conversion_again; assumption.
  - apply (repeat_request vrms_box);
      [ apply update_rounding_frame; reflexivity
      | unfold vrms_conversion; frame_calls .. | ].
    intros a b t H E. apply vrms_conversion_again; assumption.
  - apply (repeat_request dbu_box);
      [ apply update_rounding_frame; reflexivity
      | unfold dbu_conversion; frame_calls .. | ].
    intros a b t H E. apply dbu_conversion_again; assumption.
  - apply (repeat_request dbv_box);
      [ apply update_rounding_frame; reflexivity
      | unfold dbv_conversion; frame_calls .. | ].
    intros a b t H E. apply dbv_conversion_again; assumption.
  - apply (repeat_request dbm_box);
      [ apply update_rounding_frame; reflexivity
      | unfold dbm_conversion; frame_calls .. | ].
    intros a b t H E. apply dbm_conversion_again; assumption.
Qed.

(** ** Voltage requests that complete *)

Lemma update_vp_of_vpp (r : R) (o : option pyfloat) (s : gui) :
  update_vp (Some (Fin r)) o s
  = (Ok tt, set_vp_box (rendered (rounding s) (Fin (r / 2))) s).
Proof. apply lift_write_run, vp_of_vpp_fin. Qed.

Lemma update_vrms_of_vpp (r : R) (o1 o2 o3 : option pyfloat) (s : gui) :
  update_vrms None (Some (Fin r)) o1 o2 o3 s
  = (Ok tt,
     set_vrms_box (rendered (rounding s) (Fin (r / 2 * (1 / sqrt 2)))) s).
Proof. apply lift_write_run, vrms_of_vpp_fin. Qed.

(** Over the reals, with a valid rounding and a positive impedance, a V-p
    or V-pp request whose V-RMS value is above half a unit of the last decimal
    runs through: the V-RMS text reads back as a positive value and the three
    dB boxes are written from it. *)
Lemma voltage_requests_over_the_reals :
  forall (s : gui) (z : R),
    valid_rounding (rounding s) ->
    PyText.float (impedance_box s) = Ok (Fin z) -> 0 < z ->
    let s1 := snd (update_rounding s) in
    let rnd := rounding s1 in
    let db_written (w : R) (t : gui) :=
      set_dbm_box
        (rendered rnd (Fin (10 * PyFloat.log10 (w ^ 2 / (0.001 * z)))))
        (set_dbv_box (rendered rnd (Fin (20 * PyFloat.log10 w)))
           (set_dbu_box (rendered rnd (Fin (20 * PyFloat.log10 (w / REF_U))))
              t)) in
    (forall v : R,
        PyText.float (vp_box s) = Ok (Fin v) ->
        1 / 2 < v * (1 / sqrt 2) * 10 ^ Z.to_nat rnd ->
        exists w : R,
          PyText.float (rendered rnd (Fin (v * (1 / sqrt 2)))) = Ok (Fin w)
          /\ 0 < w
          /\ calc_vp s
             = (Ok tt,
                db_written w
                  (set_vrms_box (rendered rnd (Fin (v * (1 / sqrt 2))))
                     (set_vpp_box (rendered rnd (Fin (v * 2))) s1))))
    /\ (forall v : R,
           PyText.float (vpp_box s) = Ok (Fin v) ->
           1 / 2 < v / 2 * (1 / sqrt 2) * 10 ^ Z.to_nat rnd ->
           exists w : R,
             PyText.float (rendered rnd (Fin (v / 2 * (1 / sqrt 2))))
             = Ok (Fin w)
             /\ 0 < w
             /\ calc_vpp s
                = (Ok tt,
                   db_written w
                     (set_vrms_box
                        (rendered rnd (Fin (v / 2 * (1 / sqrt 2))))
                        (set_vp_box (rendered rnd (Fin (v / 2))) s1)))).
Proof.
  intros s z Hvalid Hi Hz s1 rnd db_written.
  assert (Hrnd : valid_rounding rnd)
    by (apply valid_after_update_rounding, Hvalid).
  destruct (update_rounding_keeps s) as (K1 & K2 & _).
  destruct (update_rounding_boxes s) as (_ & _ & Ki).
  fold s1 in K1, K2, Ki. rewrite <- Ki in Hi.
  assert (HP : 0 < 10 ^ Z.to_nat rnd) by (apply pow_lt; lra).
  pose proof inv_sqrt2_pos as Hq.
  split.
  - intros v E Hp.
    assert (Hr : 0 < v * (1 / sqrt 2))
      by (apply (positive_factor _ (10 ^ Z.to_nat rnd)); [ exact HP | lra ]).
    assert (Hv : 0 < v) by (apply (positive_factor _ (1 / sqrt 2)); assumption).
    destruct (printable_reads_positive rnd (v * (1 / sqrt 2)))
      as (w & Hw & Hpos); [ assumption | assumption | assumption | ].
    exists w. split; [ exact Hw | split; [ exact Hpos | ] ].
    unfold calc_vp. rewrite calc_accepted. fold s1. unfold vp_conversion.
    rewrite (magnitude_guard_accepts vp_box _ _ s1 (Fin v))
      by (try (rewrite K1; exact E); apply le0_positive, Hv).
    unfold try_except.
    rewrite (bind_ok _ _ _ _ _ (update_vpp_of_vp (Fin v) None s1)).
    rewrite (bind_ok _ _ _ _ _ (update_vrms_of_vp v _ _ _ _ _)).
    erewrite bind_ok by (reread w Hw; apply update_dbu_run, Hpos).
    erewrite bind_ok by (reread w Hw; apply update_dbv_run, Hpos).
    reread w Hw. rewrite (update_dbm_run z w) by (try exact Hi; assumption).
    reflexivity.
  - intros v E Hp.
    assert (Hr : 0 < v / 2 * (1 / sqrt 2))
      by (apply (positive_factor _ (10 ^ Z.to_nat rnd)); [ exact HP | lra ]).
    assert (Hv : 0 < v).
    { assert (0 < v / 2)
        by (apply (positive_factor _ (1 / sqrt 2)); assumption).
      lra. }
    destruct (printable_reads_positive rnd (v / 2 * (1 / sqrt 2)))
      as (w & Hw & Hpos); [ assumption | assumption | assumption | ].
    exists w. split; [ exact Hw | split; [ exact Hpos | ] ].
    unfold calc_vpp. rewrite calc_accepted. fold s1. unfold vpp_conversion.
    rewrite (magnitude_guard_accepts vpp_box _ _ s1 (Fin v))
      by (try (rewrite K2; exact E); apply le0_positive, Hv).
    unfold try_except.
    rewrite (bind_ok _ _ _ _ _ (update_vp_of_vpp v None s1)).
    rewrite (bind_ok _ _ _ _ _ (update_vrms_of_vpp v _ _ _ _)).
    erewrite bind_ok by (reread w Hw; apply update_dbu_run, Hpos).
    erewrite bind_ok by (reread w Hw; apply update_dbv_run, Hpos).
    reread w Hw. rewrite (update_dbm_run z w) by (try exact Hi; assumption).
    reflexivity.
Qed.

(** X19. With a valid rounding and an impedance between [10^-100] and
    [10^100], a V-p or V-pp request whose V-RMS value is at least one unit of
    the last decimal and at most [10^100] completes: the handler returns, the
    conversion shows no dialog, and the V-RMS box holds a text that [float()]
    reads as a number above zero. *)
Theorem voltage_requests_that_complete :
  forall (s : gui) (z : R),
    valid_rounding (rounding s) ->
    PyText.float (impedance_box s) = Ok (Fin z) -> in_range 100 z ->
    let s1 := snd (update_rounding s) in
    let rnd := rounding s1 in
    let printable (r : R) :=
      1 <= r * 10 ^ Z.to_nat rnd /\ r <= 10 ^ 100 in
    let completes (calc : M unit) :=
      fst (calc s) = Ok tt
      /\ errors (snd (calc s)) = errors s1
      /\ exists w : R,
          PyText.float (vrms_box (snd (calc s))) = Ok (Fin w) /\ 0 < w in
    (forall v : R,
        PyText.float (vp_box s) = Ok (Fin v) ->
        printable (v * (1 / sqrt 2)) -> completes calc_vp)
    /\ (forall v : R,
           PyText.float (vpp_box s) = Ok (Fin v) ->
           printable (v / 2 * (1 / sqrt 2)) -> completes calc_vpp).
Proof.
  intros s z Hvalid Hi Hrange s1 rnd printable completes.
  pose proof (in_range_positive _ _ Hrange) as Hz.
  pose proof (voltage_requests_over_the_reals s z Hvalid Hi Hz) as H.
  cbv zeta in H. fold s1 in H. fold rnd in H.
  destruct H as (H1 & H2).
  split.
  - intros v E [Hp _].
    destruct (H1 v E) as (w & Hw & Hpos & Hc); [ lra | ].
    unfold completes. rewrite Hc.
    split; [ reflexivity | split; [ reflexivity | ] ].
    exists w. split; [ exact Hw | exact Hpos ].
  - intros v E [Hp _].
    destruct (H2 v E) as (w & Hw & Hpos & Hc); [ lra | ].
    unfold completes. rewrite Hc.
    split; [ reflexivity | split; [ reflexivity | ] ].
    exists w. split; [ exact Hw | exact Hpos ].
Qed.

Lemma voltage_requests_that_complete_witness :
  fst (calc_vp (set_vp_box "2" initial)) = Ok tt
  /\ errors (snd (calc_vp (set_vp_box "2" initial)))
     = errors (snd (update_rounding (set_vp_box "2" initial))).
Proof.
  assert (V : valid_rounding (rounding (set_vp_box "2" initial)))
    by (unfold valid_rounding; simpl; lia).
  assert (Hi : PyText.float (impedance_box (set_vp_box "2" initial))
               = Ok (Fin 600)) by exact float_text_600.
  pose proof (voltage_requests_that_complete (set_vp_box "2" initial) 600
                V Hi in_range_600) as H.
  cbv zeta in H. destruct H as (H & _).
  change (rounding (snd (update_rounding (set_vp_box "2" initial))))
    with 4%Z in H.
  destruct (H 2) as (H1 & H2 & _).
  - exact float_text_2.
  - pose proof inv_sqrt2_bounds as B.
    assert (P : 1 <= 10 ^ 100) by (apply pow_R1_Rle; lra).
    rewrite pow10_4. split; lra.
  - split; assumption.
Defined.
